(** * The discord-economy ledger, cooldown gate and shop engine

    A shallow embedding of the economy engine ([Economy] class: balance
    ledger, [daily]/[work]/[weekly] rewards and the [shop] object) and of
    the reward manager of the MongoDB flavour ([RewardManager]).

    Conventions of the embedding:
    - the storage file is a JSON document; every [JSON.parse(readFileSync ...)]
      is a read of the [storage] component of the world and every
      [writeFileSync(..., JSON.stringify obj)] replaces it;
    - balances, prices and amounts are the integer-valued numbers of the
      data model; they are doubles, so the sum or difference a ledger
      operation stores, and the product and the sum of a reward draw, are
      the exact ones rounded to the nearest double, ties to even ([double]):
      exact up to [2^53] and rounded beyond. Fractional amounts, infinities
      and magnitudes from [2^1024] on are outside the data model. [NaN] is
      kept because the code can produce it, and [JSON.stringify] turns it
      into [null];
    - timestamps and cooldowns are counts of milliseconds, far below [2^53]
      (a clock reading is at most [8.64 * 10^15]), where the arithmetic of
      the cooldown test is exact;
    - a reward call reads the clock twice: [now] is the reading it tests the
      cooldown with, [later] the reading it computes the returned time left
      from (when it refuses) or stores as the new timestamp (when it
      grants); the reward manager tests and returns from one reading and
      stores a second one;
    - [Math.random()] is a number of [[0, 1)], passed in as [random], and
      [new Date().toLocaleString ...] is passed in as [date];
    - the ledger and the shop are modelled once [init] has completed
      ([ready] is true) and for string [memberID]/[guildID] arguments, so
      the guards on [ready] and on [typeof memberID], [typeof guildID] never
      fire; [init] itself is modelled with what it finds when it starts
      ([Startup]);
    - [leaderboard] and [bankLeaderboard] are outside the embedding: their
      result depends on the key order of the guild object and on a sort whose
      comparator yields [NaN] on the [shop] key, which a finite map from
      names to slots does not determine. *)

From Stdlib Require Import ZArith QArith Qround Qabs Qpower Lia Lqa.
From stdpp Require Import gmap strings list pretty.

Close Scope Q_scope.
Local Open Scope Z_scope.

(** ** JavaScript values *)

(** A JavaScript number of the data model: an integer or [NaN]. *)
Inductive num := NaN | Int (z : Z).

(** The scalar values a caller can pass and a JSON document can hold
    ([VUndefined] is an absent key or a missing argument). *)
Inductive Value := VUndefined | VNull | VNum (n : num) | VStr (s : string).

#[global] Instance num_eq_dec : EqDecision num.
Proof. solve_decision. Defined.

#[global] Instance Value_eq_dec : EqDecision Value.
Proof. solve_decision. Defined.

(** What the host's JavaScript runtime and the [ms] package provide:
    the string-to-number conversion used by [Number], [isNaN] and [==], and
    the pretty printer of a duration in milliseconds. *)
Class Host := {
  StringToNumber : string → num;
  ms : Z → string
}.

(** Round-half-even of a rational to an integer. *)
Definition rne (q : Q) : Z :=
  let f := Qfloor q in
  match (q - inject_Z f ?= 1 # 2)%Q with
  | Lt => f
  | Gt => f + 1
  | Eq => if Z.even f then f else f + 1
  end.

(** [floor (log2 |x|)], for [x] other than 0. *)
Definition binade (x : Q) : Z :=
  let k := Z.log2 (Z.abs (Qnum x)) - Z.log2 (Zpos (Qden x)) in
  if Qle_bool (2 ^ k) (Qabs x) then k else k - 1.

(** The double nearest to [x], ties to even: the doubles around [x] are the
    multiples of [2^(binade x - 52)], and of [2^-1074] near 0. This is how
    JavaScript rounds the exact result of [+], [-] and [*]. *)
Definition double (x : Q) : Q :=
  let e := Z.max (binade x - 52) (-1074) in
  (inject_Z (rne (x / 2 ^ e)) * 2 ^ e)%Q.

(** The same on an integer: the result is an integer again. *)
Definition doubleZ (z : Z) : Z := Qfloor (double (inject_Z z)).

(** [a + b] and [a - b] on numbers. *)
Definition num_add (a b : num) : num :=
  match a, b with Int x, Int y => Int (doubleZ (x + y)) | _, _ => NaN end.

Definition num_sub (a b : num) : num :=
  match a, b with Int x, Int y => Int (doubleZ (x - y)) | _, _ => NaN end.

(** [a == b] on numbers: [NaN] equals nothing. *)
Definition num_eqb (a b : num) : bool :=
  match a, b with Int x, Int y => bool_decide (x = y) | _, _ => false end.

(** [a >= b] on numbers: false as soon as one side is [NaN]. *)
Definition num_geb (a b : num) : bool :=
  match a, b with Int x, Int y => bool_decide (y ≤ x) | _, _ => false end.

(** Truthiness, as [!x], [x && y] and [x || y] test it. *)
Definition truthy (v : Value) : bool :=
  match v with
  | VUndefined | VNull | VNum NaN => false
  | VNum (Int z) => bool_decide (z ≠ 0)
  | VStr s => bool_decide (s ≠ "")
  end.

(** [a || b]. *)
Definition orElse (a b : Value) : Value := if truthy a then a else b.

(** [typeof v !== 'number' && typeof v !== 'string']. *)
Definition notNumberNorString (v : Value) : bool :=
  match v with VNum _ | VStr _ => false | _ => true end.

(** [JSON.stringify] followed by [JSON.parse] on a scalar: [NaN] is written
    as [null]. *)
Definition stringify (v : Value) : Value :=
  match v with VNum NaN => VNull | _ => v end.

Section Coercions.
Context `{Host}.

(** [Number(v)]. *)
Definition Number (v : Value) : num :=
  match v with
  | VUndefined => NaN
  | VNull => Int 0
  | VNum n => n
  | VStr s => StringToNumber s
  end.

(** [isNaN(v)]. *)
Definition isNaN (v : Value) : bool :=
  match Number v with NaN => true | Int _ => false end.

(** [a == b], the loose equality. *)
Definition looseEq (a b : Value) : bool :=
  match a, b with
  | (VUndefined | VNull), (VUndefined | VNull) => true
  | VNum x, VNum y => num_eqb x y
  | VStr x, VStr y => bool_decide (x = y)
  | VNum x, VStr s => num_eqb x (StringToNumber s)
  | VStr s, VNum y => num_eqb (StringToNumber s) y
  | _, _ => false
  end.

End Coercions.

(** ** The stored document *)

(** A numeric field of a member record as [JSON.parse] yields it: the key is
    absent, or holds [null] or a number. *)
Inductive field := Absent | Null | Val (z : Z).

#[global] Instance field_eq_dec : EqDecision field.
Proof. solve_decision. Defined.

(** [Number(f || 0)]. *)
Definition orZero (f : field) : Z :=
  match f with Val z => z | _ => 0 end.

(** [f || null]: a zero timestamp is falsy, hence read as [null]. *)
Definition orNull (f : field) : option Z :=
  match f with Val z => if bool_decide (z = 0) then None else Some z | _ => None end.

(** [Number(f)], without a default. *)
Definition NumberOf (f : field) : num :=
  match f with Absent => NaN | Null => Int 0 | Val z => Int z end.

(** How a computed number is stored. *)
Definition storeNum (n : num) : field :=
  match n with NaN => Null | Int z => Val z end.

(** How a nullable timestamp is stored. *)
Definition storeOpt (o : option Z) : field :=
  match o with None => Null | Some z => Val z end.

Module ShopItem.
Record t := {
  id : Z;
  itemName : Value;
  price : Value;
  message : Value;
  description : Value;
  maxAmount : Value;
  role : Value;
  date : string
}.
End ShopItem.

Module InventoryItem.
Record t := {
  id : Z;
  itemName : Value;
  price : Value;
  message : Value;
  role : Value;
  maxAmount : Value;
  date : string
}.
End InventoryItem.

Module HistoryItem.
Record t := {
  id : Z;
  memberID : string;
  guildID : string;
  itemName : Value;
  price : Value;
  role : Value;
  maxAmount : Value;
  date : string
}.
End HistoryItem.

Module Member.
Record t := {
  dailyCooldown : field;
  workCooldown : field;
  weeklyCooldown : field;
  money : field;
  bank : field;
  inventory : option (list InventoryItem.t);
  history : option (list HistoryItem.t)
}.

(** What the optional chain [obj[guildID]?.[memberID]?.f] sees when the
    guild or the member is missing: every field is [undefined]. *)
Definition absent : t :=
  {| dailyCooldown := Absent; workCooldown := Absent; weeklyCooldown := Absent;
     money := Absent; bank := Absent; inventory := None; history := None |}.
End Member.

#[global] Instance ShopItem_eq_dec : EqDecision ShopItem.t.
Proof. solve_decision. Defined.

#[global] Instance InventoryItem_eq_dec : EqDecision InventoryItem.t.
Proof. solve_decision. Defined.

#[global] Instance HistoryItem_eq_dec : EqDecision HistoryItem.t.
Proof. solve_decision. Defined.

#[global] Instance Member_eq_dec : EqDecision Member.t.
Proof. solve_decision. Defined.

(** A guild record is one JavaScript object: the key ["shop"] holds the
    catalog array and every other key written by the engine holds a member
    record. *)
Inductive Slot := SMember (m : Member.t) | SShop (items : list ShopItem.t).

#[global] Instance Slot_eq_dec : EqDecision Slot.
Proof. solve_decision. Defined.

Abbreviation Guild := (gmap string Slot).
Abbreviation Document := (gmap string (gmap string Slot)).

(** [obj[guildID]?.[memberID]], read field by field through [?.]. *)
Definition memberData (obj : Document) (guildID memberID : string) : Member.t :=
  match obj !! guildID ≫= (.!! memberID) with
  | Some (SMember r) => r
  | _ => Member.absent
  end.

(** [if (!obj[guildID]) obj[guildID] = {}]. *)
Definition ensureGuild (obj : Document) (guildID : string) : Document :=
  match obj !! guildID with
  | Some _ => obj
  | None => <[guildID := ∅]> obj
  end.

(** [obj[guildID][memberID] = record]; [None] is the [TypeError] raised when
    [obj[guildID]] is [undefined]. *)
Definition assignMember (obj : Document) (guildID memberID : string)
    (record : Member.t) : option Document :=
  match obj !! guildID with
  | Some guild => Some (<[guildID := <[memberID := SMember record]> guild]> obj)
  | None => None
  end.

(** [obj[guildID]?.shop || []]; [None] when the key holds something that is
    not an array (a member record written under the name ["shop"]), on which
    the array methods raise a [TypeError]. *)
Definition shopArray (obj : Document) (guildID : string) : option (list ShopItem.t) :=
  match obj !! guildID ≫= (.!! "shop") with
  | None => Some []
  | Some (SShop items) => Some items
  | Some (SMember _) => None
  end.

(** [obj[guildID]['shop'] = shop]. *)
Definition assignShop (obj : Document) (guildID : string)
    (shop : list ShopItem.t) : option Document :=
  match obj !! guildID with
  | Some guild => Some (<[guildID := <["shop" := SShop shop]> guild]> obj)
  | None => None
  end.

(** ** Events, errors and the monad of the engine *)

Inductive Event :=
| Balance (name type guildID memberID : string) (amount : Value) (balance : num) (reason : Value)
| ShopAddItem (item : ShopItem.t)
| ShopEditItem (itemID : Value) (guildID changed : string) (oldValue newValue : Value)
| ShopItemBuy (item : InventoryItem.t)
| ShopItemUse (item : InventoryItem.t)
| ShopRemoveItem (item : ShopItem.t)
| ShopClear (cleared : bool)
| RoleGrant (guildID memberID roleID : string).

(** [HostError] is an error of the runtime or of a package ([fs],
    [node-fetch]), which the engine passes on as it is. *)
Inductive Error :=
| EconomyError (message : string)
| TypeError (message : string)
| HostError (message : string).

Inductive Completion (A : Type) := Return (a : A) | Throw (e : Error).
Arguments Return {A} a.
Arguments Throw {A} e.

(** The storage file and the events emitted so far. *)
Record World := { storage : Document; emitted : list Event }.

(** A synchronous engine call: it completes normally or throws, and leaves a
    world behind in both cases (writes made before a throw stay made). *)
Definition Eco (A : Type) : Type := World → Completion A * World.

#[global] Instance Eco_ret : MRet Eco := λ A a w, (Return a, w).

#[global] Instance Eco_bind : MBind Eco := λ A B f c w,
  match c w with
  | (Return a, w') => f a w'
  | (Throw e, w') => (Throw e, w')
  end.

Definition throw {A} (e : Error) : Eco A := λ w, (Throw e, w).

(** [JSON.parse(readFileSync(storagePath))]. *)
Definition readFile : Eco Document := λ w, (Return (storage w), w).

(** [writeFileSync(storagePath, JSON.stringify(obj))]. *)
Definition writeFile (obj : Document) : Eco unit :=
  λ w, (Return (), {| storage := obj; emitted := emitted w |}).

(** [emit(name, payload)]. *)
Definition emit (e : Event) : Eco unit :=
  λ w, (Return (), {| storage := storage w; emitted := emitted w ++ [e] |}).

(** An assignment that raises a [TypeError] on an undefined base. *)
Definition orTypeError {A} (o : option A) (message : string) : Eco A :=
  match o with Some a => mret a | None => throw (TypeError message) end.

(** The document a call leaves in the storage file, and its completion. *)
Definition stored {A} (r : Completion A * World) : Document := storage r.2.
Definition completion {A} (r : Completion A * World) : Completion A := r.1.

(** [array.findIndex(p)]; [None] stands for [-1]. *)
Fixpoint findIndex {A} (p : A → bool) (l : list A) : option nat :=
  match l with
  | [] => None
  | x :: l' => if p x then Some 0%nat else S <$> findIndex p l'
  end.

(** [array.length ? array.length + 1 : 1]. *)
Definition nextId {A} (l : list A) : Z :=
  if bool_decide (length l = 0%nat) then 1 else Z.of_nat (length l) + 1.

(** A reward amount of the configuration: a number or an array. *)
Inductive Amount := Fixed (n : Z) | Range (bounds : list Z).

(** [Number(array[i])]: a missing element is [undefined], hence [NaN]. *)
Definition element (bounds : list Z) (i : nat) : num :=
  match bounds !! i with Some z => Int z | None => NaN end.

(** [random * (a - b) + b], each operation rounded to a double. *)
Definition mix (random : Q) (x y : Z) : Q :=
  double (double (random * inject_Z (doubleZ (x - y))) + inject_Z y).

(** [Math.ceil(random * (a - b) + b)]. *)
Definition ceilMix (random : Q) (a b : num) : num :=
  match a, b with
  | Int x, Int y => Int (Qceiling (mix random x y))
  | _, _ => NaN
  end.

(** [Math.floor(random * (a - b) + b)]. *)
Definition floorMix (random : Q) (a b : num) : num :=
  match a, b with
  | Int x, Int y => Int (Qfloor (mix random x y))
  | _, _ => NaN
  end.

(** The options object the constructor receives: every option may be left
    out. [checkUpdates] is [options.updater.checkUpdates]. *)
Module Config.
Record t := {
  dailyCooldown : option Z;
  workCooldown : option Z;
  weeklyCooldown : option Z;
  dailyAmount : option Z;
  workAmount : option Amount;
  weeklyAmount : option Z;
  checkUpdates : option bool
}.
End Config.

(** [this.options] once [init] has filled in the defaults. *)
Module Options.
Record t := {
  dailyCooldown : Z;
  workCooldown : Z;
  weeklyCooldown : Z;
  dailyAmount : Z;
  workAmount : Amount;
  weeklyAmount : Z
}.
End Options.

(** What [readFileSync] and [JSON.parse] make of the storage file when
    [init] reads it. *)
Inductive StorageFile :=
| FileMissing
| FileCorrupt
| FileUnreadable (e : Error)
| FileParsed.

(** What [init] finds when it starts: [process.version] and the number
    [Number(process.version.split('.')[1])] the source takes from it, the
    flags [this.errored] and [this.ready], the storage file, and the error
    [checkUpdates] fails with, if it fails. *)
Record Startup := {
  nodeVersion : string;
  nodeMinor : Z;
  errored : bool;
  ready : bool;
  storageFile : StorageFile;
  updateCheck : option Error
}.

(** The messages of the errors [init] makes. *)
Definition oldNode (version : string) : string :=
  "This module is supporting only Node.js v14 or newer. Installed version is "
    +:+ version +:+ ".".

Definition longWorkAmount : string :=
  "options.workAmount array cannot have more than 2 elements; it must have min and max values as first and second element of the array (example: [10, 20])".

(** The promise [init] returns: resolved, rejected, or never settled. *)
Inductive Settled (A : Type) := Resolved (a : A) | Rejected (e : Error) | Pending.
Arguments Resolved {A} a.
Arguments Rejected {A} e.
Arguments Pending {A}.

(** A parameter default: [reason = value] replaces [undefined] only. *)
Definition defaultArg (reason value : Value) : Value :=
  if bool_decide (reason = VUndefined) then value else reason.

(** The kinds of timed reward. *)
Inductive RewardType := Daily | Work | Weekly.

#[global] Instance RewardType_eq_dec : EqDecision RewardType.
Proof. solve_decision. Defined.

(** ** The engine: [module.exports = class Economy] *)

Module Economy.

(** *** [shop = { ... }] *)

Module shop.
Section Shop.
Context `{Host}.

(** [x.id == itemID || x.itemName == itemID]. *)
Definition matches (itemID : Value) (id : Z) (itemName : Value) : bool :=
  looseEq (VNum (Int id)) itemID || looseEq itemName itemID.

Definition matchesShop (itemID : Value) (x : ShopItem.t) : bool :=
  matches itemID (ShopItem.id x) (ShopItem.itemName x).

Definition matchesInv (itemID : Value) (x : InventoryItem.t) : bool :=
  matches itemID (InventoryItem.id x) (InventoryItem.itemName x).

(** The [options] object of [addItem]. *)
Record ItemOptions := {
  itemName : Value;
  price : Value;
  message : Value;
  description : Value;
  maxAmount : Value;
  role : Value
}.

Definition isString (v : Value) : bool :=
  match v with VStr _ => true | _ => false end.

(** What [JSON.stringify] writes for a catalog item. *)
Definition storeItem (x : ShopItem.t) : ShopItem.t :=
  {| ShopItem.id := ShopItem.id x;
     ShopItem.itemName := stringify (ShopItem.itemName x);
     ShopItem.price := stringify (ShopItem.price x);
     ShopItem.message := stringify (ShopItem.message x);
     ShopItem.description := stringify (ShopItem.description x);
     ShopItem.maxAmount := stringify (ShopItem.maxAmount x);
     ShopItem.role := stringify (ShopItem.role x);
     ShopItem.date := ShopItem.date x |}.

Definition history (memberID guildID : string) : Eco (list HistoryItem.t) :=
  obj ← readFile;
  mret (default [] (Member.history (memberData obj guildID memberID))).

Definition inventory (memberID guildID : string) : Eco (list InventoryItem.t) :=
  obj ← readFile;
  mret (default [] (Member.inventory (memberData obj guildID memberID))).

Definition addItem (date : string) (guildID : string) (options : ItemOptions) :
    Eco ShopItem.t :=
  if negb (isString (itemName options)) then
    throw (EconomyError "options.itemName must be a string")
  else if isNaN (price options) then
    throw (EconomyError "options.price must be a number")
  else if truthy (message options) && negb (isString (message options)) then
    throw (EconomyError "options.message must be a string")
  else if truthy (description options) && negb (isString (description options)) then
    throw (EconomyError "options.description must be a string")
  else if negb (bool_decide (maxAmount options = VUndefined)) && isNaN (maxAmount options) then
    throw (EconomyError "options.maxAmount must be a number")
  else if truthy (role options) && negb (isString (role options)) then
    throw (EconomyError "options.role must be a string")
  else
    obj ← readFile;
    let itemInfo (id : Z) :=
      {| ShopItem.id := id;
         ShopItem.itemName := itemName options;
         ShopItem.price := VNum (Number (price options));
         ShopItem.message := orElse (message options) (VStr "You have used this item!");
         ShopItem.description := orElse (description options) (VStr "Very mysterious item.");
         ShopItem.maxAmount :=
           if looseEq (maxAmount options) VUndefined then VNull
           else VNum (Number (maxAmount options));
         ShopItem.role := orElse (role options) VNull;
         ShopItem.date := date |} in
    shop ← orTypeError (shopArray obj guildID) "shop.push is not a function";
    let itemInfo := itemInfo (nextId shop) in
    (* [shop.push(itemInfo)], as the write below stores it *)
    let shop := shop ++ [storeItem itemInfo] in
    let obj := ensureGuild obj guildID in
    obj ← orTypeError (assignShop obj guildID shop) "cannot set properties of undefined";
    writeFile obj;;
    emit (ShopAddItem itemInfo);;
    mret itemInfo.

(** The field names [editItem] accepts. *)
Definition args : list string :=
  ["description"; "price"; "itemName"; "message"; "maxAmount"; "role"].

(** [item[arg]] for a name of [args]. *)
Definition getField (arg : string) (item : ShopItem.t) : Value :=
  if bool_decide (arg = "description") then ShopItem.description item
  else if bool_decide (arg = "price") then ShopItem.price item
  else if bool_decide (arg = "itemName") then ShopItem.itemName item
  else if bool_decide (arg = "message") then ShopItem.message item
  else if bool_decide (arg = "maxAmount") then ShopItem.maxAmount item
  else if bool_decide (arg = "role") then ShopItem.role item
  else VUndefined.

(** [item[arg] = value] for a name of [args]. *)
Definition setField (arg : string) (value : Value) (item : ShopItem.t) : ShopItem.t :=
  let upd (name : string) (old : Value) := if bool_decide (arg = name) then value else old in
  {| ShopItem.id := ShopItem.id item;
     ShopItem.itemName := upd "itemName" (ShopItem.itemName item);
     ShopItem.price := upd "price" (ShopItem.price item);
     ShopItem.message := upd "message" (ShopItem.message item);
     ShopItem.description := upd "description" (ShopItem.description item);
     ShopItem.maxAmount := upd "maxAmount" (ShopItem.maxAmount item);
     ShopItem.role := upd "role" (ShopItem.role item);
     ShopItem.date := ShopItem.date item |}.

(** The inner [edit] closure of [editItem]; it returns nothing of use. *)
Definition edit (itemID : Value) (guildID : string) (arg : string) (value : Value) :
    Eco unit :=
  obj ← readFile;
  shop ← orTypeError (shopArray obj guildID) "shop.findIndex is not a function";
  match findIndex (matchesShop itemID) shop with
  | None => mret ()
  | Some i =>
      match shop !! i with
      | None => mret ()
      | Some item =>
          emit (ShopEditItem itemID guildID arg (getField arg item) value);;
          (* [item[arg] = value], as the write below stores it *)
          let item := setField arg (stringify value) item in
          let shop := <[i := item]> shop in
          obj ← orTypeError (assignShop obj guildID shop) "cannot set properties of undefined";
          writeFile obj
      end
  end.

Definition editItem (itemID : Value) (guildID : string) (arg : string) (value : Value) :
    Eco bool :=
  if notNumberNorString itemID then
    throw (EconomyError "itemID must be a string or a number")
  else if negb (bool_decide (arg ∈ args)) then
    throw (EconomyError "arg parameter must be one of these values")
  else if looseEq value VUndefined then
    throw (EconomyError "no value specified")
  else
    edit itemID guildID arg value;;
    mret true.

Definition removeItem (itemID : Value) (guildID : string) : Eco bool :=
  if notNumberNorString itemID then
    throw (EconomyError "itemID must be a string or a number")
  else
    obj ← readFile;
    shop ← orTypeError (shopArray obj guildID) "shop.find is not a function";
    match find (matchesShop itemID) shop with
    | None => mret false
    | Some item =>
        let shop := filter (λ x, ShopItem.id x ≠ ShopItem.id item) shop in
        obj ← orTypeError (assignShop obj guildID shop) "cannot set properties of undefined";
        emit (ShopRemoveItem
                {| ShopItem.id := ShopItem.id item;
                   ShopItem.itemName := ShopItem.itemName item;
                   ShopItem.price := ShopItem.price item;
                   ShopItem.message := ShopItem.message item;
                   ShopItem.description := ShopItem.description item;
                   ShopItem.maxAmount := ShopItem.maxAmount item;
                   ShopItem.role := orElse (ShopItem.role item) VNull;
                   ShopItem.date := ShopItem.date item |});;
        writeFile obj;;
        mret true
    end.

(** [searchItem] returns the item or [false] ([None]). *)
Definition searchItem (itemID : Value) (guildID : string) : Eco (option ShopItem.t) :=
  if notNumberNorString itemID then
    throw (EconomyError "itemID must be a string or a number")
  else
    obj ← readFile;
    shop ← orTypeError (shopArray obj guildID) "shop.find is not a function";
    mret (find (matchesShop itemID) shop).

(** The record literal shared by the shop operations:
    [{ dailyCooldown: data?.dailyCooldown || null, ..., money: data?.money || 0,
       bank: data?.bank || 0, inventory, history }]. *)
Definition rebuilt (data : Member.t) (money : field)
    (inventory : list InventoryItem.t) (history : list HistoryItem.t) : Member.t :=
  {| Member.dailyCooldown := storeOpt (orNull (Member.dailyCooldown data));
     Member.workCooldown := storeOpt (orNull (Member.workCooldown data));
     Member.weeklyCooldown := storeOpt (orNull (Member.weeklyCooldown data));
     Member.money := money;
     Member.bank := Val (orZero (Member.bank data));
     Member.inventory := Some inventory;
     Member.history := Some history |}.

Definition clearInventory (memberID guildID : string) : Eco bool :=
  obj0 ← readFile;
  let data := memberData obj0 guildID memberID in
  obj ← readFile;
  history ← history memberID guildID;
  obj ← orTypeError
    (assignMember obj guildID memberID (rebuilt data (Val (orZero (Member.money data))) [] history))
    "cannot set properties of undefined";
  writeFile obj;;
  mret true.

Definition clearHistory (memberID guildID : string) : Eco bool :=
  obj0 ← readFile;
  let data := memberData obj0 guildID memberID in
  obj ← readFile;
  inventory ← inventory memberID guildID;
  obj ← orTypeError
    (assignMember obj guildID memberID (rebuilt data (Val (orZero (Member.money data))) inventory []))
    "cannot set properties of undefined";
  writeFile obj;;
  mret true.

(** [buy] returns [false], ['max'] or [true]. *)
Inductive BuyResult := NotFound | Max | Bought.

Definition buy (date : string) (itemID : Value) (memberID guildID : string)
    (reason : Value) : Eco BuyResult :=
  let reason := defaultArg reason (VStr "received the item from the shop") in
  obj0 ← readFile;
  let data := memberData obj0 guildID memberID in
  if notNumberNorString itemID then
    throw (EconomyError "itemID must be a string or a number")
  else
    obj ← readFile;
    shop ← orTypeError (shopArray obj guildID) "shop.find is not a function";
    match find (matchesShop itemID) shop with
    | None => mret NotFound
    | Some item =>
        let obj := ensureGuild obj guildID in
        held ← inventory memberID guildID;
        let same := filter (λ x, looseEq (InventoryItem.itemName x) (ShopItem.itemName item) = true) held in
        if truthy (ShopItem.maxAmount item)
           && num_geb (Int (Z.of_nat (length same))) (Number (ShopItem.maxAmount item))
        then mret Max
        else
          let bal := Member.money (memberData obj guildID memberID) in
          writeFile obj;;
          inv ← inventory memberID guildID;
          let itemData :=
            {| InventoryItem.id := nextId inv;
               InventoryItem.itemName := ShopItem.itemName item;
               InventoryItem.price := ShopItem.price item;
               InventoryItem.message := ShopItem.message item;
               InventoryItem.role := orElse (ShopItem.role item) VNull;
               InventoryItem.maxAmount := ShopItem.maxAmount item;
               InventoryItem.date := date |} in
          let inv := inv ++ [itemData] in
          let history := default [] (Member.history data) in
          let history := history ++
            [ {| HistoryItem.id := nextId history;
                 HistoryItem.memberID := memberID;
                 HistoryItem.guildID := guildID;
                 HistoryItem.itemName := ShopItem.itemName item;
                 HistoryItem.price := ShopItem.price item;
                 HistoryItem.role := orElse (ShopItem.role item) VNull;
                 HistoryItem.maxAmount := ShopItem.maxAmount item;
                 HistoryItem.date := date |} ] in
          let balance := num_sub (NumberOf bal) (Number (ShopItem.price item)) in
          obj ← orTypeError
            (assignMember obj guildID memberID (rebuilt data (storeNum balance) inv history))
            "cannot set properties of undefined";
          writeFile obj;;
          emit (ShopItemBuy itemData);;
          emit (Balance "balanceSubtract" "subtract" guildID memberID
                  (ShopItem.price item) balance reason);;
          mret Bought
    end.

(** The part of the Discord client [useItem] consults before it touches the
    storage: whether [client.guilds.cache.get(guildID)] is defined. The role
    is then granted by a promise that runs after [useItem] has returned. *)
Record Client := { hasGuild : string → bool }.

(** [useItem] returns [false] ([None]) or the item's message. *)
Definition useItem (itemID : Value) (memberID guildID : string)
    (client : option Client) : Eco (option Value) :=
  obj0 ← readFile;
  let data := memberData obj0 guildID memberID in
  if notNumberNorString itemID then
    throw (EconomyError "itemID must be a string or a number")
  else
    obj ← readFile;
    let inv := default [] (Member.inventory (memberData obj guildID memberID)) in
    match findIndex (matchesInv itemID) inv with
    | None => mret None
    | Some i =>
        match inv !! i with
        | None => mret None
        | Some item =>
            (if truthy (InventoryItem.role item) then
               match client with
               | None => throw (EconomyError "You need to specify your bot client to use this.")
               | Some c =>
                   if negb (isString (InventoryItem.role item)) then
                     throw (TypeError "item.role.replace is not a function")
                   else if negb (hasGuild c guildID) then
                     throw (TypeError "cannot read properties of undefined")
                   else mret ()
               end
             else mret ());;
            let message := InventoryItem.message item in
            let inv := filter (λ x, InventoryItem.id x ≠ InventoryItem.id item) inv in
            history ← history memberID guildID;
            obj ← orTypeError
              (assignMember obj guildID memberID
                 (rebuilt data (Val (orZero (Member.money data))) inv history))
              "cannot set properties of undefined";
            writeFile obj;;
            emit (ShopItemUse item);;
            mret (Some message)
        end
    end.

(** [clear] empties the catalog; on a catalog that is missing or empty (or
    on a [shop] key that holds no array, whose [length] is [undefined]) it
    notifies [false] and returns [false]. *)
Definition clear (guildID : string) : Eco bool :=
  obj ← readFile;
  match obj !! guildID ≫= (.!! "shop") with
  | Some (SShop (_ :: _)) =>
      obj ← orTypeError (assignShop obj guildID []) "cannot set properties of undefined";
      writeFile obj;;
      emit (ShopClear true);;
      mret true
  | _ =>
      emit (ShopClear false);;
      mret false
  end.

(** [list] returns [obj[guildID]?.shop || []]: whatever the [shop] key
    holds, or an empty array. *)
Definition list (guildID : string) : Eco Slot :=
  obj ← readFile;
  mret (default (SShop []) (obj !! guildID ≫= (.!! "shop"))).

End Shop.
End shop.

(** *** The balance ledger *)

Section Ledger.
Context `{Host}.

Definition all : Eco Document := readFile.

Definition fetch (memberID guildID : string) : Eco Z :=
  obj ← all;
  mret (orZero (Member.money (memberData obj guildID memberID))).

Definition bankFetch (memberID guildID : string) : Eco Z :=
  obj ← all;
  mret (orZero (Member.bank (memberData obj guildID memberID))).

Definition getDailyCooldown (memberID guildID : string) : Eco (option Z) :=
  obj ← all;
  mret (orNull (Member.dailyCooldown (memberData obj guildID memberID))).

Definition getWorkCooldown (memberID guildID : string) : Eco (option Z) :=
  obj ← all;
  mret (orNull (Member.workCooldown (memberData obj guildID memberID))).

Definition getWeeklyCooldown (memberID guildID : string) : Eco (option Z) :=
  obj ← all;
  mret (orNull (Member.weeklyCooldown (memberData obj guildID memberID))).

Definition bankSet (amount : Value) (memberID guildID : string) (reason : Value) :
    Eco num :=
  let reason := defaultArg reason VNull in
  if isNaN amount then throw (EconomyError "amount must be a number") else
  obj ← readFile;
  let obj := ensureGuild obj guildID in
  dailyCooldown ← getDailyCooldown memberID guildID;
  workCooldown ← getWorkCooldown memberID guildID;
  weeklyCooldown ← getWeeklyCooldown memberID guildID;
  money ← fetch memberID guildID;
  inventory ← shop.inventory memberID guildID;
  history ← shop.history memberID guildID;
  obj ← orTypeError
    (assignMember obj guildID memberID
       {| Member.dailyCooldown := storeOpt dailyCooldown;
          Member.workCooldown := storeOpt workCooldown;
          Member.weeklyCooldown := storeOpt weeklyCooldown;
          Member.money := Val money;
          Member.bank := storeNum (Number amount);
          Member.inventory := Some inventory;
          Member.history := Some history |})
    "cannot set properties of undefined";
  writeFile obj;;
  emit (Balance "bankSet" "bankSet" guildID memberID
          (VNum (Number amount)) (Number amount) reason);;
  mret (Number amount).

Definition bankAdd (amount : Value) (memberID guildID : string) (reason : Value) :
    Eco num :=
  let reason := defaultArg reason VNull in
  if isNaN amount then throw (EconomyError "amount must be a number") else
  obj0 ← readFile;
  let money := orZero (Member.bank (memberData obj0 guildID memberID)) in
  obj ← readFile;
  let obj := ensureGuild obj guildID in
  dailyCooldown ← getDailyCooldown memberID guildID;
  workCooldown ← getWorkCooldown memberID guildID;
  weeklyCooldown ← getWeeklyCooldown memberID guildID;
  balance ← fetch memberID guildID;
  inventory ← shop.inventory memberID guildID;
  history ← shop.history memberID guildID;
  obj ← orTypeError
    (assignMember obj guildID memberID
       {| Member.dailyCooldown := storeOpt dailyCooldown;
          Member.workCooldown := storeOpt workCooldown;
          Member.weeklyCooldown := storeOpt weeklyCooldown;
          Member.money := Val balance;
          Member.bank := storeNum (num_add (Int money) (Number amount));
          Member.inventory := Some inventory;
          Member.history := Some history |})
    "cannot set properties of undefined";
  writeFile obj;;
  emit (Balance "bankAdd" "bankAdd" guildID memberID
          (VNum (Number amount)) (num_add (Int money) (Number amount)) reason);;
  mret (Number amount).

Definition bankSubtract (amount : Value) (memberID guildID : string) (reason : Value) :
    Eco num :=
  let reason := defaultArg reason VNull in
  if isNaN amount then throw (EconomyError "amount must be a number") else
  obj0 ← readFile;
  let money := orZero (Member.bank (memberData obj0 guildID memberID)) in
  obj ← readFile;
  let obj := ensureGuild obj guildID in
  dailyCooldown ← getDailyCooldown memberID guildID;
  workCooldown ← getWorkCooldown memberID guildID;
  weeklyCooldown ← getWeeklyCooldown memberID guildID;
  balance ← fetch memberID guildID;
  inventory ← shop.inventory memberID guildID;
  history ← shop.history memberID guildID;
  obj ← orTypeError
    (assignMember obj guildID memberID
       {| Member.dailyCooldown := storeOpt dailyCooldown;
          Member.workCooldown := storeOpt workCooldown;
          Member.weeklyCooldown := storeOpt weeklyCooldown;
          Member.money := Val balance;
          Member.bank := storeNum (num_sub (Int money) (Number amount));
          Member.inventory := Some inventory;
          Member.history := Some history |})
    "cannot set properties of undefined";
  writeFile obj;;
  emit (Balance "bankSubtract" "bankSubtract" guildID memberID
          (VNum (Number amount)) (num_sub (Int money) (Number amount)) reason);;
  mret (Number amount).

Definition set (amount : Value) (memberID guildID : string) (reason : Value) :
    Eco num :=
  let reason := defaultArg reason VNull in
  if isNaN amount then throw (EconomyError "amount must be a number") else
  obj ← readFile;
  let obj := ensureGuild obj guildID in
  dailyCooldown ← getDailyCooldown memberID guildID;
  workCooldown ← getWorkCooldown memberID guildID;
  weeklyCooldown ← getWeeklyCooldown memberID guildID;
  bank ← bankFetch memberID guildID;
  inventory ← shop.inventory memberID guildID;
  history ← shop.history memberID guildID;
  obj ← orTypeError
    (assignMember obj guildID memberID
       {| Member.dailyCooldown := storeOpt dailyCooldown;
          Member.workCooldown := storeOpt workCooldown;
          Member.weeklyCooldown := storeOpt weeklyCooldown;
          Member.money := storeNum (Number amount);
          Member.bank := Val bank;
          Member.inventory := Some inventory;
          Member.history := Some history |})
    "cannot set properties of undefined";
  writeFile obj;;
  emit (Balance "balanceSet" "set" guildID memberID
          (VNum (Number amount)) (Number amount) reason);;
  mret (Number amount).

Definition add (amount : Value) (memberID guildID : string) (reason : Value) :
    Eco num :=
  let reason := defaultArg reason VNull in
  if isNaN amount then throw (EconomyError "amount must be a number") else
  obj0 ← readFile;
  let money := orZero (Member.money (memberData obj0 guildID memberID)) in
  obj ← readFile;
  let obj := ensureGuild obj guildID in
  dailyCooldown ← getDailyCooldown memberID guildID;
  workCooldown ← getWorkCooldown memberID guildID;
  weeklyCooldown ← getWeeklyCooldown memberID guildID;
  bank ← bankFetch memberID guildID;
  inventory ← shop.inventory memberID guildID;
  history ← shop.history memberID guildID;
  obj ← orTypeError
    (assignMember obj guildID memberID
       {| Member.dailyCooldown := storeOpt dailyCooldown;
          Member.workCooldown := storeOpt workCooldown;
          Member.weeklyCooldown := storeOpt weeklyCooldown;
          Member.money := storeNum (num_add (Int money) (Number amount));
          Member.bank := Val bank;
          Member.inventory := Some inventory;
          Member.history := Some history |})
    "cannot set properties of undefined";
  writeFile obj;;
  emit (Balance "balanceAdd" "add" guildID memberID
          (VNum (Number amount)) (num_add (Int money) (Number amount)) reason);;
  mret (Number amount).

Definition subtract (amount : Value) (memberID guildID : string) (reason : Value) :
    Eco num :=
  let reason := defaultArg reason VNull in
  if isNaN amount then throw (EconomyError "amount must be a number") else
  obj0 ← readFile;
  let money := orZero (Member.money (memberData obj0 guildID memberID)) in
  obj ← readFile;
  let obj := ensureGuild obj guildID in
  dailyCooldown ← getDailyCooldown memberID guildID;
  workCooldown ← getWorkCooldown memberID guildID;
  weeklyCooldown ← getWeeklyCooldown memberID guildID;
  bank ← bankFetch memberID guildID;
  inventory ← shop.inventory memberID guildID;
  history ← shop.history memberID guildID;
  obj ← orTypeError
    (assignMember obj guildID memberID
       {| Member.dailyCooldown := storeOpt dailyCooldown;
          Member.workCooldown := storeOpt workCooldown;
          Member.weeklyCooldown := storeOpt weeklyCooldown;
          Member.money := storeNum (num_sub (Int money) (Number amount));
          Member.bank := Val bank;
          Member.inventory := Some inventory;
          Member.history := Some history |})
    "cannot set properties of undefined";
  writeFile obj;;
  emit (Balance "balanceSubtract" "subtract" guildID memberID
          (VNum (Number amount)) (num_sub (Int money) (Number amount)) reason);;
  mret (Number amount).

End Ledger.

(** *** The cooldown gate: [daily], [work], [weekly] *)

(** A reward call returns the reward ([Number]) or the pretty-printed time
    before the next claim ([String]). *)
Inductive ClaimResult := Claimed (reward : num) | TimeLeft (pretty : string).

(** [cd !== null && cooldown - (Date.now() - cd) > 0], tested on the clock
    reading [now], with the time left [cooldown - (Date.now() - cd)] the
    source passes to [ms] when the test holds: it reads the clock again for
    it, which gives [later]. *)
Definition timeLeft (cooldown now later : Z) (cd : option Z) : option Z :=
  match cd with
  | Some t =>
      if bool_decide (cooldown - (now - t) > 0) then Some (cooldown - (later - t)) else None
  | None => None
  end.

Section Rewards.
Context `{Host} (options : Options.t).

Definition daily (now later : Z) (memberID guildID : string) (reason : Value) :
    Eco ClaimResult :=
  let reason := defaultArg reason (VStr "claimed the daily reward") in
  let cooldown := Options.dailyCooldown options in
  let reward := VNum (Int (Options.dailyAmount options)) in
  obj0 ← readFile;
  let cd := orNull (Member.dailyCooldown (memberData obj0 guildID memberID)) in
  match timeLeft cooldown now later cd with
  | Some remaining => mret (TimeLeft (ms remaining))
  | None =>
      obj ← readFile;
      let obj := ensureGuild obj guildID in
      workCooldown ← getWorkCooldown memberID guildID;
      weeklyCooldown ← getWeeklyCooldown memberID guildID;
      money ← fetch memberID guildID;
      bank ← bankFetch memberID guildID;
      inventory ← shop.inventory memberID guildID;
      history ← shop.history memberID guildID;
      obj ← orTypeError
        (assignMember obj guildID memberID
           {| Member.dailyCooldown := Val later;
              Member.workCooldown := storeOpt workCooldown;
              Member.weeklyCooldown := storeOpt weeklyCooldown;
              Member.money := Val money;
              Member.bank := Val bank;
              Member.inventory := Some inventory;
              Member.history := Some history |})
        "cannot set properties of undefined";
      writeFile obj;;
      add reward memberID guildID reason;;
      mret (Claimed (Number reward))
  end.

(** The reward [work] computes from [options.workAmount]. *)
Definition workReward (random : Q) (workAmount : Amount) : num :=
  match workAmount with
  | Range bounds => ceilMix random (element bounds 0) (element bounds 1)
  | Fixed n => Int n
  end.

Definition work (now later : Z) (random : Q) (memberID guildID : string)
    (reason : Value) : Eco ClaimResult :=
  let reason := defaultArg reason (VStr "claimed the work reward") in
  let cooldown := Options.workCooldown options in
  let reward := VNum (workReward random (Options.workAmount options)) in
  obj0 ← readFile;
  let cd := orNull (Member.workCooldown (memberData obj0 guildID memberID)) in
  match timeLeft cooldown now later cd with
  | Some remaining => mret (TimeLeft (ms remaining))
  | None =>
      obj ← readFile;
      let obj := ensureGuild obj guildID in
      dailyCooldown ← getDailyCooldown memberID guildID;
      weeklyCooldown ← getWeeklyCooldown memberID guildID;
      money ← fetch memberID guildID;
      bank ← bankFetch memberID guildID;
      inventory ← shop.inventory memberID guildID;
      history ← shop.history memberID guildID;
      obj ← orTypeError
        (assignMember obj guildID memberID
           {| Member.dailyCooldown := storeOpt dailyCooldown;
              Member.workCooldown := Val later;
              Member.weeklyCooldown := storeOpt weeklyCooldown;
              Member.money := Val money;
              Member.bank := Val bank;
              Member.inventory := Some inventory;
              Member.history := Some history |})
        "cannot set properties of undefined";
      writeFile obj;;
      add reward memberID guildID reason;;
      mret (Claimed (Number reward))
  end.

Definition weekly (now later : Z) (memberID guildID : string) (reason : Value) :
    Eco ClaimResult :=
  let reason := defaultArg reason (VStr "claimed the weekly reward") in
  let cooldown := Options.weeklyCooldown options in
  obj0 ← readFile;
  let cd := orNull (Member.weeklyCooldown (memberData obj0 guildID memberID)) in
  match timeLeft cooldown now later cd with
  | Some remaining => mret (TimeLeft (ms remaining))
  | None =>
      obj ← readFile;
      let obj := ensureGuild obj guildID in
      dailyCooldown ← getDailyCooldown memberID guildID;
      workCooldown ← getWorkCooldown memberID guildID;
      money ← fetch memberID guildID;
      bank ← bankFetch memberID guildID;
      inventory ← shop.inventory memberID guildID;
      history ← shop.history memberID guildID;
      obj ← orTypeError
        (assignMember obj guildID memberID
           {| Member.dailyCooldown := storeOpt dailyCooldown;
              Member.workCooldown := storeOpt workCooldown;
              Member.weeklyCooldown := Val later;
              Member.money := Val money;
              Member.bank := Val bank;
              Member.inventory := Some inventory;
              Member.history := Some history |})
        "cannot set properties of undefined";
      writeFile obj;;
      add (VNum (Int (Options.weeklyAmount options))) memberID guildID reason;;
      mret (Claimed (Int (Options.weeklyAmount options)))
  end.

(** The three reward calls, indexed by the kind of reward. *)
Definition claim (kind : RewardType) (now later : Z) (random : Q)
    (memberID guildID : string) (reason : Value) : Eco ClaimResult :=
  match kind with
  | Daily => daily now later memberID guildID reason
  | Work => work now later random memberID guildID reason
  | Weekly => weekly now later memberID guildID reason
  end.

End Rewards.

(** The cooldown option and the timestamp field of each kind. *)
Definition cooldownOption (kind : RewardType) (options : Options.t) : Z :=
  match kind with
  | Daily => Options.dailyCooldown options
  | Work => Options.workCooldown options
  | Weekly => Options.weeklyCooldown options
  end.

Definition cooldownField (kind : RewardType) (data : Member.t) : field :=
  match kind with
  | Daily => Member.dailyCooldown data
  | Work => Member.workCooldown data
  | Weekly => Member.weeklyCooldown data
  end.

(** *** [init] *)

(** [init] first looks at what it finds: a minor version of Node below 14
    rejects; an instance that has errored or is ready, and a storage file
    that is missing (it is then created), leave the promise unsettled; a
    storage file that cannot be read or parsed rejects. It then fills in the
    defaults of the amounts and cooldowns (when [dailyCooldown] is
    configured, the source assigns it to [options.workAmount]), checks for
    updates unless told not to, and checks and normalises [workAmount]. The
    options are of the types the documentation gives, so the [typeof]
    checks pass. The timer it starts with [setInterval] fires after the
    promise has settled, so its [reject] has no effect on it. *)
Definition init (env : Startup) (config : Config.t) : Settled Options.t :=
  if bool_decide (nodeMinor env < 14) then
    Rejected (EconomyError (oldNode (nodeVersion env)))
  else if errored env then Pending
  else if ready env then Pending
  else
  match storageFile env with
  | FileMissing => Pending
  | FileCorrupt => Rejected (EconomyError "Storage file contains wrong data.")
  | FileUnreadable e => Rejected e
  | FileParsed =>
  let dailyAmount := default 100 (Config.dailyAmount config) in
  let workAmount := default (Range [10; 50]) (Config.workAmount config) in
  let weeklyAmount := default 1000 (Config.weeklyAmount config) in
  let '(dailyCooldown, workAmount) :=
    match Config.dailyCooldown config with
    | None => (60000 * 60 * 24, workAmount)
    | Some c => (c, Fixed c)
    end in
  let workCooldown := default (60000 * 60) (Config.workCooldown config) in
  let weeklyCooldown := default (60000 * 60 * 24 * 7) (Config.weeklyCooldown config) in
  let finish (workAmount : Amount) :=
    Resolved {| Options.dailyCooldown := dailyCooldown;
                Options.workCooldown := workCooldown;
                Options.weeklyCooldown := weeklyCooldown;
                Options.dailyAmount := dailyAmount;
                Options.workAmount := workAmount;
                Options.weeklyAmount := weeklyAmount |} in
  match (if default true (Config.checkUpdates config) then updateCheck env else None) with
  | Some e => Rejected e
  | None =>
  match workAmount with
  | Fixed n => finish (Fixed n)
  | Range bounds =>
      if bool_decide (2 < length bounds)%nat then
        Rejected (EconomyError longWorkAmount)
      else
        match bounds with
        | [n] => finish (Fixed n)
        | [a; b] => finish (Range (if bool_decide (a > b) then reverse bounds else bounds))
        | _ => finish (Range bounds)
        end
  end
  end
  end.

End Economy.

(** ** The reward manager of the MongoDB flavour: [class RewardManager] *)

Module RewardManager.

(** [settings] and [this.options]: the cooldown and the reward of each type;
    a setting may be absent. *)
Record Settings := {
  dailyCooldown : option Z;
  dailyAmount : option Amount;
  workCooldown : option Z;
  workAmount : option Amount;
  weeklyCooldown : option Z;
  weeklyAmount : option Amount
}.

Record TimeData := {
  days : Z;
  hours : Z;
  minutes : Z;
  seconds : Z;
  milliseconds : Z
}.

Record CooldownData := { time : TimeData; pretty : string }.

Record RewardData := {
  type : RewardType;
  status : bool;
  cooldown : option CooldownData;
  reward : option num;
  defaultReward : option Amount
}.

(** The calls a reward method makes on the balance manager and on the
    database manager, in order. *)
Inductive Call :=
| BalanceAdd (reward : option num) (memberID guildID : string) (reason : Value)
| DatabaseSet (key : string) (value : Z).

(** [Math.floor(ms / unit % modulus)]: [%] keeps the sign of the dividend,
    so the value is [floor (ms / unit) - modulus * trunc (ms / (unit * modulus))]. *)
Definition floorRem (ms unit modulus : Z) : Z :=
  ms / unit - modulus * (ms ÷ (unit * modulus)).

Definition parse (ms : Z) : TimeData :=
  {| days := ms / 86400000;
     hours := floorRem ms 3600000 24;
     minutes := floorRem ms 60000 60;
     seconds := floorRem ms 1000 60;
     milliseconds := Z.rem ms 1000 |}.

(** Truthiness of a cooldown and of a reward amount, for [a || b]. *)
Definition orCooldown (a b : option Z) : option Z :=
  match a with Some z => if bool_decide (z = 0) then b else a | None => b end.

Definition orAmount (a b : option Amount) : option Amount :=
  match a with
  | Some (Fixed n) => if bool_decide (n = 0) then b else a
  | Some (Range _) => a
  | None => b
  end.

(** The reward drawn from the configured amount; [None] is [undefined]. *)
Definition drawReward (random : Q) (defaultReward : option Amount) : option num :=
  match defaultReward with
  | Some (Range bounds) =>
      if bool_decide (length bounds = 1%nat) then Some (element bounds 0)
      else Some (floorMix random (element bounds 0) (element bounds 1))
  | Some (Fixed n) => Some (Int n)
  | None => None
  end.

Section Manager.
Context `{Host} (options : Settings).

(** The body shared by [getDaily], [getWork] and [getWeekly]: [cooldown] and
    [defaultReward] are the pair read from the settings and the options,
    [userCooldown] is what the cooldown manager returns and [key] the last
    component of the database key. [cooldownEnd] is computed once, from the
    clock reading [now]; the timestamp stored is a second reading,
    [later]. *)
Definition getReward (kind : RewardType) (key : string)
    (cooldown : option Z) (defaultReward : option Amount)
    (userCooldown : option Z) (now later : Z) (random : Q)
    (memberID guildID : string) (reason : Value) : RewardData * list Call :=
  let reward := drawReward random defaultReward in
  match cooldown with
  | Some cooldown =>
      let cooldownEnd := cooldown - (now - default 0 userCooldown) in
      if bool_decide (userCooldown ≠ None) && bool_decide (cooldownEnd > 0) then
        ({| type := kind; status := false;
            cooldown := Some {| time := parse cooldownEnd; pretty := ms cooldownEnd |};
            reward := None; defaultReward := defaultReward |}, [])
      else
        ({| type := kind; status := true; cooldown := None;
            reward := reward; defaultReward := defaultReward |},
         [BalanceAdd reward memberID guildID reason;
          DatabaseSet (guildID +:+ "." +:+ memberID +:+ "." +:+ key) later])
  | None =>
      (* [undefined - n] is [NaN], and [NaN > 0] is false *)
      ({| type := kind; status := true; cooldown := None;
          reward := reward; defaultReward := defaultReward |},
       [BalanceAdd reward memberID guildID reason;
        DatabaseSet (guildID +:+ "." +:+ memberID +:+ "." +:+ key) later])
  end.

Definition getDaily (settings : option Settings) (userCooldown : option Z)
    (now later : Z) (random : Q) (memberID guildID : string) (reason : Value) :
    RewardData * list Call :=
  getReward Daily "dailyCooldown"
    (orCooldown (settings ≫= dailyCooldown) (dailyCooldown options))
    (orAmount (settings ≫= dailyAmount) (dailyAmount options))
    userCooldown now later random memberID guildID
    (defaultArg reason (VStr "claimed the daily reward")).

Definition getWork (settings : option Settings) (userCooldown : option Z)
    (now later : Z) (random : Q) (memberID guildID : string) (reason : Value) :
    RewardData * list Call :=
  getReward Work "workCooldown"
    (orCooldown (settings ≫= workCooldown) (workCooldown options))
    (orAmount (settings ≫= workAmount) (workAmount options))
    userCooldown now later random memberID guildID
    (defaultArg reason (VStr "claimed the work reward")).

Definition getWeekly (settings : option Settings) (userCooldown : option Z)
    (now later : Z) (random : Q) (memberID guildID : string) (reason : Value) :
    RewardData * list Call :=
  getReward Weekly "weeklyCooldown"
    (orCooldown (settings ≫= weeklyCooldown) (weeklyCooldown options))
    (orAmount (settings ≫= weeklyAmount) (weeklyAmount options))
    userCooldown now later random memberID guildID
    (defaultArg reason (VStr "claimed the weekly reward")).

(** The three reward methods, indexed by the kind of reward. *)
Definition claim (kind : RewardType) (settings : option Settings)
    (userCooldown : option Z) (now later : Z) (random : Q)
    (memberID guildID : string) (reason : Value) : RewardData * list Call :=
  match kind with
  | Daily => getDaily settings userCooldown now later random memberID guildID reason
  | Work => getWork settings userCooldown now later random memberID guildID reason
  | Weekly => getWeekly settings userCooldown now later random memberID guildID reason
  end.

(** [settings?.<kind>Cooldown || this.options.<kind>Cooldown] and
    [settings?.<kind>Amount || this.options.<kind>Amount]. *)
Definition cooldownOf (kind : RewardType) (settings : option Settings) : option Z :=
  match kind with
  | Daily => orCooldown (settings ≫= dailyCooldown) (dailyCooldown options)
  | Work => orCooldown (settings ≫= workCooldown) (workCooldown options)
  | Weekly => orCooldown (settings ≫= weeklyCooldown) (weeklyCooldown options)
  end.

Definition amountOf (kind : RewardType) (settings : option Settings) : option Amount :=
  match kind with
  | Daily => orAmount (settings ≫= dailyAmount) (dailyAmount options)
  | Work => orAmount (settings ≫= workAmount) (workAmount options)
  | Weekly => orAmount (settings ≫= weeklyAmount) (weeklyAmount options)
  end.

End Manager.

End RewardManager.

(** ** Reading a document *)

(** The balances the getters read, as pure functions of the document. *)
Definition balanceOf (obj : Document) (guildID memberID : string) : Z :=
  orZero (Member.money (memberData obj guildID memberID)).

Definition bankOf (obj : Document) (guildID memberID : string) : Z :=
  orZero (Member.bank (memberData obj guildID memberID)).

(** The document after [if (!obj[guildID]) obj[guildID] = {}] and
    [obj[guildID][memberID] = record]. *)
Definition putMember (obj : Document) (guildID memberID : string)
    (record : Member.t) : Document :=
  <[guildID := <[memberID := SMember record]> (default ∅ (obj !! guildID))]> obj.

(** The record a ledger operation writes back: the cooldowns, the inventory
    and the history as the getters read them from [data]. *)
Definition ledgerRecord (data : Member.t) (money bank : field) : Member.t :=
  {| Member.dailyCooldown := storeOpt (orNull (Member.dailyCooldown data));
     Member.workCooldown := storeOpt (orNull (Member.workCooldown data));
     Member.weeklyCooldown := storeOpt (orNull (Member.weeklyCooldown data));
     Member.money := money;
     Member.bank := bank;
     Member.inventory := Some (default [] (Member.inventory data));
     Member.history := Some (default [] (Member.history data)) |}.

(** ** A concrete host, to run the engine on examples *)

Definition digit (c : Ascii.ascii) : option Z :=
  let n := Z.of_nat (Ascii.nat_of_ascii c) in
  if bool_decide (48 ≤ n ≤ 57) then Some (n - 48) else None.

(** [StringToNumber] on strings of decimal digits; the empty string is [0]. *)
Fixpoint digits (s : string) (acc : Z) : num :=
  match s with
  | EmptyString => Int acc
  | String c s' =>
      match digit c with
      | Some d => digits s' (10 * acc + d)
      | None => NaN
      end
  end.

(** [Math.round(t / unit)] for a positive unit. *)
Definition roundDiv (t unit : Z) : Z := (2 * t + unit) / (2 * unit).

(** The short format of the [ms] package. *)
Definition shortMs (t : Z) : string :=
  if bool_decide (86400000 ≤ Z.abs t) then pretty (roundDiv t 86400000) +:+ "d"
  else if bool_decide (3600000 ≤ Z.abs t) then pretty (roundDiv t 3600000) +:+ "h"
  else if bool_decide (60000 ≤ Z.abs t) then pretty (roundDiv t 60000) +:+ "m"
  else if bool_decide (1000 ≤ Z.abs t) then pretty (roundDiv t 1000) +:+ "s"
  else pretty t +:+ "ms".

Definition node : Host := {| StringToNumber := λ s, digits s 0; ms := shortMs |}.

(** An empty storage file [{}] with no event emitted yet. *)
Definition fresh : World := {| storage := ∅; emitted := [] |}.

(** A world with the given storage. *)
Definition holding (obj : Document) : World := {| storage := obj; emitted := [] |}.

(** ** What the properties speak of *)

(** The reward a claim of each kind grants. *)
Definition rewardOf (kind : RewardType) (options : Options.t) (random : Q) : num :=
  match kind with
  | Daily => Int (Options.dailyAmount options)
  | Work => Economy.workReward random (Options.workAmount options)
  | Weekly => Int (Options.weeklyAmount options)
  end.

(** The record a claim writes before it credits the reward. *)
Definition stamped (kind : RewardType) (now : Z) (data : Member.t) : Member.t :=
  let r := ledgerRecord data (Val (orZero (Member.money data)))
             (Val (orZero (Member.bank data))) in
  match kind with
  | Daily =>
      {| Member.dailyCooldown := Val now;
         Member.workCooldown := Member.workCooldown r;
         Member.weeklyCooldown := Member.weeklyCooldown r;
         Member.money := Member.money r; Member.bank := Member.bank r;
         Member.inventory := Member.inventory r; Member.history := Member.history r |}
  | Work =>
      {| Member.dailyCooldown := Member.dailyCooldown r;
         Member.workCooldown := Val now;
         Member.weeklyCooldown := Member.weeklyCooldown r;
         Member.money := Member.money r; Member.bank := Member.bank r;
         Member.inventory := Member.inventory r; Member.history := Member.history r |}
  | Weekly =>
      {| Member.dailyCooldown := Member.dailyCooldown r;
         Member.workCooldown := Member.workCooldown r;
         Member.weeklyCooldown := Val now;
         Member.money := Member.money r; Member.bank := Member.bank r;
         Member.inventory := Member.inventory r; Member.history := Member.history r |}
  end.

(** [Math.random()] returns a number of [[0, 1)]. *)
Definition isRandom (random : Q) : Prop := (0 <= random)%Q ∧ (random < 1)%Q.

(** The numbers [k * 2^j] with [|k| ≤ 2^53] and [j ≥ -1074] are doubles. *)
Definition grid (g : Q) : Prop :=
  ∃ k j : Z, -1074 ≤ j ∧ Z.abs k ≤ 2 ^ 53 ∧ (g == inject_Z k * 2 ^ j)%Q.

(** [init] gets as far as its checks of the options: Node is recent enough,
    the instance has neither errored nor started, the storage file is there
    and holds JSON, and the check for updates is off or succeeds. *)
Definition startsUp (env : Startup) (config : Config.t) : Prop :=
  14 ≤ nodeMinor env ∧ errored env = false ∧ ready env = false ∧
  storageFile env = FileParsed ∧
  (Config.checkUpdates config = Some false ∨ updateCheck env = None).

(** The document after [if (!obj[guildID]) obj[guildID] = {}] and
    [obj[guildID]['shop'] = shop]. *)
Definition putShop (obj : Document) (guildID : string) (shop : list ShopItem.t) : Document :=
  <[guildID := <["shop" := SShop shop]> (default ∅ (obj !! guildID))]> obj.

(** The six ledger operations, indexed. *)
Inductive LedgerOp := OpSet | OpAdd | OpSubtract | OpBankSet | OpBankAdd | OpBankSubtract.

Definition ledger `{Host} (op : LedgerOp) (amount : Value) (memberID guildID : string)
    (reason : Value) : Eco num :=
  match op with
  | OpSet => Economy.set amount memberID guildID reason
  | OpAdd => Economy.add amount memberID guildID reason
  | OpSubtract => Economy.subtract amount memberID guildID reason
  | OpBankSet => Economy.bankSet amount memberID guildID reason
  | OpBankAdd => Economy.bankAdd amount memberID guildID reason
  | OpBankSubtract => Economy.bankSubtract amount memberID guildID reason
  end.

(** The money and the bank balance an operation leaves, from the ones it
    read and the amount: the sum and the difference are JavaScript's. *)
Definition moneyAfter (op : LedgerOp) (money a : Z) : Z :=
  match op with
  | OpSet => a
  | OpAdd => doubleZ (money + a)
  | OpSubtract => doubleZ (money - a)
  | _ => money
  end.

Definition bankAfter (op : LedgerOp) (bank a : Z) : Z :=
  match op with
  | OpBankSet => a
  | OpBankAdd => doubleZ (bank + a)
  | OpBankSubtract => doubleZ (bank - a)
  | _ => bank
  end.

(** Whether an operation works on the bank balance. *)
Definition onBank (op : LedgerOp) : bool :=
  match op with OpBankSet | OpBankAdd | OpBankSubtract => true | _ => false end.

(** The name and the [type] of the event an operation emits. *)
Definition eventOf (op : LedgerOp) : string * string :=
  match op with
  | OpSet => ("balanceSet", "set")
  | OpAdd => ("balanceAdd", "add")
  | OpSubtract => ("balanceSubtract", "subtract")
  | OpBankSet => ("bankSet", "bankSet")
  | OpBankAdd => ("bankAdd", "bankAdd")
  | OpBankSubtract => ("bankSubtract", "bankSubtract")
  end.

(** The reason a reward call gives by default, and the last component of the
    database key the manager stamps. *)
Definition claimReason (kind : RewardType) : Value :=
  match kind with
  | Daily => VStr "claimed the daily reward"
  | Work => VStr "claimed the work reward"
  | Weekly => VStr "claimed the weekly reward"
  end.

Definition cooldownKey (kind : RewardType) : string :=
  match kind with
  | Daily => "dailyCooldown"
  | Work => "workCooldown"
  | Weekly => "weeklyCooldown"
  end.

(** What lets [useItem] go on once the item is found: the item grants no
    role, or the role is a string and a client that knows the guild is
    given. *)
Definition usable (client : option Economy.shop.Client) (guildID : string)
    (item : InventoryItem.t) : Prop :=
  truthy (InventoryItem.role item) = false ∨
  ∃ c, client = Some c ∧ Economy.shop.isString (InventoryItem.role item) = true ∧
       Economy.shop.hasGuild c guildID = true.

(** How many items of a name an inventory holds, as [buy] counts them. *)
Definition heldOf `{Host} (name : Value) (inv : list InventoryItem.t) : nat :=
  length (filter (λ x, looseEq (InventoryItem.itemName x) name = true) inv).

(** A call of the ledger or of the shop, with its arguments. *)
Inductive Operation :=
| CallLedger (op : LedgerOp) (amount : Value) (memberID guildID : string) (reason : Value)
| CallAddItem (date guildID : string) (options : Economy.shop.ItemOptions)
| CallEditItem (itemID : Value) (guildID arg : string) (value : Value)
| CallRemoveItem (itemID : Value) (guildID : string)
| CallSearchItem (itemID : Value) (guildID : string)
| CallBuy (date : string) (itemID : Value) (memberID guildID : string) (reason : Value)
| CallUseItem (itemID : Value) (memberID guildID : string)
    (client : option Economy.shop.Client)
| CallClearInventory (memberID guildID : string)
| CallClearHistory (memberID guildID : string)
| CallClear (guildID : string).

(** The error a call has thrown, if any, and the world it leaves. *)
Definition outcome {A} (r : Completion A * World) : option Error * World :=
  (match r.1 with Throw e => Some e | Return _ => None end, r.2).

Definition perform `{Host} (c : Operation) (w : World) : option Error * World :=
  match c with
  | CallLedger op amount m g reason => outcome (ledger op amount m g reason w)
  | CallAddItem date g options => outcome (Economy.shop.addItem date g options w)
  | CallEditItem itemID g arg value => outcome (Economy.shop.editItem itemID g arg value w)
  | CallRemoveItem itemID g => outcome (Economy.shop.removeItem itemID g w)
  | CallSearchItem itemID g => outcome (Economy.shop.searchItem itemID g w)
  | CallBuy date itemID m g reason => outcome (Economy.shop.buy date itemID m g reason w)
  | CallUseItem itemID m g client => outcome (Economy.shop.useItem itemID m g client w)
  | CallClearInventory m g => outcome (Economy.shop.clearInventory m g w)
  | CallClearHistory m g => outcome (Economy.shop.clearHistory m g w)
  | CallClear g => outcome (Economy.shop.clear g w)
  end.

(** ** Example worlds *)

(** The options [init] settles on when nothing is configured. *)
Definition defaults : Options.t :=
  {| Options.dailyCooldown := 86400000;
     Options.workCooldown := 3600000;
     Options.weeklyCooldown := 604800000;
     Options.dailyAmount := 100;
     Options.workAmount := Range [10; 50];
     Options.weeklyAmount := 1000 |}.

(** The same defaults, as the options of the reward manager. *)
Definition managerDefaults : RewardManager.Settings :=
  {| RewardManager.dailyCooldown := Some 86400000;
     RewardManager.dailyAmount := Some (Fixed 100);
     RewardManager.workCooldown := Some 3600000;
     RewardManager.workAmount := Some (Range [10; 50]);
     RewardManager.weeklyCooldown := Some 604800000;
     RewardManager.weeklyAmount := Some (Fixed 1000) |}.

(** A member holding 5 coins in guild G1. *)
Definition fiveCoins : Document :=
  putMember ∅ "G1" "M1" (ledgerRecord Member.absent (Val 5) (Val 0)).

(** A member holding 1 coin in guild G1. *)
Definition oneCoin : Document :=
  putMember ∅ "G1" "M1" (ledgerRecord Member.absent (Val 1) (Val 0)).

(** A member who claimed the daily reward at [t]. *)
Definition claimedAt (t : Z) : Document :=
  putMember ∅ "G1" "M1"
    {| Member.dailyCooldown := Val t;
       Member.workCooldown := Null;
       Member.weeklyCooldown := Null;
       Member.money := Val 100;
       Member.bank := Val 0;
       Member.inventory := Some [];
       Member.history := Some [] |}.

(** The options of a sword with a price and a cap. *)
Definition sword (price : Z) (maxAmount : Value) : Economy.shop.ItemOptions :=
  {| Economy.shop.itemName := VStr "sword";
     Economy.shop.price := VNum (Int price);
     Economy.shop.message := VUndefined;
     Economy.shop.description := VUndefined;
     Economy.shop.maxAmount := maxAmount;
     Economy.shop.role := VUndefined |}.

(** The options of an item that has a name and a price only. *)
Definition named (name : string) (price : Z) : Economy.shop.ItemOptions :=
  {| Economy.shop.itemName := VStr name;
     Economy.shop.price := VNum (Int price);
     Economy.shop.message := VUndefined;
     Economy.shop.description := VUndefined;
     Economy.shop.maxAmount := VUndefined;
     Economy.shop.role := VUndefined |}.

(** The record [addItem] makes of [named name price]. *)
Definition listed (id : Z) (name : string) (price : Z) (date : string) : ShopItem.t :=
  {| ShopItem.id := id;
     ShopItem.itemName := VStr name;
     ShopItem.price := VNum (Int price);
     ShopItem.message := VStr "You have used this item!";
     ShopItem.description := VStr "Very mysterious item.";
     ShopItem.maxAmount := VNull;
     ShopItem.role := VNull;
     ShopItem.date := date |}.

(** A catalog with one sword at 50, through [addItem] on an empty storage
    file. *)
Definition withSword (maxAmount : Value) : World :=
  (Economy.shop.addItem (H := node) "01.01.2024" "G1" (sword 50 maxAmount) fresh).2.

(** A member who bought the only sword allowed. *)
Definition holdsSword : World :=
  (Economy.shop.buy (H := node) "02.01.2024" (VStr "sword") "M1" "G1" VUndefined
     (withSword (VNum (Int 1)))).2.

(** A configuration that sets [workAmount] only. *)
Definition workAmountOnly (workAmount : Amount) : Config.t :=
  {| Config.dailyCooldown := None;
     Config.workCooldown := None;
     Config.weeklyCooldown := None;
     Config.dailyAmount := None;
     Config.workAmount := Some workAmount;
     Config.weeklyAmount := None;
     Config.checkUpdates := None |}.

(** A configuration that sets [dailyCooldown] only. *)
Definition dailyCooldownOnly (dailyCooldown : Z) : Config.t :=
  {| Config.dailyCooldown := Some dailyCooldown;
     Config.workCooldown := None;
     Config.weeklyCooldown := None;
     Config.dailyAmount := None;
     Config.workAmount := None;
     Config.weeklyAmount := None;
     Config.checkUpdates := None |}.

(** A start on Node v16.14 with a storage file in place and a check for
    updates that succeeds. *)
Definition cleanStart : Startup :=
  {| nodeVersion := "v16.14.0";
     nodeMinor := 14;
     errored := false;
     ready := false;
     storageFile := FileParsed;
     updateCheck := None |}.

(** The same start on Node v16.13. *)
Definition minorThirteen : Startup :=
  {| nodeVersion := "v16.13.0";
     nodeMinor := 13;
     errored := false;
     ready := false;
     storageFile := FileParsed;
     updateCheck := None |}.

(** The options [init] settles on for [workAmount: []]. *)
Definition emptyRange : Options.t :=
  {| Options.dailyCooldown := 86400000;
     Options.workCooldown := 3600000;
     Options.weeklyCooldown := 604800000;
     Options.dailyAmount := 100;
     Options.workAmount := Range [];
     Options.weeklyAmount := 1000 |}.

(** A catalog with one sword at 50 and a member holding 20 coins. *)
Definition twentyCoins : World :=
  (Economy.set (H := node) (VNum (Int 20)) "M1" "G1" VNull (withSword VUndefined)).2.

(** The options of a badge that grants a role. *)
Definition badge : Economy.shop.ItemOptions :=
  {| Economy.shop.itemName := VStr "badge";
     Economy.shop.price := VNum (Int 5);
     Economy.shop.message := VUndefined;
     Economy.shop.description := VUndefined;
     Economy.shop.maxAmount := VUndefined;
     Economy.shop.role := VStr "<@&77>" |}.

(** A member who bought the badge. *)
Definition holdsBadge : World :=
  (Economy.shop.buy (H := node) "02.01.2024" (VStr "badge") "M1" "G1" VUndefined
     (Economy.shop.addItem (H := node) "01.01.2024" "G1" badge fresh).2).2.

(** * Properties *)

(** ** Storage facts *)

Lemma assign_ensure obj g m r :
  assignMember (ensureGuild obj g) g m r = Some (putMember obj g m r).
Proof.
  unfold assignMember, ensureGuild, putMember.
  destruct (obj !! g) as [guild|] eqn:E.
  - rewrite E. reflexivity.
  - rewrite lookup_insert_eq. simpl. rewrite insert_insert_eq. reflexivity.
Qed.

Lemma memberData_putMember obj g m r : memberData (putMember obj g m r) g m = r.
Proof.
  unfold memberData, putMember. rewrite lookup_insert_eq. simpl.
  rewrite lookup_insert_eq. reflexivity.
Qed.

Lemma memberData_ensureGuild obj g g' m :
  memberData (ensureGuild obj g) g' m = memberData obj g' m.
Proof.
  unfold memberData, ensureGuild. destruct (obj !! g) eqn:E; [reflexivity|].
  destruct (decide (g = g')) as [->|Hne].
  - rewrite lookup_insert_eq, E. reflexivity.
  - rewrite lookup_insert_ne by done. reflexivity.
Qed.

Lemma assignMember_absent obj g m r :
  obj !! g = None → assignMember obj g m r = None.
Proof. unfold assignMember. intros ->. reflexivity. Qed.

Lemma balanceOf_put obj g m data money bank :
  balanceOf (putMember obj g m (ledgerRecord data money bank)) g m = orZero money.
Proof. unfold balanceOf. rewrite memberData_putMember. reflexivity. Qed.

Lemma bankOf_put obj g m data money bank :
  bankOf (putMember obj g m (ledgerRecord data money bank)) g m = orZero bank.
Proof. unfold bankOf. rewrite memberData_putMember. reflexivity. Qed.

(** Unfolds the monad and the getters, so that a call runs by [simpl]. *)
Ltac eco_unfold :=
  unfold mbind, mret, Eco_bind, Eco_ret, readFile, writeFile, emit, throw,
    Economy.getDailyCooldown, Economy.getWorkCooldown, Economy.getWeeklyCooldown,
    Economy.fetch, Economy.bankFetch, Economy.all,
    Economy.shop.inventory, Economy.shop.history, orTypeError in *.

Ltac ledger_run HN :=
  unfold Economy.set, Economy.add, Economy.subtract,
    Economy.bankSet, Economy.bankAdd, Economy.bankSubtract;
  rewrite HN; eco_unfold; simpl; rewrite assign_ensure; simpl.

(** ** Doubles *)

Lemma rne_le (q : Q) (G : Z) : (q <= inject_Z G)%Q → rne q ≤ G.
Proof.
  intros Hq. unfold rne.
  assert (Qfloor q ≤ G) as Hf.
  { rewrite <- (Qfloor_Z G). by apply Qfloor_resp_le. }
  assert ((1 # 2 <= q - inject_Z (Qfloor q))%Q → Qfloor q + 1 ≤ G) as Hup.
  { intros Hr.
    assert (inject_Z (Qfloor q) < inject_Z G)%Q as Hlt by lra.
    rewrite <- Zlt_Qlt in Hlt. lia. }
  destruct (Qcompare_spec (q - inject_Z (Qfloor q)) (1 # 2)) as [E|E|E].
  - destruct (Z.even (Qfloor q)); [exact Hf|]. apply Hup. rewrite E. apply Qle_refl.
  - exact Hf.
  - apply Hup. by apply Qlt_le_weak.
Qed.

Lemma rne_ge (q : Q) (G : Z) : (inject_Z G <= q)%Q → G ≤ rne q.
Proof.
  intros Hq. unfold rne.
  assert (G ≤ Qfloor q) as Hf.
  { rewrite <- (Qfloor_Z G). by apply Qfloor_resp_le. }
  destruct (q - inject_Z (Qfloor q) ?= 1 # 2)%Q; [destruct (Z.even _)| |]; lia.
Qed.

Lemma pow2_pos (e : Z) : (0 < 2 ^ e)%Q.
Proof. by apply Qpower_0_lt. Qed.

Lemma pow2_plus (a b : Z) : (2 ^ (a + b) == 2 ^ a * 2 ^ b)%Q.
Proof. by apply Qpower_plus. Qed.

Lemma pow2_le (a b : Z) : a ≤ b → (2 ^ a <= 2 ^ b)%Q.
Proof. intros H. by apply Qpower_le_compat_l. Qed.

Lemma pow2_Z (n : Z) : 0 ≤ n → (inject_Z (2 ^ n) == 2 ^ n)%Q.
Proof. intros H. by rewrite Zpower_Qpower. Qed.

Lemma binade_lower (x : Q) : ¬ (x == 0)%Q → (2 ^ binade x <= Qabs x)%Q.
Proof.
  intros Hx. unfold binade.
  destruct (Qle_bool _ _) eqn:E; [by apply Qle_bool_iff in E|].
  clear E. destruct x as [n d]. cbn [Qnum Qden].
  assert (0 < Z.abs n) as Hn.
  { destruct (decide (n = 0)) as [->|]; [|lia]. exfalso. apply Hx. reflexivity. }
  pose proof (Z.log2_spec (Z.abs n) Hn) as [Ha _].
  pose proof (Z.log2_spec (Z.pos d) ltac:(lia)) as [_ Hd].
  pose proof (Z.log2_nonneg (Z.abs n)) as Hla.
  pose proof (Z.log2_nonneg (Z.pos d)) as Hld.
  set (la := Z.log2 (Z.abs n)) in *. set (ld := Z.log2 (Z.pos d)) in *.
  assert (Qabs (n # d) == inject_Z (Z.abs n) / inject_Z (Z.pos d))%Q as ->.
  { unfold Qabs. by rewrite Qmake_Qdiv. }
  apply Qle_shift_div_l; [unfold Qlt; simpl; lia|].
  apply Qle_trans with (2 ^ (la - ld - 1) * 2 ^ (ld + 1))%Q.
  - apply Qmult_le_l; [apply pow2_pos|].
    rewrite <- pow2_Z by lia. rewrite <- Zle_Qle. unfold Z.succ in Hd. lia.
  - rewrite <- pow2_plus. replace (la - ld - 1 + (ld + 1)) with la by lia.
    rewrite <- pow2_Z by lia. by rewrite <- Zle_Qle.
Qed.

Lemma double_zero (x : Q) : (x == 0)%Q → (double x == 0)%Q.
Proof.
  intros Hx. unfold double.
  set (e := Z.max _ _). clearbody e.
  pose proof (pow2_pos e) as He.
  assert (x / 2 ^ e == 0)%Q as Hq by (rewrite Hx; field; lra).
  assert (rne (x / 2 ^ e) = 0) as ->.
  { apply Z.le_antisymm; [apply rne_le | apply rne_ge]; rewrite Hq; apply Qle_refl. }
  ring.
Qed.

Lemma double_le_grid (x g : Q) : grid g → (x <= g)%Q → (double x <= g)%Q.
Proof.
  intros (k & j & Hj & Hk & Hg) Hx.
  destruct (Qeq_dec x 0) as [H0|H0].
  { rewrite (double_zero _ H0). by rewrite <- H0. }
  unfold double. pose proof (binade_lower x H0) as Hb.
  set (e := Z.max (binade x - 52) (-1074)) in *.
  pose proof (pow2_pos e) as He.
  assert (∀ G : Z, (x <= inject_Z G * 2 ^ e)%Q →
            (inject_Z (rne (x / 2 ^ e)) * 2 ^ e <= inject_Z G * 2 ^ e)%Q) as Hstep.
  { intros G HG. apply Qmult_le_compat_r; [|by apply Qlt_le_weak].
    rewrite <- Zle_Qle. apply rne_le. by apply Qle_shift_div_r. }
  destruct (decide (e ≤ j)) as [Hej|Hej].
  - assert (g == inject_Z (k * 2 ^ (j - e)) * 2 ^ e)%Q as HgG.
    { rewrite Hg, inject_Z_mult, pow2_Z by lia.
      rewrite <- Qmult_assoc, <- pow2_plus. by replace (j - e + e) with j by lia. }
    rewrite HgG. apply Hstep. by rewrite <- HgG.
  - assert (e = binade x - 52) as Hbe by lia.
    assert (2 ^ (52 + e) <= Qabs x)%Q as Hlow.
    { replace (52 + e) with (binade x) by lia. exact Hb. }
    assert (inject_Z (2 ^ 53) * 2 ^ j <= 2 ^ (52 + e))%Q as Hspan.
    { rewrite pow2_Z by lia. rewrite <- pow2_plus. apply pow2_le. lia. }
    assert (2 ^ (52 + e) == inject_Z (2 ^ 52) * 2 ^ e)%Q as Hsplit.
    { by rewrite pow2_Z, <- pow2_plus by lia. }
    pose proof (pow2_pos j) as Hpj.
    destruct (Qlt_le_dec x 0) as [Hneg|Hpos].
    + (* x is below -2^(52+e), which is below every grid point of exponent j *)
      rewrite (Qabs_neg x) in Hlow by by apply Qlt_le_weak.
      apply Qle_trans with (inject_Z (- 2 ^ 52) * 2 ^ e)%Q.
      * apply Hstep. rewrite inject_Z_opp. rewrite Hsplit in Hlow. lra.
      * rewrite Hg. rewrite inject_Z_opp.
        assert (inject_Z (- 2 ^ 53) * 2 ^ j <= inject_Z k * 2 ^ j)%Q as Hkk.
        { apply Qmult_le_compat_r; [|by apply Qlt_le_weak]. rewrite <- Zle_Qle. lia. }
        rewrite inject_Z_opp in Hkk. rewrite Hsplit in Hspan. lra.
    + rewrite (Qabs_pos x) in Hlow by done.
      apply Qle_trans with (inject_Z (2 ^ 52) * 2 ^ e)%Q.
      * apply Hstep. rewrite <- Hsplit.
        apply Qle_trans with g; [done|]. rewrite Hg.
        apply Qle_trans with (inject_Z (2 ^ 53) * 2 ^ j)%Q; [|done].
        apply Qmult_le_compat_r; [|by apply Qlt_le_weak]. rewrite <- Zle_Qle. lia.
      * rewrite <- Hsplit. by apply Qle_trans with x.
Qed.

Lemma double_ge_grid (x g : Q) : grid g → (g <= x)%Q → (g <= double x)%Q.
Proof.
  intros (k & j & Hj & Hk & Hg) Hx.
  destruct (Qeq_dec x 0) as [H0|H0].
  { rewrite (double_zero _ H0). by rewrite <- H0. }
  unfold double. pose proof (binade_lower x H0) as Hb.
  set (e := Z.max (binade x - 52) (-1074)) in *.
  pose proof (pow2_pos e) as He.
  assert (∀ G : Z, (inject_Z G * 2 ^ e <= x)%Q →
            (inject_Z G * 2 ^ e <= inject_Z (rne (x / 2 ^ e)) * 2 ^ e)%Q) as Hstep.
  { intros G HG. apply Qmult_le_compat_r; [|by apply Qlt_le_weak].
    rewrite <- Zle_Qle. apply rne_ge. by apply Qle_shift_div_l. }
  destruct (decide (e ≤ j)) as [Hej|Hej].
  - assert (g == inject_Z (k * 2 ^ (j - e)) * 2 ^ e)%Q as HgG.
    { rewrite Hg, inject_Z_mult, pow2_Z by lia.
      rewrite <- Qmult_assoc, <- pow2_plus. by replace (j - e + e) with j by lia. }
    rewrite HgG. apply Hstep. by rewrite <- HgG.
  - assert (e = binade x - 52) as Hbe by lia.
    assert (2 ^ (52 + e) <= Qabs x)%Q as Hlow.
    { replace (52 + e) with (binade x) by lia. exact Hb. }
    assert (inject_Z (2 ^ 53) * 2 ^ j <= 2 ^ (52 + e))%Q as Hspan.
    { rewrite pow2_Z by lia. rewrite <- pow2_plus. apply pow2_le. lia. }
    assert (2 ^ (52 + e) == inject_Z (2 ^ 52) * 2 ^ e)%Q as Hsplit.
    { by rewrite pow2_Z, <- pow2_plus by lia. }
    pose proof (pow2_pos j) as Hpj.
    assert (inject_Z k * 2 ^ j <= inject_Z (2 ^ 53) * 2 ^ j)%Q as Hkhi.
    { apply Qmult_le_compat_r; [|by apply Qlt_le_weak]. rewrite <- Zle_Qle. lia. }
    assert (inject_Z (- 2 ^ 53) * 2 ^ j <= inject_Z k * 2 ^ j)%Q as Hklo.
    { apply Qmult_le_compat_r; [|by apply Qlt_le_weak]. rewrite <- Zle_Qle. lia. }
    rewrite inject_Z_opp in Hklo.
    destruct (Qlt_le_dec x 0) as [Hneg|Hpos].
    + rewrite (Qabs_neg x) in Hlow by by apply Qlt_le_weak.
      apply Qle_trans with (inject_Z (- 2 ^ 52) * 2 ^ e)%Q.
      * rewrite inject_Z_opp, Hg. rewrite Hsplit in Hspan, Hlow. rewrite Hg in Hx. lra.
      * apply Hstep. rewrite inject_Z_opp. rewrite Hsplit in Hspan, Hlow.
        rewrite Hg in Hx. lra.
    + rewrite (Qabs_pos x) in Hlow by done.
      apply Qle_trans with (inject_Z (2 ^ 52) * 2 ^ e)%Q.
      * rewrite Hg. rewrite Hsplit in Hspan. lra.
      * apply Hstep. by rewrite <- Hsplit.
Qed.

(** A grid point is a double: rounding leaves it as it is. *)
Lemma double_grid (g : Q) : grid g → (double g == g)%Q.
Proof.
  intros Hg. apply Qle_antisym.
  - apply double_le_grid; [exact Hg | apply Qle_refl].
  - apply double_ge_grid; [exact Hg | apply Qle_refl].
Qed.

Lemma grid_Z (z : Z) : Z.abs z ≤ 2 ^ 53 → grid (inject_Z z).
Proof. intros Hz. exists z, 0. split; [lia|]. split; [exact Hz|]. simpl. ring. Qed.

(** Integers up to [2^53] in magnitude are doubles. *)
Lemma doubleZ_safe (z : Z) : Z.abs z ≤ 2 ^ 53 → doubleZ z = z.
Proof.
  intros Hz. unfold doubleZ.
  rewrite (Qfloor_comp _ _ (double_grid _ (grid_Z z Hz))). apply Qfloor_Z.
Qed.

(** ** The balance ledger *)

Section LedgerFacts.
Context `{Host}.

Lemma isNaN_Number amount a : Number amount = Int a → isNaN amount = false.
Proof. unfold isNaN. intros ->. reflexivity. Qed.

Lemma fetch_run m g w :
  Economy.fetch m g w = (Return (balanceOf (storage w) g m), w).
Proof. reflexivity. Qed.

Lemma bankFetch_run m g w :
  Economy.bankFetch m g w = (Return (bankOf (storage w) g m), w).
Proof. reflexivity. Qed.

Lemma set_run amount a m g reason w :
  Number amount = Int a →
  Economy.set amount m g reason w =
    (Return (Int a),
     {| storage := putMember (storage w) g m
          (ledgerRecord (memberData (storage w) g m) (Val a)
             (Val (bankOf (storage w) g m)));
        emitted := emitted w ++
          [Balance "balanceSet" "set" g m (VNum (Int a)) (Int a)
             (defaultArg reason VNull)] |}).
Proof.
  intros HA. pose proof (isNaN_Number _ _ HA) as HN.
  ledger_run HN. rewrite HA. reflexivity.
Qed.

Lemma add_run amount a m g reason w :
  Number amount = Int a →
  Economy.add amount m g reason w =
    (Return (Int a),
     {| storage := putMember (storage w) g m
          (ledgerRecord (memberData (storage w) g m)
             (Val (doubleZ (balanceOf (storage w) g m + a)))
             (Val (bankOf (storage w) g m)));
        emitted := emitted w ++
          [Balance "balanceAdd" "add" g m (VNum (Int a))
             (Int (doubleZ (balanceOf (storage w) g m + a)))
             (defaultArg reason VNull)] |}).
Proof.
  intros HA. pose proof (isNaN_Number _ _ HA) as HN.
  ledger_run HN. rewrite HA. reflexivity.
Qed.

Lemma subtract_run amount a m g reason w :
  Number amount = Int a →
  Economy.subtract amount m g reason w =
    (Return (Int a),
     {| storage := putMember (storage w) g m
          (ledgerRecord (memberData (storage w) g m)
             (Val (doubleZ (balanceOf (storage w) g m - a)))
             (Val (bankOf (storage w) g m)));
        emitted := emitted w ++
          [Balance "balanceSubtract" "subtract" g m (VNum (Int a))
             (Int (doubleZ (balanceOf (storage w) g m - a)))
             (defaultArg reason VNull)] |}).
Proof.
  intros HA. pose proof (isNaN_Number _ _ HA) as HN.
  ledger_run HN. rewrite HA. reflexivity.
Qed.

Lemma bankSet_run amount a m g reason w :
  Number amount = Int a →
  Economy.bankSet amount m g reason w =
    (Return (Int a),
     {| storage := putMember (storage w) g m
          (ledgerRecord (memberData (storage w) g m)
             (Val (balanceOf (storage w) g m)) (Val a));
        emitted := emitted w ++
          [Balance "bankSet" "bankSet" g m (VNum (Int a)) (Int a)
             (defaultArg reason VNull)] |}).
Proof.
  intros HA. pose proof (isNaN_Number _ _ HA) as HN.
  ledger_run HN. rewrite HA. reflexivity.
Qed.

Lemma bankAdd_run amount a m g reason w :
  Number amount = Int a →
  Economy.bankAdd amount m g reason w =
    (Return (Int a),
     {| storage := putMember (storage w) g m
          (ledgerRecord (memberData (storage w) g m)
             (Val (balanceOf (storage w) g m))
             (Val (doubleZ (bankOf (storage w) g m + a))));
        emitted := emitted w ++
          [Balance "bankAdd" "bankAdd" g m (VNum (Int a))
             (Int (doubleZ (bankOf (storage w) g m + a)))
             (defaultArg reason VNull)] |}).
Proof.
  intros HA. pose proof (isNaN_Number _ _ HA) as HN.
  ledger_run HN. rewrite HA. reflexivity.
Qed.

Lemma bankSubtract_run amount a m g reason w :
  Number amount = Int a →
  Economy.bankSubtract amount m g reason w =
    (Return (Int a),
     {| storage := putMember (storage w) g m
          (ledgerRecord (memberData (storage w) g m)
             (Val (balanceOf (storage w) g m))
             (Val (doubleZ (bankOf (storage w) g m - a))));
        emitted := emitted w ++
          [Balance "bankSubtract" "bankSubtract" g m (VNum (Int a))
             (Int (doubleZ (bankOf (storage w) g m - a)))
             (defaultArg reason VNull)] |}).
Proof.
  intros HA. pose proof (isNaN_Number _ _ HA) as HN.
  ledger_run HN. rewrite HA. reflexivity.
Qed.

(** An amount that is not a number is refused before anything is read or
    written. *)
Lemma add_rejects_NaN amount m g reason w :
  Number amount = NaN →
  Economy.add amount m g reason w =
    (Throw (EconomyError "amount must be a number"), w).
Proof. intros HA. unfold Economy.add, isNaN. rewrite HA. reflexivity. Qed.

(** C3, as amended: for a numeric amount, each of [set], [add], [subtract]
    and their bank mirrors returns [Number(amount)], the amount itself; the
    balance it leaves in the target field is [amount] for the setters,
    [current + amount] for the adders and [current - amount] for the
    subtractors, where [current] is the balance read at the start and [+]
    and [-] are JavaScript's (the exact result as a double). *)
Theorem ledger_returns_amount amount a m g reason w :
  Number amount = Int a →
  let current := balanceOf (storage w) g m in
  let currentBank := bankOf (storage w) g m in
  (completion (Economy.set amount m g reason w) = Return (Int a) ∧
   balanceOf (stored (Economy.set amount m g reason w)) g m = a) ∧
  (completion (Economy.add amount m g reason w) = Return (Int a) ∧
   balanceOf (stored (Economy.add amount m g reason w)) g m = doubleZ (current + a)) ∧
  (completion (Economy.subtract amount m g reason w) = Return (Int a) ∧
   balanceOf (stored (Economy.subtract amount m g reason w)) g m
     = doubleZ (current - a)) ∧
  (completion (Economy.bankSet amount m g reason w) = Return (Int a) ∧
   bankOf (stored (Economy.bankSet amount m g reason w)) g m = a) ∧
  (completion (Economy.bankAdd amount m g reason w) = Return (Int a) ∧
   bankOf (stored (Economy.bankAdd amount m g reason w)) g m
     = doubleZ (currentBank + a)) ∧
  (completion (Economy.bankSubtract amount m g reason w) = Return (Int a) ∧
   bankOf (stored (Economy.bankSubtract amount m g reason w)) g m
     = doubleZ (currentBank - a)).
Proof.
  intros HA current currentBank. subst current currentBank.
  rewrite (set_run _ _ _ _ _ _ HA), (add_run _ _ _ _ _ _ HA),
    (subtract_run _ _ _ _ _ _ HA), (bankSet_run _ _ _ _ _ _ HA),
    (bankAdd_run _ _ _ _ _ _ HA), (bankSubtract_run _ _ _ _ _ _ HA).
  unfold completion, stored. simpl.
  rewrite !balanceOf_put, !bankOf_put. simpl. repeat split.
Qed.

(** C4, as amended: for an integer amount [n], when the balance [fetch]
    reads and its sum with [n] are at most [2^53] in magnitude, [add]
    followed by [subtract] of the same amount both complete, and the balance
    [fetch] reads afterwards is the balance it read before. *)
Theorem add_then_subtract_restores amount n m g reason reason' w :
  Number amount = Int n →
  Z.abs (balanceOf (storage w) g m) ≤ 2 ^ 53 →
  Z.abs (balanceOf (storage w) g m + n) ≤ 2 ^ 53 →
  let w1 := (Economy.add amount m g reason w).2 in
  let w2 := (Economy.subtract amount m g reason' w1).2 in
  completion (Economy.add amount m g reason w) = Return (Int n) ∧
  completion (Economy.subtract amount m g reason' w1) = Return (Int n) ∧
  completion (Economy.fetch m g w2) = completion (Economy.fetch m g w).
Proof.
  intros HA Hb Hs w1 w2. subst w1 w2.
  rewrite !fetch_run.
  rewrite (add_run _ _ _ _ _ _ HA). simpl.
  rewrite (subtract_run _ _ _ _ _ _ HA). simpl.
  repeat split; try reflexivity.
  unfold completion. simpl. rewrite !balanceOf_put. simpl. do 2 f_equal.
  rewrite (doubleZ_safe _ Hs).
  replace (balanceOf (storage w) g m + n - n) with (balanceOf (storage w) g m) by lia.
  by apply doubleZ_safe.
Qed.

End LedgerFacts.

(** C3 fails as stated: on a balance of 5, [add(3)] returns 3 while the
    balance after the call is 8. *)
Lemma add_returns_amount_not_balance :
  let run := Economy.add (H := node) (VNum (Int 3)) "M1" "G1" VNull (holding fiveCoins) in
  balanceOf fiveCoins "G1" "M1" = 5 ∧
  completion run = Return (Int 3) ∧
  balanceOf (stored run) "G1" "M1" = 8 ∧
  completion run ≠ Return (Int (balanceOf (stored run) "G1" "M1")).
Proof. repeat split. discriminate. Qed.

Lemma ledger_returns_amount_witness :
  Number (H := node) (VStr "3") = Int 3 ∧
  completion (Economy.subtract (H := node) (VStr "3") "M1" "G1" VNull (holding fiveCoins))
    = Return (Int 3) ∧
  balanceOf (stored (Economy.subtract (H := node) (VStr "3") "M1" "G1" VNull
                       (holding fiveCoins))) "G1" "M1" = 2.
Proof.
  split; [reflexivity|].
  exact (proj1 (proj2 (proj2
    (ledger_returns_amount (H := node) (VStr "3") 3 "M1" "G1" VNull
       (holding fiveCoins) eq_refl)))).
Defined.

(** C4 fails as stated: on a balance of 1, [add(2^53)] stores [2^53] (the
    sum [2^53 + 1] is not a double and rounds to [2^53]), and
    [subtract(2^53)] then leaves 0. *)
Lemma add_then_subtract_loses_a_coin :
  let n := VNum (Int (2 ^ 53)) in
  let w1 := (Economy.add (H := node) n "M1" "G1" VNull (holding oneCoin)).2 in
  let w2 := (Economy.subtract (H := node) n "M1" "G1" VNull w1).2 in
  completion (Economy.fetch "M1" "G1" (holding oneCoin)) = Return 1 ∧
  completion (Economy.add (H := node) n "M1" "G1" VNull (holding oneCoin))
    = Return (Int (2 ^ 53)) ∧
  completion (Economy.fetch "M1" "G1" w1) = Return (2 ^ 53) ∧
  completion (Economy.subtract (H := node) n "M1" "G1" VNull w1) = Return (Int (2 ^ 53)) ∧
  completion (Economy.fetch "M1" "G1" w2) = Return 0.
Proof. vm_compute. repeat split. Qed.

Lemma add_then_subtract_restores_witness :
  Number (H := node) (VNum (Int 7)) = Int 7 ∧
  completion (Economy.fetch "M1" "G1"
    (Economy.subtract (H := node) (VNum (Int 7)) "M1" "G1" VNull
       (Economy.add (H := node) (VNum (Int 7)) "M1" "G1" VNull (holding fiveCoins)).2).2)
  = completion (Economy.fetch "M1" "G1" (holding fiveCoins)).
Proof.
  split; [reflexivity|].
  refine (proj2 (proj2
    (add_then_subtract_restores (H := node) (VNum (Int 7)) 7 "M1" "G1" VNull VNull
       (holding fiveCoins) eq_refl _ _))); vm_compute; discriminate.
Defined.

(** ** The cooldown gate *)

(** The decomposition [parse] makes of a time left recomposes to it, with
    each component in its range. *)
Lemma parse_recomposes r :
  0 ≤ r →
  let t := RewardManager.parse r in
  RewardManager.days t * 86400000 + RewardManager.hours t * 3600000
    + RewardManager.minutes t * 60000 + RewardManager.seconds t * 1000
    + RewardManager.milliseconds t = r ∧
  0 ≤ RewardManager.days t ∧
  0 ≤ RewardManager.hours t < 24 ∧
  0 ≤ RewardManager.minutes t < 60 ∧
  0 ≤ RewardManager.seconds t < 60 ∧
  0 ≤ RewardManager.milliseconds t < 1000.
Proof.
  intros Hr. unfold RewardManager.parse, RewardManager.floorRem. simpl.
  Z.to_euclidean_division_equations. lia.
Qed.

Section GateFacts.
Context `{Host}.

(** While a claim of some kind is locked, the engine's reward call returns
    the pretty-printed time left, computed from the second clock reading,
    and the world is the one it started in. *)
Lemma claim_locked options kind now later random m g reason w t :
  Economy.cooldownField kind (memberData (storage w) g m) = Val t →
  t ≠ 0 →
  Economy.cooldownOption kind options - (now - t) > 0 →
  Economy.claim options kind now later random m g reason w =
    (Return (Economy.TimeLeft (ms (Economy.cooldownOption kind options - (later - t)))), w).
Proof.
  intros Hf Ht Hr.
  destruct kind; simpl in *;
    unfold Economy.daily, Economy.work, Economy.weekly; eco_unfold; simpl;
    rewrite Hf; unfold orNull, Economy.timeLeft;
    rewrite bool_decide_false by done; rewrite bool_decide_true by done;
    reflexivity.
Qed.

(** While a claim of some kind is locked, the manager's reward method
    returns a refusal carrying the time left and calls neither the balance
    manager nor the database. *)
Lemma manager_claim_locked options kind settings t now later random m g reason c :
  RewardManager.cooldownOf options kind settings = Some c →
  c - (now - t) > 0 →
  RewardManager.claim options kind settings (Some t) now later random m g reason =
    ({| RewardManager.type := kind;
        RewardManager.status := false;
        RewardManager.cooldown :=
          Some {| RewardManager.time := RewardManager.parse (c - (now - t));
                  RewardManager.pretty := ms (c - (now - t)) |};
        RewardManager.reward := None;
        RewardManager.defaultReward := RewardManager.amountOf options kind settings |},
     []).
Proof.
  intros Hc Hr.
  destruct kind; simpl in *;
    unfold RewardManager.getDaily, RewardManager.getWork, RewardManager.getWeekly,
      RewardManager.getReward;
    rewrite Hc; simpl; rewrite bool_decide_true by done; reflexivity.
Qed.


End GateFacts.



(** ** The shop *)

Lemma findIndex_none {A} (p : A → bool) (l : list A) :
  (∀ x, x ∈ l → p x = false) → findIndex p l = None.
Proof.
  induction l as [|x l IH]; intros Hp; [reflexivity|]. simpl.
  rewrite (Hp x) by set_solver. rewrite IH; [reflexivity|].
  intros y Hy. apply Hp. set_solver.
Qed.

Lemma find_none_all {A} (p : A → bool) (l : list A) :
  (∀ x, x ∈ l → p x = false) → find p l = None.
Proof.
  induction l as [|x l IH]; intros Hp; [reflexivity|]. simpl.
  rewrite (Hp x) by set_solver. apply IH.
  intros y Hy. apply Hp. set_solver.
Qed.

Lemma find_app_last {A} (p : A → bool) (l : list A) (x : A) :
  (∀ y, y ∈ l → p y = false) → p x = true → find p (l ++ [x]) = Some x.
Proof.
  induction l as [|y l IH]; intros Hp Hx; simpl.
  - rewrite Hx. reflexivity.
  - rewrite (Hp y) by set_solver. apply IH; [|done].
    intros z Hz. apply Hp. set_solver.
Qed.

Lemma nextId_length {A} (l : list A) : nextId l = Z.of_nat (length l) + 1.
Proof.
  unfold nextId. case_bool_decide as E; [|reflexivity]. rewrite E. reflexivity.
Qed.

Lemma shopArray_ensureGuild obj g : shopArray (ensureGuild obj g) g = shopArray obj g.
Proof.
  unfold ensureGuild. destruct (obj !! g) eqn:E; [reflexivity|].
  unfold shopArray. rewrite lookup_insert_eq, E. reflexivity.
Qed.

(** The document after [obj[guildID]['shop'] = shop] on an engine-made guild. *)
Lemma assignShop_ensure obj g shop :
  assignShop (ensureGuild obj g) g shop =
    Some (<[g := <["shop" := SShop shop]> (default ∅ (obj !! g))]> obj).
Proof.
  unfold assignShop, ensureGuild.
  destruct (obj !! g) as [guild|] eqn:E.
  - rewrite E. reflexivity.
  - rewrite lookup_insert_eq. simpl. rewrite insert_insert_eq. reflexivity.
Qed.

Lemma shopArray_assigned obj g guild shop :
  shopArray (<[g := <["shop" := SShop shop]> guild]> obj) g = Some shop.
Proof.
  unfold shopArray. rewrite lookup_insert_eq. simpl.
  rewrite lookup_insert_eq. reflexivity.
Qed.

Section ShopFacts.
Context `{Host}.

(** C9: when no item of the member's inventory matches [itemID] by [id] or
    by [itemName], [useItem] returns [false] and the world (the storage file,
    hence inventory and history, and the events) is left as it was. *)
Theorem useItem_unknown_item itemID m g client w :
  notNumberNorString itemID = false →
  (∀ x, x ∈ default [] (Member.inventory (memberData (storage w) g m)) →
        Economy.shop.matchesInv itemID x = false) →
  Economy.shop.useItem itemID m g client w = (Return None, w).
Proof.
  intros Hid Hno. unfold Economy.shop.useItem. rewrite Hid.
  eco_unfold. simpl. rewrite (findIndex_none _ _ Hno). reflexivity.
Qed.

(** C10: for a field name of the edit set and a value that is neither
    [undefined] nor [null], [editItem] returns [true] when no item of the
    guild's catalog matches [itemID]; the world is left as it was, so nothing
    was edited. *)
Theorem editItem_no_match_returns_true itemID g arg value w shop :
  notNumberNorString itemID = false →
  arg ∈ Economy.shop.args →
  looseEq value VUndefined = false →
  shopArray (storage w) g = Some shop →
  (∀ x, x ∈ shop → Economy.shop.matchesShop itemID x = false) →
  Economy.shop.editItem itemID g arg value w = (Return true, w).
Proof.
  intros Hid Harg Hv Hshop Hno. unfold Economy.shop.editItem, Economy.shop.edit.
  rewrite Hid, Hv. rewrite bool_decide_true by done. simpl.
  eco_unfold. simpl. rewrite Hshop. simpl.
  rewrite (findIndex_none _ _ Hno). reflexivity.
Qed.

(** C5, as amended: when the catalog item found has a truthy [maxAmount]
    (for a number: one other than 0) and the member's inventory already holds
    at least [Number(maxAmount)] items of its [itemName], [buy] returns
    ['max'] and the world (storage and events) is left as it was. *)
Theorem buy_max_reached date itemID m g reason w shop item k :
  notNumberNorString itemID = false →
  shopArray (storage w) g = Some shop →
  find (Economy.shop.matchesShop itemID) shop = Some item →
  truthy (ShopItem.maxAmount item) = true →
  Number (ShopItem.maxAmount item) = Int k →
  k ≤ Z.of_nat (length (filter
         (λ x, looseEq (InventoryItem.itemName x) (ShopItem.itemName item) = true)
         (default [] (Member.inventory (memberData (storage w) g m))))) →
  Economy.shop.buy date itemID m g reason w = (Return Economy.shop.Max, w).
Proof.
  intros Hid Hshop Hfind Hset Hmax Hheld. unfold Economy.shop.buy. rewrite Hid.
  eco_unfold. simpl. rewrite Hshop. simpl. rewrite Hfind.
  rewrite Hset, Hmax. simpl.
  rewrite bool_decide_true by done.
  reflexivity.
Qed.

(** What a successful [buy] leaves behind: one more inventory item, numbered
    from the inventory's length, one more history item, and the money field
    computed as [Number(bal) - Number(item.price)]. *)
Lemma buy_bought date itemID m g reason w shop item :
  notNumberNorString itemID = false →
  shopArray (storage w) g = Some shop →
  find (Economy.shop.matchesShop itemID) shop = Some item →
  let data := memberData (storage w) g m in
  let inv := default [] (Member.inventory data) in
  let history := default [] (Member.history data) in
  truthy (ShopItem.maxAmount item)
    && num_geb (Int (Z.of_nat (length (filter
         (λ x, looseEq (InventoryItem.itemName x) (ShopItem.itemName item) = true) inv))))
         (Number (ShopItem.maxAmount item)) = false →
  let itemData :=
    {| InventoryItem.id := Z.of_nat (length inv) + 1;
       InventoryItem.itemName := ShopItem.itemName item;
       InventoryItem.price := ShopItem.price item;
       InventoryItem.message := ShopItem.message item;
       InventoryItem.role := orElse (ShopItem.role item) VNull;
       InventoryItem.maxAmount := ShopItem.maxAmount item;
       InventoryItem.date := date |} in
  let entry :=
    {| HistoryItem.id := Z.of_nat (length history) + 1;
       HistoryItem.memberID := m;
       HistoryItem.guildID := g;
       HistoryItem.itemName := ShopItem.itemName item;
       HistoryItem.price := ShopItem.price item;
       HistoryItem.role := orElse (ShopItem.role item) VNull;
       HistoryItem.maxAmount := ShopItem.maxAmount item;
       HistoryItem.date := date |} in
  let balance := num_sub (NumberOf (Member.money data)) (Number (ShopItem.price item)) in
  Economy.shop.buy date itemID m g reason w =
    (Return Economy.shop.Bought,
     {| storage := putMember (storage w) g m
          (Economy.shop.rebuilt data (storeNum balance) (inv ++ [itemData])
             (history ++ [entry]));
        emitted := (emitted w ++ [ShopItemBuy itemData]) ++
          [Balance "balanceSubtract" "subtract" g m (ShopItem.price item) balance
             (defaultArg reason (VStr "received the item from the shop"))] |}).
Proof.
  intros Hid Hshop Hfind data inv history Hmax itemData entry balance.
  unfold Economy.shop.buy. rewrite Hid.
  eco_unfold. simpl. rewrite Hshop. simpl. rewrite Hfind.
  fold data. fold inv. simpl in Hmax. rewrite Hmax. simpl.
  rewrite !memberData_ensureGuild. rewrite assign_ensure. simpl.
  fold data. fold inv. fold history. rewrite !nextId_length. reflexivity.
Qed.

(** With a money field that holds a number, a successful [buy] debits
    exactly the price. *)
Lemma buy_debits_price date itemID m g reason w shop item bal p :
  notNumberNorString itemID = false →
  shopArray (storage w) g = Some shop →
  find (Economy.shop.matchesShop itemID) shop = Some item →
  ShopItem.maxAmount item = VNull →
  Member.money (memberData (storage w) g m) = Val bal →
  ShopItem.price item = VNum (Int p) →
  completion (Economy.shop.buy date itemID m g reason w) = Return Economy.shop.Bought ∧
  Member.money (memberData (stored (Economy.shop.buy date itemID m g reason w)) g m)
    = Val (doubleZ (bal - p)).
Proof.
  intros Hid Hshop Hfind Hmax Hbal Hp.
  rewrite (buy_bought _ _ _ _ _ _ _ _ Hid Hshop Hfind) by (rewrite Hmax; reflexivity).
  unfold completion, stored. simpl. rewrite memberData_putMember. simpl.
  rewrite Hbal, Hp. split; reflexivity.
Qed.

End ShopFacts.

(** C2 on a member without a money field: the purchase goes through, the
    inventory and the history each get their one item, but the money field
    is stored as [null] ([Number(undefined) - 50] is [NaN]) and not as -50;
    the balance read back is 0. *)
Lemma buy_without_money_field_stores_null :
  let run := Economy.shop.buy (H := node) "02.01.2024" (VStr "sword") "M1" "G1"
               VUndefined (withSword VUndefined) in
  Member.money (memberData (storage (withSword VUndefined)) "G1" "M1") = Absent ∧
  completion run = Return Economy.shop.Bought ∧
  Member.money (memberData (stored run) "G1" "M1") = Null ∧
  balanceOf (stored run) "G1" "M1" = 0 ∧
  InventoryItem.id <$> default [] (Member.inventory (memberData (stored run) "G1" "M1")) = [1] ∧
  HistoryItem.id <$> default [] (Member.history (memberData (stored run) "G1" "M1")) = [1].
Proof. repeat split. Qed.

(** C5 fails as stated: an item whose [maxAmount] is set to 0 is never
    capped ([item.maxAmount && ...] is falsy), although every inventory holds
    at least 0 of it; the purchase goes through. *)
Lemma zero_maxAmount_is_not_a_cap :
  let w := withSword (VNum (Int 0)) in
  let run := Economy.shop.buy (H := node) "02.01.2024" (VStr "sword") "M1" "G1"
               VUndefined w in
  (ShopItem.maxAmount <$> shopArray (storage w) "G1" ≫= head) = Some (VNum (Int 0)) ∧
  completion run = Return Economy.shop.Bought ∧
  length (default [] (Member.inventory (memberData (stored run) "G1" "M1"))) = 1%nat ∧
  stored run ≠ storage w.
Proof.
  intros w run. subst w run.
  do 3 (split; [vm_compute; reflexivity|]).
  intros E.
  apply (f_equal (λ d, length (default [] (Member.inventory (memberData d "G1" "M1")))))
    in E.
  vm_compute in E. discriminate.
Qed.

Lemma buy_max_reached_witness :
  (ShopItem.maxAmount <$> shopArray (storage holdsSword) "G1" ≫= head)
    = Some (VNum (Int 1)) ∧
  length (default [] (Member.inventory (memberData (storage holdsSword) "G1" "M1")))
    = 1%nat ∧
  Economy.shop.buy (H := node) "03.01.2024" (VNum (Int 1)) "M1" "G1" VUndefined holdsSword
    = (Return Economy.shop.Max, holdsSword).
Proof.
  split; [reflexivity|]. split; [reflexivity|].
  eapply (buy_max_reached (H := node) _ _ _ _ _ _ _ _ 1);
    [reflexivity | reflexivity | reflexivity | reflexivity | reflexivity
    | vm_compute; discriminate].
Defined.

Lemma useItem_unknown_item_witness :
  notNumberNorString (VStr "shield") = false ∧
  Economy.shop.useItem (H := node) (VStr "shield") "M1" "G1" None holdsSword
    = (Return None, holdsSword).
Proof.
  split; [reflexivity|].
  apply (useItem_unknown_item (H := node)); [reflexivity|].
  vm_compute. intros x Hx. apply list_elem_of_singleton in Hx. subst x. reflexivity.
Defined.

Lemma editItem_no_match_returns_true_witness :
  (ShopItem.id <$> default [] (shopArray (storage holdsSword) "G1")) = [1] ∧
  Economy.shop.editItem (H := node) (VNum (Int 7)) "G1" "price" (VNum (Int 10)) holdsSword
    = (Return true, holdsSword).
Proof.
  split; [reflexivity|].
  eapply (editItem_no_match_returns_true (H := node));
    [reflexivity | vm_compute; set_solver | reflexivity | reflexivity |].
  intros x Hx. apply list_elem_of_singleton in Hx. subst x. reflexivity.
Defined.

(** ** The catalog round trip *)

Section CatalogFacts.
Context `{Host}.

Lemma stringify_string v : Economy.shop.isString v = true → stringify v = v.
Proof. destruct v; try discriminate. reflexivity. Qed.

Lemma stringify_Number v : isNaN v = false → stringify (VNum (Number v)) = VNum (Number v).
Proof. unfold isNaN. destruct (Number v); [discriminate | reflexivity]. Qed.

Lemma stringify_orElse v d :
  truthy v && negb (Economy.shop.isString v) = false →
  stringify d = d →
  stringify (orElse v d) = orElse v d.
Proof.
  unfold orElse. destruct (truthy v); simpl; [|done].
  intros Hs _. apply stringify_string. by destruct (Economy.shop.isString v).
Qed.

(** What [addItem] returns when it returns: the record it has appended to the
    catalog, numbered from the catalog's length, stored as returned. *)
Lemma addItem_returns date g options w shop item w' :
  shopArray (storage w) g = Some shop →
  Economy.shop.addItem date g options w = (Return item, w') →
  ShopItem.id item = Z.of_nat (length shop) + 1 ∧
  ShopItem.itemName item = Economy.shop.itemName options ∧
  Economy.shop.isString (ShopItem.itemName item) = true ∧
  shopArray (storage w') g = Some (shop ++ [item]) ∧
  emitted w' = emitted w ++ [ShopAddItem item].
Proof.
  intros Hshop. unfold Economy.shop.addItem.
  destruct (negb (Economy.shop.isString (Economy.shop.itemName options))) eqn:G1;
    [discriminate|].
  destruct (isNaN (Economy.shop.price options)) eqn:G2; [discriminate|].
  destruct (truthy (Economy.shop.message options)
            && negb (Economy.shop.isString (Economy.shop.message options))) eqn:G3;
    [discriminate|].
  destruct (truthy (Economy.shop.description options)
            && negb (Economy.shop.isString (Economy.shop.description options))) eqn:G4;
    [discriminate|].
  destruct (negb (bool_decide (Economy.shop.maxAmount options = VUndefined))
            && isNaN (Economy.shop.maxAmount options)) eqn:G5; [discriminate|].
  destruct (truthy (Economy.shop.role options)
            && negb (Economy.shop.isString (Economy.shop.role options))) eqn:G6;
    [discriminate|].
  eco_unfold. simpl. rewrite Hshop. simpl. rewrite assignShop_ensure. simpl.
  apply negb_false_iff in G1.
  assert (Economy.shop.storeItem
            {| ShopItem.id := nextId shop;
               ShopItem.itemName := Economy.shop.itemName options;
               ShopItem.price := VNum (Number (Economy.shop.price options));
               ShopItem.message :=
                 orElse (Economy.shop.message options) (VStr "You have used this item!");
               ShopItem.description :=
                 orElse (Economy.shop.description options) (VStr "Very mysterious item.");
               ShopItem.maxAmount :=
                 if looseEq (Economy.shop.maxAmount options) VUndefined then VNull
                 else VNum (Number (Economy.shop.maxAmount options));
               ShopItem.role := orElse (Economy.shop.role options) VNull;
               ShopItem.date := date |}
          = {| ShopItem.id := nextId shop;
               ShopItem.itemName := Economy.shop.itemName options;
               ShopItem.price := VNum (Number (Economy.shop.price options));
               ShopItem.message :=
                 orElse (Economy.shop.message options) (VStr "You have used this item!");
               ShopItem.description :=
                 orElse (Economy.shop.description options) (VStr "Very mysterious item.");
               ShopItem.maxAmount :=
                 if looseEq (Economy.shop.maxAmount options) VUndefined then VNull
                 else VNum (Number (Economy.shop.maxAmount options));
               ShopItem.role := orElse (Economy.shop.role options) VNull;
               ShopItem.date := date |}) as Hstored.
  { unfold Economy.shop.storeItem.
    cbn [ShopItem.id ShopItem.itemName ShopItem.price ShopItem.message
         ShopItem.description ShopItem.maxAmount ShopItem.role ShopItem.date].
    rewrite (stringify_string _ G1), (stringify_Number _ G2).
    rewrite (stringify_orElse _ _ G3 eq_refl), (stringify_orElse _ _ G4 eq_refl),
      (stringify_orElse _ _ G6 eq_refl).
    f_equal.
    destruct (Economy.shop.maxAmount options) as [| |n|s] eqn:E; simpl; try reflexivity.
    - simpl in G5. unfold isNaN in G5. simpl in G5. destruct n; [discriminate|reflexivity].
    - simpl in G5. unfold isNaN in G5. simpl in G5.
      destruct (StringToNumber s); [discriminate|reflexivity]. }
  rewrite Hstored. intros [= <- <-]. simpl.
  rewrite nextId_length, shopArray_assigned. done.
Qed.

Lemma matches_own_id (x : ShopItem.t) :
  Economy.shop.matchesShop (VNum (Int (ShopItem.id x))) x = true.
Proof.
  unfold Economy.shop.matchesShop, Economy.shop.matches. simpl.
  rewrite bool_decide_true by done. reflexivity.
Qed.

Lemma matches_own_name (x : ShopItem.t) :
  Economy.shop.isString (ShopItem.itemName x) = true →
  Economy.shop.matchesShop (ShopItem.itemName x) x = true.
Proof.
  unfold Economy.shop.matchesShop, Economy.shop.matches.
  destruct (ShopItem.itemName x) as [| | |s]; try discriminate. intros _. simpl.
  rewrite bool_decide_true by done. apply orb_true_r.
Qed.

Lemma searchItem_run itemID g w shop :
  notNumberNorString itemID = false →
  shopArray (storage w) g = Some shop →
  Economy.shop.searchItem itemID g w =
    (Return (find (Economy.shop.matchesShop itemID) shop), w).
Proof.
  intros Hid Hshop. unfold Economy.shop.searchItem. rewrite Hid.
  eco_unfold. simpl. rewrite Hshop. reflexivity.
Qed.

(** C7, as amended: when [addItem] returns an item, and no item of the prior
    catalog matches the returned [id] or the returned [itemName] (by [id] or
    by [itemName], under [==]), [searchItem] by the returned [id] and by the
    returned [itemName] both return the record [addItem] returned. *)
Theorem addItem_then_searchItem date g options w shop item w' :
  shopArray (storage w) g = Some shop →
  Economy.shop.addItem date g options w = (Return item, w') →
  (∀ x, x ∈ shop →
     Economy.shop.matchesShop (VNum (Int (ShopItem.id item))) x = false ∧
     Economy.shop.matchesShop (ShopItem.itemName item) x = false) →
  Economy.shop.searchItem (VNum (Int (ShopItem.id item))) g w' = (Return (Some item), w') ∧
  Economy.shop.searchItem (ShopItem.itemName item) g w' = (Return (Some item), w').
Proof.
  intros Hshop Hadd Hnew.
  destruct (addItem_returns _ _ _ _ _ _ _ Hshop Hadd) as (_ & _ & Hstr & Hshop' & _).
  split.
  - rewrite (searchItem_run (VNum (Int (ShopItem.id item))) _ _ _ eq_refl Hshop').
    rewrite find_app_last; [done | | apply matches_own_id].
    intros x Hx. by apply Hnew.
  - assert (notNumberNorString (ShopItem.itemName item) = false) as Hid
      by (destruct (ShopItem.itemName item); done).
    rewrite (searchItem_run _ _ _ _ Hid Hshop').
    rewrite find_app_last; [done | | by apply matches_own_name].
    intros x Hx. by apply Hnew.
Qed.

End CatalogFacts.

(** C7 fails as stated, in two ways. A second item of the same name: the
    search by name returns the older item. An item added after a removal:
    the catalog [shield (id 2)] has length 1, so the new item is numbered 2 as
    well and the search by id returns the shield. *)
Lemma searchItem_returns_an_older_item :
  (let w1 := (Economy.shop.addItem (H := node) "01.01.2024" "G1" (named "sword" 50) fresh).2 in
   let run := Economy.shop.addItem (H := node) "02.01.2024" "G1" (named "sword" 70) w1 in
   completion run = Return (listed 2 "sword" 70 "02.01.2024") ∧
   completion (Economy.shop.searchItem (H := node) (VStr "sword") "G1" run.2)
     = Return (Some (listed 1 "sword" 50 "01.01.2024")) ∧
   listed 1 "sword" 50 "01.01.2024" ≠ listed 2 "sword" 70 "02.01.2024") ∧
  (let w1 := (Economy.shop.addItem (H := node) "01.01.2024" "G1" (named "sword" 50) fresh).2 in
   let w2 := (Economy.shop.addItem (H := node) "02.01.2024" "G1" (named "shield" 30) w1).2 in
   let w3 := (Economy.shop.removeItem (H := node) (VNum (Int 1)) "G1" w2).2 in
   let run := Economy.shop.addItem (H := node) "03.01.2024" "G1" (named "bow" 20) w3 in
   completion run = Return (listed 2 "bow" 20 "03.01.2024") ∧
   completion (Economy.shop.searchItem (H := node) (VNum (Int 2)) "G1" run.2)
     = Return (Some (listed 2 "shield" 30 "02.01.2024")) ∧
   listed 2 "shield" 30 "02.01.2024" ≠ listed 2 "bow" 20 "03.01.2024").
Proof. repeat split; discriminate. Qed.

Lemma addItem_then_searchItem_witness :
  let run := Economy.shop.addItem (H := node) "02.01.2024" "G1" (named "shield" 30)
               (withSword VUndefined) in
  completion run = Return (listed 2 "shield" 30 "02.01.2024") ∧
  Economy.shop.searchItem (H := node) (VNum (Int 2)) "G1" run.2
    = (Return (Some (listed 2 "shield" 30 "02.01.2024")), run.2) ∧
  Economy.shop.searchItem (H := node) (VStr "shield") "G1" run.2
    = (Return (Some (listed 2 "shield" 30 "02.01.2024")), run.2).
Proof.
  split; [reflexivity|].
  apply (addItem_then_searchItem (H := node) "02.01.2024" "G1" (named "shield" 30)
           (withSword VUndefined) [listed 1 "sword" 50 "01.01.2024"]
           (listed 2 "shield" 30 "02.01.2024")); [reflexivity | reflexivity |].
  intros x Hx. apply list_elem_of_singleton in Hx. subst x. split; reflexivity.
Defined.

(** ** Lazy creation of guild and member records *)

Section CreationFacts.
Context `{Host}.

(** A claim that is not locked stamps the timestamp, credits the reward
    through [add] and returns it. *)
Lemma claim_unlocked options kind now later random m g reason w r :
  Economy.timeLeft (Economy.cooldownOption kind options) now later
    (orNull (Economy.cooldownField kind (memberData (storage w) g m))) = None →
  rewardOf kind options random = Int r →
  completion (Economy.claim options kind now later random m g reason w)
    = Return (Economy.Claimed (Int r)) ∧
  stored (Economy.claim options kind now later random m g reason w)
    = putMember (putMember (storage w) g m (stamped kind later (memberData (storage w) g m)))
        g m (ledgerRecord (stamped kind later (memberData (storage w) g m))
               (Val (doubleZ (balanceOf (storage w) g m + r)))
               (Val (bankOf (storage w) g m))).
Proof.
  intros Hopen Hr.
  destruct kind; simpl in Hopen, Hr;
    unfold Economy.claim, Economy.daily, Economy.work, Economy.weekly;
    eco_unfold; simpl; rewrite Hopen; simpl; rewrite assign_ensure; simpl;
    rewrite ?Hr;
    match goal with
    | |- context [Economy.add ?a m g ?rs ?w0] =>
        rewrite (add_run a r m g rs w0) by (simpl; congruence)
    end; simpl; unfold completion, stored; simpl;
    rewrite memberData_putMember; simpl;
    unfold balanceOf, bankOf; rewrite ?memberData_putMember; simpl;
    (split; [try rewrite Hr; reflexivity | reflexivity]).
Qed.

(** On a guild the storage does not know, [clearInventory] and
    [clearHistory] throw: they assign to [obj[guildID][memberID]] without
    creating [obj[guildID]] first. Nothing is written. *)
Lemma clear_unknown_guild_throws m g w :
  storage w !! g = None →
  Economy.shop.clearInventory m g w
    = (Throw (TypeError "cannot set properties of undefined"), w) ∧
  Economy.shop.clearHistory m g w
    = (Throw (TypeError "cannot set properties of undefined"), w).
Proof.
  intros Hg. unfold Economy.shop.clearInventory, Economy.shop.clearHistory.
  eco_unfold. simpl. rewrite !(assignMember_absent _ _ _ _ Hg). done.
Qed.

(** On a guild the storage knows, they create the member record when it is
    missing. *)
Lemma clearInventory_known_guild m g w guild :
  storage w !! g = Some guild →
  Economy.shop.clearInventory m g w =
    (Return true,
     {| storage := putMember (storage w) g m
          (Economy.shop.rebuilt (memberData (storage w) g m)
             (Val (balanceOf (storage w) g m)) []
             (default [] (Member.history (memberData (storage w) g m))));
        emitted := emitted w |}).
Proof.
  intros Hg. unfold Economy.shop.clearInventory. eco_unfold. simpl.
  unfold assignMember, putMember. rewrite Hg. reflexivity.
Qed.

(** The ledger operations create the guild and the member when the storage
    does not know the guild. *)
Lemma ledger_creates_guild_and_member amount a m g reason w :
  Number amount = Int a →
  storage w !! g = None →
  stored (Economy.set amount m g reason w) !! g
    = Some {[ m := SMember (ledgerRecord Member.absent (Val a) (Val 0)) ]} ∧
  stored (Economy.add amount m g reason w) !! g
    = Some {[ m := SMember (ledgerRecord Member.absent (Val (doubleZ (0 + a))) (Val 0)) ]} ∧
  stored (Economy.subtract amount m g reason w) !! g
    = Some {[ m := SMember (ledgerRecord Member.absent (Val (doubleZ (0 - a))) (Val 0)) ]} ∧
  stored (Economy.bankSet amount m g reason w) !! g
    = Some {[ m := SMember (ledgerRecord Member.absent (Val 0) (Val a)) ]} ∧
  stored (Economy.bankAdd amount m g reason w) !! g
    = Some {[ m := SMember (ledgerRecord Member.absent (Val 0) (Val (doubleZ (0 + a)))) ]} ∧
  stored (Economy.bankSubtract amount m g reason w) !! g
    = Some {[ m := SMember (ledgerRecord Member.absent (Val 0) (Val (doubleZ (0 - a)))) ]}.
Proof.
  intros HA Hg.
  rewrite (set_run _ _ _ _ _ _ HA), (add_run _ _ _ _ _ _ HA),
    (subtract_run _ _ _ _ _ _ HA), (bankSet_run _ _ _ _ _ _ HA),
    (bankAdd_run _ _ _ _ _ _ HA), (bankSubtract_run _ _ _ _ _ _ HA).
  unfold stored, putMember, balanceOf, bankOf, memberData. simpl.
  rewrite !lookup_insert_eq, Hg. simpl. repeat split.
Qed.

End CreationFacts.

(** C8 on an empty storage file: [clearInventory] and [clearHistory] throw
    a [TypeError] and write nothing, whereas [set] creates guild and member. *)
Lemma clear_on_empty_storage_throws :
  Economy.shop.clearInventory "M1" "G1" fresh
    = (Throw (TypeError "cannot set properties of undefined"), fresh) ∧
  Economy.shop.clearHistory "M1" "G1" fresh
    = (Throw (TypeError "cannot set properties of undefined"), fresh) ∧
  completion (Economy.set (H := node) (VNum (Int 5)) "M1" "G1" VNull fresh)
    = Return (Int 5) ∧
  balanceOf (stored (Economy.set (H := node) (VNum (Int 5)) "M1" "G1" VNull fresh))
    "G1" "M1" = 5.
Proof. repeat split. Qed.

(** ** The reward drawn from a range *)

Lemma Qfloor_eq_iff (x : Q) (v : Z) :
  Qfloor x = v ↔ (inject_Z v <= x)%Q ∧ (x < inject_Z (v + 1))%Q.
Proof.
  split.
  - intros <-. split; [apply Qfloor_le | apply Qlt_floor].
  - intros [Hl Hu].
    pose proof (Qfloor_le x) as Fl. pose proof (Qlt_floor x) as Fu.
    assert (inject_Z (Qfloor x) < inject_Z (v + 1))%Q as A by (eapply Qle_lt_trans; eauto).
    assert (inject_Z v < inject_Z (Qfloor x + 1))%Q as B by (eapply Qle_lt_trans; eauto).
    rewrite <- Zlt_Qlt in A, B. lia.
Qed.

Lemma Qceiling_eq_iff (x : Q) (v : Z) :
  Qceiling x = v ↔ (inject_Z (v - 1) < x)%Q ∧ (x <= inject_Z v)%Q.
Proof.
  split.
  - intros <-. split; [apply Qceiling_lt | apply Qle_ceiling].
  - intros [Hl Hu].
    pose proof (Qle_ceiling x) as Fl. pose proof (Qceiling_lt x) as Fu.
    assert (inject_Z (Qceiling x - 1) < inject_Z v)%Q as A by (eapply Qlt_le_trans; eauto).
    assert (inject_Z (v - 1) < inject_Z (Qceiling x))%Q as B by (eapply Qlt_le_trans; eauto).
    rewrite <- Zlt_Qlt in A, B. lia.
Qed.

Lemma inject_Z_sub (a b : Z) : (inject_Z (a - b) == inject_Z a - inject_Z b)%Q.
Proof. unfold Z.sub. rewrite inject_Z_plus, inject_Z_opp. ring. Qed.

(** The share [random * w] of a width [w] lies in [[0, w]], below [w] when
    [w] is positive. *)
Lemma scaled_bounds (r : Q) (w : Z) :
  isRandom r → 0 ≤ w →
  (0 <= r * inject_Z w)%Q ∧ (r * inject_Z w <= inject_Z w)%Q ∧
  (0 < w → (r * inject_Z w < inject_Z w)%Q).
Proof.
  intros [H0 H1] Hw.
  assert (0 <= inject_Z w)%Q as HW
    by (change 0%Q with (inject_Z 0); by rewrite <- Zle_Qle).
  split; [|split].
  - by apply Qmult_le_0_compat.
  - assert (r * inject_Z w <= 1 * inject_Z w)%Q as A
      by (apply Qmult_le_compat_r; [by apply Qlt_le_weak | done]).
    lra.
  - intros Hpos.
    assert (0 < inject_Z w)%Q as HW'
      by (change 0%Q with (inject_Z 0); by rewrite <- Zlt_Qlt).
    assert (r * inject_Z w < 1 * inject_Z w)%Q as A
      by (by apply Qmult_lt_compat_r).
    lra.
Qed.

(** Rounded as the code computes it, [random * (lo - hi) + hi] stays within
    [[lo, hi]]: every rounding is to the nearest double, and [lo - hi], 0,
    [lo] and [hi] are doubles. *)
Lemma mix_range (r : Q) (lo hi : Z) :
  isRandom r → lo ≤ hi → - 2 ^ 53 ≤ lo → hi ≤ 2 ^ 53 → hi - lo ≤ 2 ^ 53 →
  (inject_Z lo <= mix r lo hi)%Q ∧ (mix r lo hi <= inject_Z hi)%Q.
Proof.
  intros Hr Hle Hlo Hhi Hw. unfold mix.
  rewrite (doubleZ_safe (lo - hi)) by lia.
  destruct (scaled_bounds r (hi - lo) Hr ltac:(lia)) as (B0 & B1 & _).
  assert (r * inject_Z (lo - hi) == - (r * inject_Z (hi - lo)))%Q as Ex
    by (rewrite !inject_Z_sub; ring).
  assert (inject_Z (lo - hi) == - inject_Z (hi - lo))%Q as Ed
    by (rewrite !inject_Z_sub; ring).
  assert (inject_Z (lo - hi) <= double (r * inject_Z (lo - hi)))%Q as P1.
  { apply double_ge_grid; [apply grid_Z; lia|]. rewrite Ex, Ed. lra. }
  assert (double (r * inject_Z (lo - hi)) <= 0)%Q as P2.
  { apply (double_le_grid _ (inject_Z 0)); [apply grid_Z; lia|].
    change (inject_Z 0) with 0%Q. rewrite Ex. lra. }
  pose proof (inject_Z_sub lo hi) as Es.
  split.
  - apply double_ge_grid; [apply grid_Z; lia|]. lra.
  - apply double_le_grid; [apply grid_Z; lia|]. lra.
Qed.

Lemma ceil_range (r : Q) (lo hi : Z) :
  isRandom r → lo ≤ hi → - 2 ^ 53 ≤ lo → hi ≤ 2 ^ 53 → hi - lo ≤ 2 ^ 53 →
  ∃ v, ceilMix r (Int lo) (Int hi) = Int v ∧ lo ≤ v ≤ hi.
Proof.
  intros Hr Hle Hlo Hhi Hw. eexists. split; [reflexivity|].
  destruct (mix_range r lo hi Hr Hle Hlo Hhi Hw) as [M1 M2].
  pose proof (Qceiling_resp_le _ _ M1) as A. pose proof (Qceiling_resp_le _ _ M2) as B.
  rewrite Qceiling_Z in A, B. lia.
Qed.

Lemma floor_range (r : Q) (lo hi : Z) :
  isRandom r → lo ≤ hi → - 2 ^ 53 ≤ lo → hi ≤ 2 ^ 53 → hi - lo ≤ 2 ^ 53 →
  ∃ v, floorMix r (Int lo) (Int hi) = Int v ∧ lo ≤ v ≤ hi.
Proof.
  intros Hr Hle Hlo Hhi Hw. eexists. split; [reflexivity|].
  destruct (mix_range r lo hi Hr Hle Hlo Hhi Hw) as [M1 M2].
  pose proof (Qfloor_resp_le _ _ M1) as A. pose proof (Qfloor_resp_le _ _ M2) as B.
  rewrite Qfloor_Z in A, B. lia.
Qed.

(** When [init] resolves, it has unwrapped a one-element [workAmount],
    provided [dailyCooldown] is left to its default. *)
Lemma init_single_element env config n options :
  Config.workAmount config = Some (Range [n]) →
  Config.dailyCooldown config = None →
  Economy.init env config = Resolved options →
  Options.workAmount options = Fixed n.
Proof.
  intros Hw Hd. unfold Economy.init. rewrite Hw, Hd. simpl.
  repeat (match goal with |- context [if ?b then _ else _] => destruct b end;
          [discriminate|]).
  destruct (storageFile env); try discriminate.
  destruct (if default true (Config.checkUpdates config) then updateCheck env else None);
    [discriminate|].
  by intros [= <-].
Qed.

(** The draw from a pair. *)
Lemma workReward_pair random lo hi :
  Economy.workReward random (Range [lo; hi]) = ceilMix random (Int lo) (Int hi).
Proof. reflexivity. Qed.

Lemma drawReward_pair random lo hi :
  RewardManager.drawReward random (Some (Range [lo; hi]))
    = Some (floorMix random (Int lo) (Int hi)).
Proof. reflexivity. Qed.

Section DrawFacts.
Context `{Host}.

(** When the manager grants a reward, it is the one drawn from the
    configured amount. *)
Lemma manager_claim_reward options kind settings userCooldown now later random
    m g reason :
  let data := (RewardManager.claim options kind settings userCooldown now later random
                 m g reason).1 in
  RewardManager.status data = true →
  RewardManager.reward data
    = RewardManager.drawReward random (RewardManager.amountOf options kind settings).
Proof.
  destruct kind; simpl;
    unfold RewardManager.getDaily, RewardManager.getWork, RewardManager.getWeekly,
      RewardManager.getReward;
    match goal with |- context [RewardManager.orCooldown ?a ?b] =>
      destruct (RewardManager.orCooldown a b) end; simpl;
    try (intros _; reflexivity);
    match goal with |- context [bool_decide ?P && bool_decide ?Q] =>
      destruct (bool_decide P && bool_decide Q) end; simpl;
    first [discriminate | intros _; reflexivity].
Qed.


End DrawFacts.



(** ** More storage facts *)

Lemma memberData_putMember_ne obj g m r g' m' :
  (g', m') ≠ (g, m) → memberData (putMember obj g m r) g' m' = memberData obj g' m'.
Proof.
  intros Hne. unfold memberData, putMember.
  destruct (decide (g = g')) as [<-|Hg].
  - rewrite lookup_insert_eq. simpl.
    rewrite lookup_insert_ne by congruence.
    destruct (obj !! g); reflexivity.
  - rewrite lookup_insert_ne by done. reflexivity.
Qed.

Lemma shopArray_putMember obj g m r g' :
  m ≠ "shop" → shopArray (putMember obj g m r) g' = shopArray obj g'.
Proof.
  intros Hm. unfold shopArray, putMember.
  destruct (decide (g = g')) as [<-|Hg].
  - rewrite lookup_insert_eq. simpl. rewrite lookup_insert_ne by done.
    destruct (obj !! g); reflexivity.
  - rewrite lookup_insert_ne by done. reflexivity.
Qed.

Lemma putMember_putMember obj g m r r' :
  putMember (putMember obj g m r) g m r' = putMember obj g m r'.
Proof.
  unfold putMember. rewrite lookup_insert_eq. simpl.
  rewrite !insert_insert_eq. reflexivity.
Qed.

Lemma assignMember_known obj g m r guild :
  obj !! g = Some guild → assignMember obj g m r = Some (putMember obj g m r).
Proof. intros Hg. unfold assignMember, putMember. rewrite Hg. reflexivity. Qed.

(** A timestamp read through [|| null] and stored reads the same again. *)
Lemma storeOpt_orNull_idem f : orNull (storeOpt (orNull f)) = orNull f.
Proof.
  destruct f as [| |z]; try reflexivity. unfold orNull.
  case_bool_decide as E; [reflexivity|]. simpl. rewrite bool_decide_false by done. reflexivity.
Qed.

Lemma orNull_Val now : now ≠ 0 → orNull (Val now) = Some now.
Proof. intros Hn. unfold orNull. by rewrite bool_decide_false. Qed.

Lemma defaultArg_idem reason value other :
  value ≠ VUndefined → defaultArg (defaultArg reason value) other = defaultArg reason value.
Proof.
  intros Hv. unfold defaultArg. destruct (bool_decide (reason = VUndefined)) eqn:E.
  - by rewrite bool_decide_false.
  - by rewrite E.
Qed.

Lemma shopArray_cons obj g x shop :
  shopArray obj g = Some (x :: shop) →
  ∃ guild, obj !! g = Some guild ∧ guild !! "shop" = Some (SShop (x :: shop)).
Proof.
  unfold shopArray. destruct (obj !! g) as [guild|]; simpl; [|discriminate].
  destruct (guild !! "shop") as [[r|items]|] eqn:E; try discriminate.
  intros [= ->]. eauto.
Qed.

(** A catalog that is not empty lives in a guild the storage knows. *)
Lemma assignShop_known obj g shop shop' :
  shopArray obj g = Some shop → shop ≠ [] →
  assignShop obj g shop' = Some (putShop obj g shop').
Proof.
  intros Hs Hne. destruct shop as [|x shop]; [done|].
  destruct (shopArray_cons _ _ _ _ Hs) as (guild & Hg & _).
  unfold assignShop, putShop. rewrite Hg. reflexivity.
Qed.

Lemma shopArray_putShop obj g shop : shopArray (putShop obj g shop) g = Some shop.
Proof. apply shopArray_assigned. Qed.

Lemma shopArray_putShop_ne obj g g' shop :
  g' ≠ g → shopArray (putShop obj g shop) g' = shopArray obj g'.
Proof. intros Hne. unfold shopArray, putShop. by rewrite lookup_insert_ne. Qed.

Lemma memberData_putShop obj g shop g' m :
  m ≠ "shop" → memberData (putShop obj g shop) g' m = memberData obj g' m.
Proof.
  intros Hm. unfold memberData, putShop.
  destruct (decide (g = g')) as [<-|Hg].
  - rewrite lookup_insert_eq. simpl. rewrite lookup_insert_ne by done.
    destruct (obj !! g); reflexivity.
  - by rewrite lookup_insert_ne.
Qed.

Lemma slot_putShop obj g shop : putShop obj g shop !! g ≫= (.!! "shop") = Some (SShop shop).
Proof. unfold putShop. rewrite lookup_insert_eq. simpl. by rewrite lookup_insert_eq. Qed.

(** An inventory that is not empty belongs to a guild the storage knows. *)
Lemma inventory_cons obj g m x inv :
  default [] (Member.inventory (memberData obj g m)) = x :: inv →
  ∃ guild, obj !! g = Some guild.
Proof.
  unfold memberData. destruct (obj !! g) as [guild|]; simpl; [eauto|discriminate].
Qed.

(** What the index [findIndex] returns stands for. *)
Lemma findIndex_Some {A} (p : A → bool) (l : list A) i :
  findIndex p l = Some i →
  ∃ x, l !! i = Some x ∧ p x = true ∧ find p l = Some x ∧
       ∀ x', p x' = true → find p (<[i := x']> l) = Some x'.
Proof.
  revert i. induction l as [|y l IH]; intros i; simpl; [discriminate|].
  destruct (p y) eqn:Hy.
  - intros [= <-]. exists y. repeat split; try done. intros x' Hx'. simpl. by rewrite Hx'.
  - destruct (findIndex p l) as [j|] eqn:E; simpl; [|discriminate].
    intros [= <-]. destruct (IH j eq_refl) as (x & Hl & Hp & Hf & Hi).
    exists x. repeat split; try done. intros x' Hx'. simpl. rewrite Hy. by apply Hi.
Qed.

Lemma findIndex_lookup {A} (p : A → bool) (l : list A) i :
  findIndex p l = Some i → is_Some (l !! i).
Proof.
  intros Hi. destruct (findIndex_Some _ _ _ Hi) as (x & Hx & _). eauto.
Qed.

Lemma find_Some_ne {A} (p : A → bool) (l : list A) x :
  find p l = Some x → l ≠ [].
Proof. destruct l; [discriminate|done]. Qed.

Lemma findIndex_Some_ne {A} (p : A → bool) (l : list A) i :
  findIndex p l = Some i → l ≠ [].
Proof. destruct l; [discriminate|done]. Qed.

(** ** The ledger, operation by operation *)

Section LedgerOperations.
Context `{Host}.

(** The six run lemmas as one. *)
Lemma ledger_op_run op amount a m g reason w :
  Number amount = Int a →
  ledger op amount m g reason w =
    (Return (Int a),
     {| storage := putMember (storage w) g m
          (ledgerRecord (memberData (storage w) g m)
             (Val (moneyAfter op (balanceOf (storage w) g m) a))
             (Val (bankAfter op (bankOf (storage w) g m) a)));
        emitted := emitted w ++
          [Balance (eventOf op).1 (eventOf op).2 g m (VNum (Int a))
             (Int (if onBank op then bankAfter op (bankOf (storage w) g m) a
                   else moneyAfter op (balanceOf (storage w) g m) a))
             (defaultArg reason VNull)] |}).
Proof.
  intros HA. destruct op; simpl.
  - by apply set_run.
  - by apply add_run.
  - by apply subtract_run.
  - by apply bankSet_run.
  - by apply bankAdd_run.
  - by apply bankSubtract_run.
Qed.

(** [set] and [bankSet] are idempotent on the storage file: a second call
    with the same amount returns the amount again and stores the document
    the first call stored. *)
Theorem set_twice_is_set_once amount a m g reason reason' w :
  Number amount = Int a →
  let w1 := (Economy.set amount m g reason w).2 in
  let b1 := (Economy.bankSet amount m g reason w).2 in
  completion (Economy.set amount m g reason' w1) = Return (Int a) ∧
  stored (Economy.set amount m g reason' w1) = storage w1 ∧
  completion (Economy.bankSet amount m g reason' b1) = Return (Int a) ∧
  stored (Economy.bankSet amount m g reason' b1) = storage b1.
Proof.
  intros HA w1 b1. subst w1 b1.
  rewrite (set_run _ _ _ _ reason w HA), (bankSet_run _ _ _ _ reason w HA). simpl.
  rewrite (set_run _ _ _ _ _ _ HA), (bankSet_run _ _ _ _ _ _ HA).
  unfold completion, stored. simpl.
  rewrite !putMember_putMember. unfold bankOf, balanceOf.
  rewrite !memberData_putMember. unfold ledgerRecord. simpl.
  rewrite !storeOpt_orNull_idem. done.
Qed.

(** A ledger operation changes the one balance it is about, to the amount,
    the sum or the difference as JavaScript computes it (a subtraction is
    not stopped at zero), and keeps the rest of the member's record: the
    other balance, the three cooldown timestamps as they are read, the
    inventory and the history. *)
Theorem ledger_keeps_the_rest_of_the_record op amount a m g reason w :
  Number amount = Int a →
  let before := memberData (storage w) g m in
  let after := memberData (stored (ledger op amount m g reason w)) g m in
  orZero (Member.money after) = moneyAfter op (orZero (Member.money before)) a ∧
  orZero (Member.bank after) = bankAfter op (orZero (Member.bank before)) a ∧
  orNull (Member.dailyCooldown after) = orNull (Member.dailyCooldown before) ∧
  orNull (Member.workCooldown after) = orNull (Member.workCooldown before) ∧
  orNull (Member.weeklyCooldown after) = orNull (Member.weeklyCooldown before) ∧
  default [] (Member.inventory after) = default [] (Member.inventory before) ∧
  default [] (Member.history after) = default [] (Member.history before).
Proof.
  intros HA before after. subst before after.
  rewrite (ledger_op_run op _ _ _ _ _ _ HA). unfold stored. simpl.
  rewrite memberData_putMember. simpl. rewrite !storeOpt_orNull_idem.
  repeat split.
Qed.

(** A ledger operation on a member leaves every other member of every guild
    as it was, and every catalog too, unless the member is named ["shop"]. *)
Theorem ledger_touches_one_member op amount a m g reason w :
  Number amount = Int a →
  (∀ g' m', (g', m') ≠ (g, m) →
     memberData (stored (ledger op amount m g reason w)) g' m'
       = memberData (storage w) g' m') ∧
  (m ≠ "shop" →
   ∀ g', shopArray (stored (ledger op amount m g reason w)) g' = shopArray (storage w) g').
Proof.
  intros HA. rewrite (ledger_op_run op _ _ _ _ _ _ HA). unfold stored. simpl. split.
  - intros g' m' Hne. by apply memberData_putMember_ne.
  - intros Hm g'. by apply shopArray_putMember.
Qed.

(** A ledger operation emits one event, after the events emitted before: it
    carries the operation's name and type, the amount as a number, the
    reason ([null] when none is given) and, as [balance], the balance the
    operation has just stored in the field it works on. *)
Theorem ledger_emits_the_new_balance op amount a m g reason w :
  Number amount = Int a →
  let run := ledger op amount m g reason w in
  emitted run.2 = emitted w ++
    [Balance (eventOf op).1 (eventOf op).2 g m (VNum (Int a))
       (Int (if onBank op then bankOf (stored run) g m else balanceOf (stored run) g m))
       (defaultArg reason VNull)].
Proof.
  intros HA run. subst run. rewrite (ledger_op_run op _ _ _ _ _ _ HA). unfold stored. simpl.
  rewrite balanceOf_put, bankOf_put. simpl. reflexivity.
Qed.

(** An amount that [Number] turns into [NaN] is rejected by each of the six
    operations with an [EconomyError]; nothing is written and nothing is
    emitted. *)
Theorem ledger_rejects_what_is_not_a_number op amount m g reason w :
  Number amount = NaN →
  ledger op amount m g reason w = (Throw (EconomyError "amount must be a number"), w).
Proof.
  intros HA. destruct op; simpl;
    unfold Economy.set, Economy.add, Economy.subtract, Economy.bankSet,
      Economy.bankAdd, Economy.bankSubtract, isNaN; rewrite HA; reflexivity.
Qed.

End LedgerOperations.

Lemma set_twice_is_set_once_witness :
  let w1 := (Economy.set (H := node) (VNum (Int 7)) "M1" "G1" VNull (holding fiveCoins)).2 in
  balanceOf (storage w1) "G1" "M1" = 7 ∧
  stored (Economy.set (H := node) (VNum (Int 7)) "M1" "G1" (VStr "again") w1) = storage w1.
Proof.
  split; [reflexivity|].
  exact (proj1 (proj2
    (set_twice_is_set_once (H := node) (VNum (Int 7)) 7 "M1" "G1" VNull (VStr "again")
       (holding fiveCoins) eq_refl))).
Defined.

Lemma ledger_keeps_the_rest_of_the_record_witness :
  length (default [] (Member.inventory (memberData (storage holdsSword) "G1" "M1"))) = 1%nat ∧
  default [] (Member.inventory (memberData
    (stored (ledger (H := node) OpBankAdd (VNum (Int 7)) "M1" "G1" VNull holdsSword))
    "G1" "M1"))
  = default [] (Member.inventory (memberData (storage holdsSword) "G1" "M1")).
Proof.
  split; [reflexivity|].
  exact (proj1 (proj2 (proj2 (proj2 (proj2 (proj2
    (ledger_keeps_the_rest_of_the_record (H := node) OpBankAdd (VNum (Int 7)) 7
       "M1" "G1" VNull holdsSword eq_refl))))))).
Defined.

Lemma ledger_touches_one_member_witness :
  shopArray (stored (ledger (H := node) OpSubtract (VNum (Int 7)) "M2" "G1" VNull holdsSword))
    "G1"
  = shopArray (storage holdsSword) "G1" ∧
  memberData (stored (ledger (H := node) OpSubtract (VNum (Int 7)) "M2" "G1" VNull holdsSword))
    "G1" "M1"
  = memberData (storage holdsSword) "G1" "M1".
Proof.
  split.
  - apply (proj2 (ledger_touches_one_member (H := node) OpSubtract (VNum (Int 7)) 7
                    "M2" "G1" VNull holdsSword eq_refl)).
    discriminate.
  - apply (proj1 (ledger_touches_one_member (H := node) OpSubtract (VNum (Int 7)) 7
                    "M2" "G1" VNull holdsSword eq_refl)).
    discriminate.
Defined.

Lemma ledger_emits_the_new_balance_witness :
  emitted (ledger (H := node) OpSubtract (VStr "3") "M1" "G1" VUndefined (holding fiveCoins)).2
  = [] ++
    [Balance "balanceSubtract" "subtract" "G1" "M1" (VNum (Int 3))
       (Int (balanceOf (stored (ledger (H := node) OpSubtract (VStr "3") "M1" "G1"
                                  VUndefined (holding fiveCoins))) "G1" "M1"))
       VNull].
Proof.
  exact (ledger_emits_the_new_balance (H := node) OpSubtract (VStr "3") 3 "M1" "G1"
           VUndefined (holding fiveCoins) eq_refl).
Defined.

Lemma ledger_rejects_what_is_not_a_number_witness :
  Number (H := node) (VStr "ten") = NaN ∧
  ledger (H := node) OpBankSet (VStr "ten") "M1" "G1" VNull (holding fiveCoins)
    = (Throw (EconomyError "amount must be a number"), holding fiveCoins).
Proof.
  split; [reflexivity|].
  exact (ledger_rejects_what_is_not_a_number (H := node) OpBankSet (VStr "ten")
           "M1" "G1" VNull (holding fiveCoins) eq_refl).
Defined.

(** ** Claims that are open *)

Lemma cooldownField_stamped kind now data :
  Economy.cooldownField kind (stamped kind now data) = Val now.
Proof. destruct kind; reflexivity. Qed.

Lemma cooldownField_ledgerRecord kind data money bank :
  Economy.cooldownField kind (ledgerRecord data money bank)
    = storeOpt (orNull (Economy.cooldownField kind data)).
Proof. destruct kind; reflexivity. Qed.

Lemma cooldownField_stamped_ne kind kind' now data :
  kind' ≠ kind →
  Economy.cooldownField kind' (stamped kind now data)
    = storeOpt (orNull (Economy.cooldownField kind' data)).
Proof. destruct kind, kind'; intros Hne; try reflexivity; congruence. Qed.

Lemma timeLeft_elapsed cooldown now later t :
  cooldown - (now - t) ≤ 0 → Economy.timeLeft cooldown now later (Some t) = None.
Proof. intros Hr. unfold Economy.timeLeft. rewrite bool_decide_false by lia. done. Qed.

Section OpenClaims.
Context `{Host}.

(** The events of a claim that is granted: the one [add] emits, with the
    reason of the claim. *)
Lemma claim_emits options kind now later random m g reason w r :
  Economy.timeLeft (Economy.cooldownOption kind options) now later
    (orNull (Economy.cooldownField kind (memberData (storage w) g m))) = None →
  rewardOf kind options random = Int r →
  emitted (Economy.claim options kind now later random m g reason w).2
    = emitted w ++
      [Balance "balanceAdd" "add" g m (VNum (Int r))
         (Int (doubleZ (balanceOf (storage w) g m + r)))
         (defaultArg reason (claimReason kind))].
Proof.
  intros Hopen Hr.
  destruct kind; simpl in Hopen, Hr;
    unfold Economy.claim, Economy.daily, Economy.work, Economy.weekly;
    eco_unfold; simpl; rewrite Hopen; simpl; rewrite assign_ensure; simpl;
    rewrite ?Hr;
    match goal with
    | |- context [Economy.add ?a m g ?rs ?w0] =>
        rewrite (add_run a r m g rs w0) by (simpl; congruence)
    end; simpl;
    rewrite defaultArg_idem by done;
    unfold balanceOf; rewrite memberData_putMember; reflexivity.
Qed.

(** A claim that is open (no timestamp of its kind is stored, or the
    cooldown has elapsed since, on the clock reading [now] the call tests)
    is granted: the call returns the reward, the balance grows by the
    reward (the sum is JavaScript's), the timestamp of the kind is set to
    the clock reading [later] the call takes when it stores it, and one
    [balanceAdd] event carries the reward, the new balance and the reason
    of the claim. *)
Theorem open_claim_is_granted options kind now later random m g reason w r :
  Economy.timeLeft (Economy.cooldownOption kind options) now later
    (orNull (Economy.cooldownField kind (memberData (storage w) g m))) = None →
  rewardOf kind options random = Int r →
  let run := Economy.claim options kind now later random m g reason w in
  completion run = Return (Economy.Claimed (Int r)) ∧
  balanceOf (stored run) g m = doubleZ (balanceOf (storage w) g m + r) ∧
  bankOf (stored run) g m = bankOf (storage w) g m ∧
  Economy.cooldownField kind (memberData (stored run) g m) = storeOpt (orNull (Val later)) ∧
  emitted run.2 = emitted w ++
    [Balance "balanceAdd" "add" g m (VNum (Int r))
       (Int (doubleZ (balanceOf (storage w) g m + r)))
       (defaultArg reason (claimReason kind))].
Proof.
  intros Hopen Hr run. subst run.
  destruct (claim_unlocked options kind now later random m g reason w r Hopen Hr)
    as [Hc Hs].
  split; [exact Hc|]. rewrite Hs. rewrite balanceOf_put, bankOf_put, memberData_putMember.
  split; [reflexivity|]. split; [reflexivity|]. split.
  - rewrite cooldownField_ledgerRecord, cooldownField_stamped. reflexivity.
  - by apply claim_emits.
Qed.

(** After a claim granted and stamped with a clock reading [later] other
    than 0, a claim of the same kind is refused while
    [cooldown - (now' - later) > 0] on the clock reading [now'] it tests,
    with the world left as the first claim left it and the time left
    computed from its second clock reading [later']; it is granted again
    once the cooldown has elapsed: the balance has then grown by both
    rewards. *)
Theorem claim_locks_until_the_cooldown_has_elapsed
    options kind now later random m g reason w r :
  Economy.timeLeft (Economy.cooldownOption kind options) now later
    (orNull (Economy.cooldownField kind (memberData (storage w) g m))) = None →
  rewardOf kind options random = Int r →
  later ≠ 0 →
  let w1 := (Economy.claim options kind now later random m g reason w).2 in
  ∀ now' later' random' reason',
    let remaining := Economy.cooldownOption kind options - (now' - later) in
    (remaining > 0 →
     Economy.claim options kind now' later' random' m g reason' w1
       = (Return (Economy.TimeLeft
                    (ms (Economy.cooldownOption kind options - (later' - later)))), w1)) ∧
    (remaining ≤ 0 →
     ∀ r', rewardOf kind options random' = Int r' →
       completion (Economy.claim options kind now' later' random' m g reason' w1)
         = Return (Economy.Claimed (Int r')) ∧
       balanceOf (stored (Economy.claim options kind now' later' random' m g reason' w1)) g m
         = doubleZ (doubleZ (balanceOf (storage w) g m + r) + r')).
Proof.
  intros Hopen Hr Hnow w1 now' later' random' reason' remaining.
  destruct (claim_unlocked options kind now later random m g reason w r Hopen Hr)
    as [_ Hs].
  assert (Economy.cooldownField kind (memberData (storage w1) g m) = Val later) as Hf.
  { subst w1. unfold stored in Hs. rewrite Hs, memberData_putMember.
    rewrite cooldownField_ledgerRecord, cooldownField_stamped.
    by rewrite (orNull_Val _ Hnow). }
  assert (balanceOf (storage w1) g m = doubleZ (balanceOf (storage w) g m + r)) as Hb.
  { subst w1. unfold stored in Hs. rewrite Hs. apply balanceOf_put. }
  split.
  - intros Hrem. by apply claim_locked.
  - intros Hrem r' Hr'.
    assert (Economy.timeLeft (Economy.cooldownOption kind options) now' later'
              (orNull (Economy.cooldownField kind (memberData (storage w1) g m))) = None)
      as Hopen'.
    { rewrite Hf, (orNull_Val _ Hnow). apply timeLeft_elapsed. subst remaining. lia. }
    destruct (claim_unlocked options kind now' later' random' m g reason' w1 r' Hopen' Hr')
      as [Hc' Hs'].
    split; [exact Hc'|]. rewrite Hs', balanceOf_put. simpl. rewrite Hb. reflexivity.
Qed.

(** A claim that is granted stamps the timestamp of its own kind only: the
    timestamps of the two other kinds read as before, and so do the
    inventory and the history; every other member is left as it was. *)
Theorem claim_stamps_its_own_kind_only options kind now later random m g reason w r :
  Economy.timeLeft (Economy.cooldownOption kind options) now later
    (orNull (Economy.cooldownField kind (memberData (storage w) g m))) = None →
  rewardOf kind options random = Int r →
  let before := memberData (storage w) g m in
  let after :=
    memberData (stored (Economy.claim options kind now later random m g reason w)) g m in
  (∀ kind', kind' ≠ kind →
     orNull (Economy.cooldownField kind' after) = orNull (Economy.cooldownField kind' before)) ∧
  default [] (Member.inventory after) = default [] (Member.inventory before) ∧
  default [] (Member.history after) = default [] (Member.history before) ∧
  (∀ g' m', (g', m') ≠ (g, m) →
     memberData (stored (Economy.claim options kind now later random m g reason w)) g' m'
       = memberData (storage w) g' m').
Proof.
  intros Hopen Hr before after. subst before after.
  destruct (claim_unlocked options kind now later random m g reason w r Hopen Hr)
    as [_ Hs].
  rewrite Hs. rewrite memberData_putMember.
  split; [|split; [|split]].
  - intros kind' Hne. rewrite cooldownField_ledgerRecord.
    rewrite (cooldownField_stamped_ne _ _ _ _ Hne). by rewrite !storeOpt_orNull_idem.
  - destruct kind; reflexivity.
  - destruct kind; reflexivity.
  - intros g' m' Hne. by rewrite !memberData_putMember_ne.
Qed.

(** When the reward [work] computes is [NaN] (a [workAmount] array with
    fewer than two elements) and the claim is open, [work] throws the
    [EconomyError] of [add], but only after it has stored the new work
    timestamp: the member is locked out without having been paid, and no
    event is emitted. *)
Theorem work_stamps_before_it_throws options now later random m g reason w :
  Economy.timeLeft (Options.workCooldown options) now later
    (orNull (Member.workCooldown (memberData (storage w) g m))) = None →
  Economy.workReward random (Options.workAmount options) = NaN →
  let run := Economy.work options now later random m g reason w in
  completion run = Throw (EconomyError "amount must be a number") ∧
  Member.workCooldown (memberData (stored run) g m) = Val later ∧
  balanceOf (stored run) g m = balanceOf (storage w) g m ∧
  emitted run.2 = emitted w.
Proof.
  intros Hopen Hnan run. subst run.
  unfold Economy.work. eco_unfold. simpl. rewrite Hopen. simpl.
  rewrite assign_ensure. simpl. rewrite Hnan.
  unfold Economy.add, isNaN. simpl.
  unfold completion, stored. simpl. rewrite memberData_putMember. simpl.
  unfold balanceOf. rewrite memberData_putMember. simpl. done.
Qed.

End OpenClaims.

Lemma open_claim_is_granted_witness :
  let run := Economy.claim (H := node) defaults Weekly 1700000000000 1700000000001 (1 # 2)
               "M1" "G1" VUndefined (holding fiveCoins) in
  completion run = Return (Economy.Claimed (Int 1000)) ∧
  balanceOf (stored run) "G1" "M1" = doubleZ (balanceOf fiveCoins "G1" "M1" + 1000).
Proof.
  pose proof (open_claim_is_granted (H := node) defaults Weekly 1700000000000 1700000000001
                (1 # 2) "M1" "G1" VUndefined (holding fiveCoins) 1000 eq_refl eq_refl) as Hw.
  exact (conj (proj1 Hw) (proj1 (proj2 Hw))).
Defined.

Lemma claim_locks_until_the_cooldown_has_elapsed_witness :
  let w1 := (Economy.claim (H := node) defaults Daily 1700000000000 1700000000001 (1 # 2)
               "M1" "G1" VUndefined (holding fiveCoins)).2 in
  Economy.claim (H := node) defaults Daily 1700000060000 1700000060001 (1 # 2) "M1" "G1"
    VUndefined w1
    = (Return (Economy.TimeLeft (@ms node (86400000 - (1700000060001 - 1700000000001)))),
       w1) ∧
  balanceOf (stored (Economy.claim (H := node) defaults Daily 1700086400001 1700086400002
                       (1 # 2) "M1" "G1" VUndefined w1)) "G1" "M1"
    = doubleZ (doubleZ (balanceOf fiveCoins "G1" "M1" + 100) + 100).
Proof.
  pose proof (claim_locks_until_the_cooldown_has_elapsed (H := node) defaults Daily
                1700000000000 1700000000001 (1 # 2) "M1" "G1" VUndefined
                (holding fiveCoins) 100 eq_refl eq_refl ltac:(discriminate)) as Hw.
  split.
  - apply (proj1 (Hw 1700000060000 1700000060001 (1 # 2)%Q VUndefined)). reflexivity.
  - apply (proj2 (Hw 1700086400001 1700086400002 (1 # 2)%Q VUndefined));
      [discriminate | reflexivity].
Defined.

Lemma claim_stamps_its_own_kind_only_witness :
  orNull (Member.dailyCooldown (memberData (claimedAt 1700000000000) "G1" "M1"))
    = Some 1700000000000 ∧
  orNull (Economy.cooldownField Daily (memberData
    (stored (Economy.claim (H := node) defaults Work 1700000060000 1700000060001 (1 # 2)
               "M1" "G1" VUndefined (holding (claimedAt 1700000000000)))) "G1" "M1"))
  = orNull (Economy.cooldownField Daily (memberData (claimedAt 1700000000000) "G1" "M1")).
Proof.
  split; [reflexivity|].
  apply (proj1 (claim_stamps_its_own_kind_only (H := node) defaults Work 1700000060000
                  1700000060001 (1 # 2) "M1" "G1" VUndefined
                  (holding (claimedAt 1700000000000)) 30
                  eq_refl ltac:(vm_compute; reflexivity))).
  discriminate.
Defined.

Lemma work_stamps_before_it_throws_witness :
  Economy.init cleanStart (workAmountOnly (Range [])) = Resolved emptyRange ∧
  (let run := Economy.work (H := node) emptyRange 1700000000000 1700000000001 (1 # 2)
                "M1" "G1" VUndefined (holding fiveCoins) in
   completion run = Throw (EconomyError "amount must be a number") ∧
   Member.workCooldown (memberData (stored run) "G1" "M1") = Val 1700000000001 ∧
   balanceOf (stored run) "G1" "M1" = balanceOf fiveCoins "G1" "M1" ∧
   emitted run.2 = []).
Proof.
  split; [reflexivity|].
  exact (work_stamps_before_it_throws (H := node) emptyRange 1700000000000 1700000000001
           (1 # 2) "M1" "G1" VUndefined (holding fiveCoins) eq_refl eq_refl).
Defined.

(** ** The options [init] settles on *)

(** [init] gets as far as its checks of [workAmount] exactly when it starts
    up: [startsUp] holds. *)
Lemma init_startsUp env config :
  startsUp env config ↔
  bool_decide (nodeMinor env < 14) = false ∧ errored env = false ∧ ready env = false ∧
  storageFile env = FileParsed ∧
  (if default true (Config.checkUpdates config) then updateCheck env else None) = None.
Proof.
  unfold startsUp. rewrite bool_decide_eq_false.
  destruct (Config.checkUpdates config) as [[]|]; simpl; split;
    intros (H1 & H2 & H3 & H4 & H5); repeat split; try done; try lia;
    try (destruct H5; congruence); auto.
Qed.

(** An [init] that resolves has started up. *)
Lemma init_Resolved_startsUp env config options :
  Economy.init env config = Resolved options → startsUp env config.
Proof.
  intros Hi. apply init_startsUp. revert Hi. unfold Economy.init.
  case_bool_decide; [discriminate|].
  destruct (errored env); [discriminate|]. destruct (ready env); [discriminate|].
  destruct (storageFile env); try discriminate.
  destruct (if default true (Config.checkUpdates config) then updateCheck env else None);
    [by destruct (Config.dailyCooldown config)|].
  done.
Qed.

(** Whenever [init] resolves, the [workAmount] it has settled on is a
    number, an empty array, or a pair [[lo, hi]] with [lo ≤ hi]: a
    one-element array has been unwrapped and a pair given in the wrong order
    has been reversed. *)
Theorem init_settles_workAmount env config options :
  Economy.init env config = Resolved options →
  (∃ n, Options.workAmount options = Fixed n) ∨
  Options.workAmount options = Range [] ∨
  (∃ lo hi, Options.workAmount options = Range [lo; hi] ∧ lo ≤ hi).
Proof.
  unfold Economy.init.
  case_bool_decide; [discriminate|].
  destruct (errored env); [discriminate|]. destruct (ready env); [discriminate|].
  destruct (storageFile env); try discriminate.
  destruct (if default true (Config.checkUpdates config) then updateCheck env else None);
    [by destruct (Config.dailyCooldown config)|].
  destruct (Config.dailyCooldown config) as [c|]; simpl.
  - intros [= <-]. left. eexists. reflexivity.
  - destruct (default (Range [10; 50]) (Config.workAmount config)) as [n|bounds].
    + intros [= <-]. left. eexists. reflexivity.
    + case_bool_decide as Hlen; [discriminate|].
      destruct bounds as [|a [|b [|c bounds]]]; simpl in *.
      * intros [= <-]. right. left. reflexivity.
      * intros [= <-]. left. eexists. reflexivity.
      * intros [= <-]. right. right. simpl.
        case_bool_decide as Hgt.
        -- exists b, a. split; [reflexivity | lia].
        -- exists a, b. split; [reflexivity | lia].
      * lia.
Qed.

(** When [dailyCooldown] is configured, [init] resolves exactly when it
    starts up (a minor version of Node of 14 or more, an instance that has
    neither errored nor is ready, a storage file that parses, and an update
    check that is switched off or does not fail); when it resolves, it has
    stored the cooldown in [workAmount] as well, whatever [workAmount] was
    configured: every [work] reward is then the daily cooldown in
    milliseconds. *)
Theorem init_assigns_dailyCooldown_to_workAmount env config c :
  Config.dailyCooldown config = Some c →
  (startsUp env config ↔ ∃ options, Economy.init env config = Resolved options) ∧
  (∀ options, Economy.init env config = Resolved options →
     Options.dailyCooldown options = c ∧
     Options.workAmount options = Fixed c ∧
     (∀ random, Economy.workReward random (Options.workAmount options) = Int c)).
Proof.
  intros Hc. split; [split|].
  - intros Hs. apply init_startsUp in Hs as (H1 & H2 & H3 & H4 & H5).
    unfold Economy.init. rewrite H1, H2, H3, H4, Hc, H5. eexists. reflexivity.
  - intros [options Hi]. by apply init_Resolved_startsUp in Hi.
  - intros options Hi.
    pose proof (init_Resolved_startsUp _ _ _ Hi) as Hs.
    apply init_startsUp in Hs as (H1 & H2 & H3 & H4 & H5).
    revert Hi. unfold Economy.init. rewrite H1, H2, H3, H4, Hc, H5.
    intros [= <-]. repeat split.
Qed.


Lemma init_settles_workAmount_witness :
  Economy.init cleanStart (workAmountOnly (Range [50; 10])) = Resolved defaults ∧
  ((∃ n, Options.workAmount defaults = Fixed n) ∨
   Options.workAmount defaults = Range [] ∨
   (∃ lo hi, Options.workAmount defaults = Range [lo; hi] ∧ lo ≤ hi)).
Proof.
  split; [reflexivity|].
  exact (init_settles_workAmount cleanStart (workAmountOnly (Range [50; 10])) defaults
           eq_refl).
Defined.

Lemma init_assigns_dailyCooldown_to_workAmount_witness :
  (∃ options, Economy.init cleanStart (dailyCooldownOnly 43200000) = Resolved options) ∧
  (∀ options, Economy.init cleanStart (dailyCooldownOnly 43200000) = Resolved options →
     Options.workAmount options = Fixed 43200000) ∧
  ¬ (∃ options, Economy.init minorThirteen (dailyCooldownOnly 43200000) = Resolved options).
Proof.
  pose proof (init_assigns_dailyCooldown_to_workAmount cleanStart
                (dailyCooldownOnly 43200000) 43200000 eq_refl) as [Hiff Hopt].
  pose proof (init_assigns_dailyCooldown_to_workAmount minorThirteen
                (dailyCooldownOnly 43200000) 43200000 eq_refl) as [Hiff' _].
  split; [|split].
  - apply Hiff. unfold startsUp. simpl. repeat split; auto. lia.
  - intros options Hi. apply (Hopt options Hi).
  - intros Hex. apply Hiff' in Hex. unfold startsUp in Hex. simpl in Hex. lia.
Defined.


(** ** The catalog: removing, editing, clearing, listing *)

Lemma getField_setField arg v item :
  arg ∈ Economy.shop.args → Economy.shop.getField arg (Economy.shop.setField arg v item) = v.
Proof.
  unfold Economy.shop.args. intros Harg.
  repeat (apply elem_of_cons in Harg as [->|Harg]; [reflexivity|]).
  by apply elem_of_nil in Harg.
Qed.

Section CatalogOperations.
Context `{Host}.

Lemma removeItem_run itemID g w shop item :
  notNumberNorString itemID = false →
  shopArray (storage w) g = Some shop →
  find (Economy.shop.matchesShop itemID) shop = Some item →
  Economy.shop.removeItem itemID g w =
    (Return true,
     {| storage := putShop (storage w) g
                     (filter (λ x, ShopItem.id x ≠ ShopItem.id item) shop);
        emitted := emitted w ++
          [ShopRemoveItem
             {| ShopItem.id := ShopItem.id item;
                ShopItem.itemName := ShopItem.itemName item;
                ShopItem.price := ShopItem.price item;
                ShopItem.message := ShopItem.message item;
                ShopItem.description := ShopItem.description item;
                ShopItem.maxAmount := ShopItem.maxAmount item;
                ShopItem.role := orElse (ShopItem.role item) VNull;
                ShopItem.date := ShopItem.date item |}] |}).
Proof.
  intros Hid Hshop Hfind.
  unfold Economy.shop.removeItem. rewrite Hid.
  eco_unfold. simpl. rewrite Hshop. simpl.
  rewrite Hfind. rewrite (assignShop_known _ _ _ _ Hshop (find_Some_ne _ _ _ Hfind)).
  reflexivity.
Qed.

(** When no item of the guild's catalog matches [itemID], [searchItem] and
    [removeItem] return [false], [buy] returns [false] for every member, and
    each of them leaves the world as it was. *)
Theorem unknown_item_is_left_alone itemID g w shop :
  notNumberNorString itemID = false →
  shopArray (storage w) g = Some shop →
  (∀ x, x ∈ shop → Economy.shop.matchesShop itemID x = false) →
  Economy.shop.searchItem itemID g w = (Return None, w) ∧
  Economy.shop.removeItem itemID g w = (Return false, w) ∧
  (∀ date m reason,
     Economy.shop.buy date itemID m g reason w = (Return Economy.shop.NotFound, w)).
Proof.
  intros Hid Hshop Hno.
  unfold Economy.shop.searchItem, Economy.shop.removeItem, Economy.shop.buy.
  rewrite Hid. eco_unfold. simpl. rewrite Hshop. simpl.
  rewrite (find_none_all _ _ Hno). done.
Qed.

(** [removeItem] removes the first item that matches [itemID] together with
    every item that carries the same [id]: the catalog that is left is the
    old one without the items of that [id], in the old order and with the
    old ids, and it is shorter. The members are left as they were. *)
Theorem removeItem_removes_every_item_of_that_id itemID g w shop item :
  notNumberNorString itemID = false →
  shopArray (storage w) g = Some shop →
  find (Economy.shop.matchesShop itemID) shop = Some item →
  let run := Economy.shop.removeItem itemID g w in
  let rest := filter (λ x, ShopItem.id x ≠ ShopItem.id item) shop in
  completion run = Return true ∧
  shopArray (stored run) g = Some rest ∧
  (length rest < length shop)%nat ∧
  (∀ x, x ∈ rest ↔ x ∈ shop ∧ ShopItem.id x ≠ ShopItem.id item) ∧
  (∀ g' m, m ≠ "shop" → memberData (stored run) g' m = memberData (storage w) g' m).
Proof.
  intros Hid Hshop Hfind run rest. subst run rest.
  rewrite (removeItem_run _ _ _ _ _ Hid Hshop Hfind).
  unfold completion, stored. cbn [fst snd storage].
  rewrite shopArray_putShop.
  split; [reflexivity|]. split; [reflexivity|]. split; [|split].
  - apply find_some in Hfind as [Hin _]. apply list_elem_of_In in Hin.
    apply (length_filter_lt _ _ item); [exact Hin | naive_solver].
  - intros x. rewrite list_elem_of_filter. tauto.
  - intros g' m Hm. by apply memberData_putShop.
Qed.

Lemma editItem_run itemID g arg value w shop i item :
  notNumberNorString itemID = false →
  arg ∈ Economy.shop.args →
  looseEq value VUndefined = false →
  shopArray (storage w) g = Some shop →
  findIndex (Economy.shop.matchesShop itemID) shop = Some i →
  shop !! i = Some item →
  Economy.shop.editItem itemID g arg value w =
    (Return true,
     {| storage := putShop (storage w) g
                     (<[i := Economy.shop.setField arg (stringify value) item]> shop);
        emitted := emitted w ++
          [ShopEditItem itemID g arg (Economy.shop.getField arg item) value] |}).
Proof.
  intros Hid Harg Hv Hshop Hi Hitem.
  unfold Economy.shop.editItem, Economy.shop.edit.
  rewrite Hid, Hv. rewrite bool_decide_true by done. simpl.
  eco_unfold. simpl. rewrite Hshop. simpl. rewrite Hi, Hitem.
  assert (assignShop (storage w) g
            (<[i := Economy.shop.setField arg (stringify value) item]> shop)
          = Some (putShop (storage w) g
                    (<[i := Economy.shop.setField arg (stringify value) item]> shop)))
    as -> by (apply (assignShop_known _ _ _ _ Hshop), (findIndex_Some_ne _ _ _ Hi)).
  reflexivity.
Qed.

(** [editItem] on the first item that matches [itemID]: the field named is
    set to the value as JSON stores it, the item keeps its [id] and its
    place, and the event carries the old and the new value. A
    [searchItem] by the same [itemID] then returns the edited item, provided
    the item was matched by its [id] or the field edited is not the name. *)
Theorem editItem_then_searchItem itemID g arg value w shop i item :
  notNumberNorString itemID = false →
  arg ∈ Economy.shop.args →
  looseEq value VUndefined = false →
  shopArray (storage w) g = Some shop →
  findIndex (Economy.shop.matchesShop itemID) shop = Some i →
  shop !! i = Some item →
  let run := Economy.shop.editItem itemID g arg value w in
  let edited := Economy.shop.setField arg (stringify value) item in
  completion run = Return true ∧
  Economy.shop.getField arg edited = stringify value ∧
  ShopItem.id edited = ShopItem.id item ∧
  shopArray (stored run) g = Some (<[i := edited]> shop) ∧
  emitted run.2 = emitted w ++
    [ShopEditItem itemID g arg (Economy.shop.getField arg item) value] ∧
  (looseEq (VNum (Int (ShopItem.id item))) itemID = true ∨ arg ≠ "itemName" →
   Economy.shop.searchItem itemID g run.2 = (Return (Some edited), run.2)).
Proof.
  intros Hid Harg Hv Hshop Hi Hitem run edited. subst run edited.
  rewrite (editItem_run _ _ _ _ _ _ _ _ Hid Harg Hv Hshop Hi Hitem).
  unfold completion, stored. cbn [fst snd storage emitted].
  split; [reflexivity|]. split; [by apply getField_setField|].
  split; [reflexivity|]. split; [apply shopArray_putShop|]. split; [reflexivity|].
  intros Hkeep.
  erewrite searchItem_run; [| exact Hid | cbn [storage]; apply shopArray_putShop].
  destruct (findIndex_Some _ _ _ Hi) as (x & Hx & Hp & _ & Hfind).
  assert (x = item) as -> by congruence.
  rewrite Hfind; [reflexivity|].
  unfold Economy.shop.matchesShop, Economy.shop.matches in *.
  cbn [Economy.shop.setField ShopItem.id ShopItem.itemName].
  destruct Hkeep as [Hbyid|Hne].
  - rewrite Hbyid. reflexivity.
  - rewrite (bool_decide_false (arg = "itemName")) by done. exact Hp.
Qed.

Lemma clear_run g w shop :
  shopArray (storage w) g = Some shop → shop ≠ [] →
  Economy.shop.clear g w =
    (Return true,
     {| storage := putShop (storage w) g []; emitted := emitted w ++ [ShopClear true] |}).
Proof.
  intros Hshop Hne. destruct shop as [|x shop]; [done|].
  destruct (shopArray_cons _ _ _ _ Hshop) as (guild & Hg & Hs).
  unfold Economy.shop.clear. eco_unfold. simpl. rewrite Hg. simpl. rewrite Hs.
  unfold assignShop, putShop. rewrite Hg. reflexivity.
Qed.

(** [clear] on a catalog that holds an item returns [true] and emits
    [shopClear] with [true]; [list] then returns an empty array. The members
    of the guild and the catalogs of the other guilds are left as they
    were. *)
Theorem clear_empties_the_catalog g w shop :
  shopArray (storage w) g = Some shop → shop ≠ [] →
  let run := Economy.shop.clear g w in
  completion run = Return true ∧
  Economy.shop.list g run.2 = (Return (SShop []), run.2) ∧
  emitted run.2 = emitted w ++ [ShopClear true] ∧
  (∀ g' m, m ≠ "shop" → memberData (stored run) g' m = memberData (storage w) g' m) ∧
  (∀ g', g' ≠ g → shopArray (stored run) g' = shopArray (storage w) g').
Proof.
  intros Hshop Hne run. subst run. rewrite (clear_run _ _ _ Hshop Hne).
  unfold completion, stored. cbn [fst snd storage emitted].
  split; [reflexivity|]. split; [|split; [reflexivity|split]].
  - unfold Economy.shop.list. eco_unfold. simpl. rewrite slot_putShop. reflexivity.
  - intros g' m Hm. by apply memberData_putShop.
  - intros g' Hg'. by apply shopArray_putShop_ne.
Qed.

(** [clear] on a catalog that is missing or empty, or on a [shop] key that
    holds no array, returns [false] and writes nothing, but still emits
    [shopClear], with [false]. *)
Theorem clear_of_an_empty_catalog g w :
  shopArray (storage w) g = Some [] ∨ shopArray (storage w) g = None →
  Economy.shop.clear g w =
    (Return false, {| storage := storage w; emitted := emitted w ++ [ShopClear false] |}).
Proof.
  unfold shopArray, Economy.shop.clear. eco_unfold. simpl.
  destruct (storage w !! g) as [guild|]; simpl; [|reflexivity].
  destruct (guild !! "shop") as [[r|[|x shop]]|]; intros Hs; try reflexivity.
  destruct Hs; discriminate.
Qed.

Lemma addItem_storage date g options w item w' :
  Economy.shop.addItem date g options w = (Return item, w') →
  ∃ shop', storage w' = putShop (storage w) g shop'.
Proof.
  unfold Economy.shop.addItem.
  repeat (match goal with |- context [if ?b then _ else _] => destruct b end;
          [discriminate|]).
  eco_unfold. simpl.
  destruct (shopArray (storage w) g); simpl; [|discriminate].
  rewrite assignShop_ensure. simpl. intros [= _ <-]. eexists. reflexivity.
Qed.

(** When [addItem] returns an item, [list] returns the old catalog followed
    by that item, whose [id] is the old length plus one; one [shopAddItem]
    event carries the item; the members of the guild and the catalogs of the
    other guilds are left as they were. *)
Theorem addItem_appends_to_the_catalog date g options w shop item w' :
  shopArray (storage w) g = Some shop →
  Economy.shop.addItem date g options w = (Return item, w') →
  Economy.shop.list g w' = (Return (SShop (shop ++ [item])), w') ∧
  ShopItem.id item = Z.of_nat (length shop) + 1 ∧
  emitted w' = emitted w ++ [ShopAddItem item] ∧
  (∀ g' m, m ≠ "shop" → memberData (storage w') g' m = memberData (storage w) g' m) ∧
  (∀ g', g' ≠ g → shopArray (storage w') g' = shopArray (storage w) g').
Proof.
  intros Hshop Hadd.
  destruct (addItem_returns _ _ _ _ _ _ _ Hshop Hadd) as (Hid & _ & _ & Hshop' & Hev).
  destruct (addItem_storage _ _ _ _ _ _ Hadd) as [shop' Hst].
  rewrite Hst in Hshop'. rewrite shopArray_putShop in Hshop'. injection Hshop' as ->.
  split; [|split; [exact Hid|split; [exact Hev|split]]].
  - unfold Economy.shop.list. eco_unfold. simpl. rewrite Hst, slot_putShop. reflexivity.
  - intros g' m Hm. rewrite Hst. by apply memberData_putShop.
  - intros g' Hg'. rewrite Hst. by apply shopArray_putShop_ne.
Qed.

(** A ledger operation on the member name ["shop"] stores a member record
    under the key that holds the catalog: the catalog is gone, [list]
    returns the record, and [searchItem], [removeItem] and [buy] throw a
    [TypeError] from then on. *)
Theorem ledger_on_the_name_shop_replaces_the_catalog op amount a g reason w :
  Number amount = Int a →
  let w' := (ledger op amount "shop" g reason w).2 in
  shopArray (storage w') g = None ∧
  (∃ record, Economy.shop.list g w' = (Return (SMember record), w')) ∧
  (∀ itemID, notNumberNorString itemID = false →
     Economy.shop.searchItem itemID g w'
       = (Throw (TypeError "shop.find is not a function"), w') ∧
     Economy.shop.removeItem itemID g w'
       = (Throw (TypeError "shop.find is not a function"), w') ∧
     (∀ date m reason', Economy.shop.buy date itemID m g reason' w'
       = (Throw (TypeError "shop.find is not a function"), w'))).
Proof.
  intros HA w'. subst w'. rewrite (ledger_op_run _ _ _ _ _ _ _ HA). cbn [snd].
  set (w' := {| storage := _; emitted := _ |}).
  assert (shopArray (storage w') g = None) as Hshop.
  { unfold shopArray, w', putMember. cbn [storage].
    rewrite lookup_insert_eq. simpl. rewrite lookup_insert_eq. reflexivity. }
  assert (∃ record, Economy.shop.list g w' = (Return (SMember record), w')) as Hlist.
  { eexists. unfold Economy.shop.list. eco_unfold. simpl. unfold putMember.
    rewrite lookup_insert_eq. simpl. rewrite lookup_insert_eq. reflexivity. }
  clearbody w'.
  split; [exact Hshop|]. split; [exact Hlist|].
  intros itemID Hid.
  unfold Economy.shop.searchItem, Economy.shop.removeItem, Economy.shop.buy.
  rewrite Hid. eco_unfold. simpl. rewrite Hshop. done.
Qed.

End CatalogOperations.

Lemma unknown_item_is_left_alone_witness :
  Economy.shop.searchItem (H := node) (VStr "shield") "G1" holdsSword
    = (Return None, holdsSword) ∧
  Economy.shop.removeItem (H := node) (VStr "shield") "G1" holdsSword
    = (Return false, holdsSword) ∧
  (∀ date m reason,
     Economy.shop.buy (H := node) date (VStr "shield") m "G1" reason holdsSword
       = (Return Economy.shop.NotFound, holdsSword)).
Proof.
  apply (unknown_item_is_left_alone (H := node) (VStr "shield") "G1" holdsSword
           [ {| ShopItem.id := 1;
                ShopItem.itemName := VStr "sword";
                ShopItem.price := VNum (Int 50);
                ShopItem.message := VStr "You have used this item!";
                ShopItem.description := VStr "Very mysterious item.";
                ShopItem.maxAmount := VNum (Int 1);
                ShopItem.role := VNull;
                ShopItem.date := "01.01.2024" |} ]); [reflexivity | reflexivity |].
  intros x Hx. apply list_elem_of_singleton in Hx. subst x. reflexivity.
Defined.

Lemma removeItem_removes_every_item_of_that_id_witness :
  shopArray (storage (withSword VUndefined)) "G1" = Some [listed 1 "sword" 50 "01.01.2024"] ∧
  shopArray (stored (Economy.shop.removeItem (H := node) (VStr "sword") "G1"
                       (withSword VUndefined))) "G1"
    = Some (filter (λ x, ShopItem.id x ≠ 1) [listed 1 "sword" 50 "01.01.2024"]).
Proof.
  split; [reflexivity|].
  exact (proj1 (proj2
    (removeItem_removes_every_item_of_that_id (H := node) (VStr "sword") "G1"
       (withSword VUndefined) [listed 1 "sword" 50 "01.01.2024"]
       (listed 1 "sword" 50 "01.01.2024") eq_refl eq_refl eq_refl))).
Defined.

Lemma editItem_then_searchItem_witness :
  let run := Economy.shop.editItem (H := node) (VStr "sword") "G1" "price" (VNum (Int 70))
               (withSword VUndefined) in
  completion run = Return true ∧
  Economy.shop.searchItem (H := node) (VStr "sword") "G1" run.2
    = (Return (Some (Economy.shop.setField "price" (stringify (VNum (Int 70)))
                       (listed 1 "sword" 50 "01.01.2024"))), run.2).
Proof.
  pose proof (editItem_then_searchItem (H := node) (VStr "sword") "G1" "price"
                (VNum (Int 70)) (withSword VUndefined) [listed 1 "sword" 50 "01.01.2024"]
                0%nat (listed 1 "sword" 50 "01.01.2024")
                eq_refl ltac:(vm_compute; set_solver) eq_refl eq_refl eq_refl eq_refl) as Hw.
  split; [exact (proj1 Hw)|].
  apply (proj2 (proj2 (proj2 (proj2 (proj2 Hw))))). right. discriminate.
Defined.

Lemma clear_empties_the_catalog_witness :
  let run := Economy.shop.clear "G1" holdsSword in
  completion run = Return true ∧
  Economy.shop.list "G1" run.2 = (Return (SShop []), run.2).
Proof.
  pose proof (clear_empties_the_catalog "G1" holdsSword
                [ {| ShopItem.id := 1;
                     ShopItem.itemName := VStr "sword";
                     ShopItem.price := VNum (Int 50);
                     ShopItem.message := VStr "You have used this item!";
                     ShopItem.description := VStr "Very mysterious item.";
                     ShopItem.maxAmount := VNum (Int 1);
                     ShopItem.role := VNull;
                     ShopItem.date := "01.01.2024" |} ]
                eq_refl ltac:(discriminate)) as Hw.
  exact (conj (proj1 Hw) (proj1 (proj2 Hw))).
Defined.

Lemma clear_of_an_empty_catalog_witness :
  Economy.shop.clear "G1" (holding fiveCoins) =
    (Return false, {| storage := fiveCoins; emitted := [ShopClear false] |}).
Proof.
  apply (clear_of_an_empty_catalog "G1" (holding fiveCoins)). left. reflexivity.
Defined.

Lemma addItem_appends_to_the_catalog_witness :
  let run := Economy.shop.addItem (H := node) "02.01.2024" "G1" (named "shield" 30)
               (withSword VUndefined) in
  Economy.shop.list "G1" run.2
    = (Return (SShop ([listed 1 "sword" 50 "01.01.2024"]
                        ++ [listed 2 "shield" 30 "02.01.2024"])), run.2).
Proof.
  exact (proj1
    (addItem_appends_to_the_catalog (H := node) "02.01.2024" "G1" (named "shield" 30)
       (withSword VUndefined) [listed 1 "sword" 50 "01.01.2024"]
       (listed 2 "shield" 30 "02.01.2024") _ eq_refl eq_refl)).
Defined.

Lemma ledger_on_the_name_shop_replaces_the_catalog_witness :
  shopArray (storage (withSword VUndefined)) "G1" = Some [listed 1 "sword" 50 "01.01.2024"] ∧
  shopArray (storage (ledger (H := node) OpAdd (VNum (Int 5)) "shop" "G1" VNull
                        (withSword VUndefined)).2) "G1" = None.
Proof.
  split; [reflexivity|].
  exact (proj1
    (ledger_on_the_name_shop_replaces_the_catalog (H := node) OpAdd (VNum (Int 5)) 5
       "G1" VNull (withSword VUndefined) eq_refl)).
Defined.

(** ** The inventory: clearing, using, buying *)

Section InventoryOperations.
Context `{Host}.

Lemma clearHistory_known_guild m g w guild :
  storage w !! g = Some guild →
  Economy.shop.clearHistory m g w =
    (Return true,
     {| storage := putMember (storage w) g m
          (Economy.shop.rebuilt (memberData (storage w) g m)
             (Val (balanceOf (storage w) g m))
             (default [] (Member.inventory (memberData (storage w) g m))) []);
        emitted := emitted w |}).
Proof.
  intros Hg. unfold Economy.shop.clearHistory. eco_unfold. simpl.
  unfold assignMember, putMember. rewrite Hg. reflexivity.
Qed.

(** In a guild the storage knows, [clearInventory] empties the inventory
    and keeps the history, [clearHistory] empties the history and keeps
    the inventory; both return [true], emit nothing and keep the balances
    and the cooldown timestamps of the member as they are read, and every
    other member as it was. *)
Theorem clearing_one_list_keeps_the_rest m g w guild :
  storage w !! g = Some guild →
  let before := memberData (storage w) g m in
  let ci := Economy.shop.clearInventory m g w in
  let ch := Economy.shop.clearHistory m g w in
  (completion ci = Return true ∧
   Economy.shop.inventory m g ci.2 = (Return [], ci.2) ∧
   Economy.shop.history m g ci.2 = (Return (default [] (Member.history before)), ci.2)) ∧
  (completion ch = Return true ∧
   Economy.shop.history m g ch.2 = (Return [], ch.2) ∧
   Economy.shop.inventory m g ch.2 = (Return (default [] (Member.inventory before)), ch.2)) ∧
  (∀ run, run = ci ∨ run = ch →
     emitted run.2 = emitted w ∧
     balanceOf (stored run) g m = balanceOf (storage w) g m ∧
     bankOf (stored run) g m = bankOf (storage w) g m ∧
     (∀ kind, orNull (Economy.cooldownField kind (memberData (stored run) g m))
                = orNull (Economy.cooldownField kind before)) ∧
     (∀ g' m', (g', m') ≠ (g, m) →
        memberData (stored run) g' m' = memberData (storage w) g' m')).
Proof.
  intros Hg before ci ch. subst before ci ch.
  rewrite (clearInventory_known_guild _ _ _ _ Hg), (clearHistory_known_guild _ _ _ _ Hg).
  unfold completion, stored, Economy.shop.inventory, Economy.shop.history.
  eco_unfold. cbn [fst snd storage emitted].
  rewrite !memberData_putMember.
  cbn [Economy.shop.rebuilt Member.inventory Member.history default].
  split; [done|]. split; [done|].
  intros run [->| ->]; cbn [fst snd storage emitted]; unfold balanceOf, bankOf;
    rewrite !memberData_putMember; cbn;
    (split; [reflexivity|]); (split; [reflexivity|]); (split; [reflexivity|]);
    (split; [intros kind; destruct kind; cbn; apply storeOpt_orNull_idem
            |intros g' m' Hne; by apply memberData_putMember_ne]).
Qed.

Lemma useItem_run itemID m g client w i item :
  notNumberNorString itemID = false →
  let data := memberData (storage w) g m in
  let inv := default [] (Member.inventory data) in
  findIndex (Economy.shop.matchesInv itemID) inv = Some i →
  inv !! i = Some item →
  usable client g item →
  Economy.shop.useItem itemID m g client w =
    (Return (Some (InventoryItem.message item)),
     {| storage := putMember (storage w) g m
          (Economy.shop.rebuilt data (Val (orZero (Member.money data)))
             (filter (λ x, InventoryItem.id x ≠ InventoryItem.id item) inv)
             (default [] (Member.history data)));
        emitted := emitted w ++ [ShopItemUse item] |}).
Proof.
  intros Hid data inv Hi Hitem Huse.
  assert (∃ guild, storage w !! g = Some guild) as [guild Hg].
  { pose proof (findIndex_Some_ne _ _ _ Hi) as Hne. subst inv data.
    destruct (default [] _) as [|x l] eqn:E; [done|]. by eapply inventory_cons. }
  unfold Economy.shop.useItem. rewrite Hid. eco_unfold. simpl.
  fold data. fold inv. rewrite Hi, Hitem.
  destruct Huse as [Hrole|(c & -> & Hstr & Hguild)].
  - rewrite Hrole. rewrite (assignMember_known _ _ _ _ _ Hg). reflexivity.
  - rewrite Hstr, Hguild. simpl.
    destruct (truthy (InventoryItem.role item));
      rewrite (assignMember_known _ _ _ _ _ Hg); reflexivity.
Qed.

(** [useItem] on the first inventory item that matches [itemID], when the
    item grants no role or a client that knows the guild is given: the call
    returns the item's message, the inventory loses the item together with
    every item of the same [id] and so gets shorter, the history and the
    balances are kept, and one [shopItemUse] event carries the item. *)
Theorem useItem_consumes_the_item itemID m g client w i item :
  notNumberNorString itemID = false →
  let before := memberData (storage w) g m in
  let inv := default [] (Member.inventory before) in
  findIndex (Economy.shop.matchesInv itemID) inv = Some i →
  inv !! i = Some item →
  usable client g item →
  let run := Economy.shop.useItem itemID m g client w in
  let after := memberData (stored run) g m in
  completion run = Return (Some (InventoryItem.message item)) ∧
  Member.inventory after
    = Some (filter (λ x, InventoryItem.id x ≠ InventoryItem.id item) inv) ∧
  (length (default [] (Member.inventory after)) < length inv)%nat ∧
  default [] (Member.history after) = default [] (Member.history before) ∧
  orZero (Member.money after) = orZero (Member.money before) ∧
  orZero (Member.bank after) = orZero (Member.bank before) ∧
  emitted run.2 = emitted w ++ [ShopItemUse item].
Proof.
  intros Hid before inv Hi Hitem Huse run after. subst run after.
  rewrite (useItem_run _ _ _ _ _ _ _ Hid Hi Hitem Huse).
  unfold completion, stored. cbn [fst snd storage emitted].
  rewrite memberData_putMember. cbn.
  repeat split.
  apply (length_filter_lt _ _ item); [|naive_solver].
  by eapply list_elem_of_lookup_2.
Qed.

(** [useItem] on an item that grants a role, called without a client,
    throws an [EconomyError]; the item stays in the inventory and nothing is
    written or emitted. *)
Theorem useItem_of_a_role_needs_a_client itemID m g w i item :
  notNumberNorString itemID = false →
  let inv := default [] (Member.inventory (memberData (storage w) g m)) in
  findIndex (Economy.shop.matchesInv itemID) inv = Some i →
  inv !! i = Some item →
  truthy (InventoryItem.role item) = true →
  Economy.shop.useItem itemID m g None w =
    (Throw (EconomyError "You need to specify your bot client to use this."), w).
Proof.
  intros Hid inv Hi Hitem Hrole.
  unfold Economy.shop.useItem. rewrite Hid. eco_unfold. simpl.
  fold inv. rewrite Hi, Hitem, Hrole. reflexivity.
Qed.

Lemma buy_capped date itemID m g reason w shop item :
  notNumberNorString itemID = false →
  shopArray (storage w) g = Some shop →
  find (Economy.shop.matchesShop itemID) shop = Some item →
  truthy (ShopItem.maxAmount item)
    && num_geb (Int (Z.of_nat (heldOf (ShopItem.itemName item)
                  (default [] (Member.inventory (memberData (storage w) g m))))))
         (Number (ShopItem.maxAmount item)) = true →
  Economy.shop.buy date itemID m g reason w = (Return Economy.shop.Max, w).
Proof.
  intros Hid Hshop Hfind Hmax. unfold Economy.shop.buy. rewrite Hid.
  eco_unfold. simpl. rewrite Hshop. simpl. rewrite Hfind.
  unfold heldOf in Hmax. simpl in Hmax. rewrite Hmax. reflexivity.
Qed.

(** A purchase that is not capped, by a member whose money field holds a
    number, of an item whose price is a number: [buy] returns [true]; the
    balance is debited by the price (the difference is JavaScript's),
    whether or not it covers the price (it may go below zero); the bank
    balance is kept; the inventory
    and the history each get one item at the end, numbered from their
    length; the catalog and every other member are left as they were. *)
Theorem buy_appends_and_debits date itemID m g reason w shop item bal p :
  notNumberNorString itemID = false →
  shopArray (storage w) g = Some shop →
  find (Economy.shop.matchesShop itemID) shop = Some item →
  let before := memberData (storage w) g m in
  let inv := default [] (Member.inventory before) in
  let history := default [] (Member.history before) in
  truthy (ShopItem.maxAmount item)
    && num_geb (Int (Z.of_nat (heldOf (ShopItem.itemName item) inv)))
         (Number (ShopItem.maxAmount item)) = false →
  Member.money before = Val bal →
  Number (ShopItem.price item) = Int p →
  m ≠ "shop" →
  let run := Economy.shop.buy date itemID m g reason w in
  let after := memberData (stored run) g m in
  completion run = Return Economy.shop.Bought ∧
  balanceOf (stored run) g m = doubleZ (bal - p) ∧
  bankOf (stored run) g m = bankOf (storage w) g m ∧
  (∃ bought, default [] (Member.inventory after) = inv ++ [bought] ∧
     InventoryItem.id bought = Z.of_nat (length inv) + 1 ∧
     InventoryItem.itemName bought = ShopItem.itemName item ∧
     InventoryItem.price bought = ShopItem.price item ∧
     InventoryItem.message bought = ShopItem.message item) ∧
  (∃ entry, default [] (Member.history after) = history ++ [entry] ∧
     HistoryItem.id entry = Z.of_nat (length history) + 1 ∧
     HistoryItem.itemName entry = ShopItem.itemName item ∧
     HistoryItem.price entry = ShopItem.price item) ∧
  shopArray (stored run) g = Some shop ∧
  (∀ g' m', (g', m') ≠ (g, m) →
     memberData (stored run) g' m' = memberData (storage w) g' m').
Proof.
  intros Hid Hshop Hfind before inv history Hmax Hbal Hp Hm run after.
  subst run after.
  rewrite (buy_bought _ _ _ _ _ _ _ _ Hid Hshop Hfind) by exact Hmax.
  unfold completion, stored. cbn [fst snd storage].
  unfold balanceOf, bankOf. rewrite !memberData_putMember.
  cbn [Economy.shop.rebuilt Member.money Member.bank Member.inventory Member.history
       default from_option id].
  fold before. rewrite Hbal, Hp. cbn [NumberOf num_sub storeNum orZero].
  split; [reflexivity|]. split; [reflexivity|]. split; [reflexivity|].
  split; [eexists; split; [reflexivity|]; done|].
  split; [eexists; split; [reflexivity|]; done|].
  split.
  - rewrite shopArray_putMember by done. exact Hshop.
  - intros g' m' Hne. by apply memberData_putMember_ne.
Qed.

(** The cap is an invariant of [buy]: for an item whose [maxAmount] is
    truthy and converts to the number [k], a member who holds at most [k]
    items of the item's name holds at most [k] of them after [buy],
    whatever [buy] returns. *)
Theorem buy_keeps_within_the_cap date itemID m g reason w shop item k :
  notNumberNorString itemID = false →
  shopArray (storage w) g = Some shop →
  find (Economy.shop.matchesShop itemID) shop = Some item →
  truthy (ShopItem.maxAmount item) = true →
  Number (ShopItem.maxAmount item) = Int k →
  let held obj :=
    heldOf (ShopItem.itemName item) (default [] (Member.inventory (memberData obj g m))) in
  Z.of_nat (held (storage w)) ≤ k →
  Z.of_nat (held (stored (Economy.shop.buy date itemID m g reason w))) ≤ k.
Proof.
  intros Hid Hshop Hfind Htruthy Hk held Hle. subst held. cbn beta in *.
  destruct (truthy (ShopItem.maxAmount item)
            && num_geb (Int (Z.of_nat (heldOf (ShopItem.itemName item)
                  (default [] (Member.inventory (memberData (storage w) g m))))))
                 (Number (ShopItem.maxAmount item))) eqn:Hcap.
  - rewrite (buy_capped _ _ _ _ _ _ _ _ Hid Hshop Hfind Hcap). exact Hle.
  - rewrite (buy_bought _ _ _ _ _ _ _ _ Hid Hshop Hfind) by exact Hcap.
    unfold stored. cbn [snd storage]. rewrite memberData_putMember.
    cbn [Economy.shop.rebuilt Member.inventory default from_option id].
    rewrite Htruthy, Hk in Hcap. simpl in Hcap.
    apply bool_decide_eq_false in Hcap.
    unfold heldOf in *. rewrite filter_app, length_app.
    assert (length (filter
              (λ x, looseEq (InventoryItem.itemName x) (ShopItem.itemName item) = true)
              [ {| InventoryItem.id :=
                     Z.of_nat (length (default []
                       (Member.inventory (memberData (storage w) g m)))) + 1;
                   InventoryItem.itemName := ShopItem.itemName item;
                   InventoryItem.price := ShopItem.price item;
                   InventoryItem.message := ShopItem.message item;
                   InventoryItem.role := orElse (ShopItem.role item) VNull;
                   InventoryItem.maxAmount := ShopItem.maxAmount item;
                   InventoryItem.date := date |} ]) ≤ 1)%nat as Hone.
    { etrans; [apply length_filter|]. reflexivity. }
    lia.
Qed.

End InventoryOperations.

Lemma clearing_one_list_keeps_the_rest_witness :
  length (default [] (Member.history (memberData (storage holdsSword) "G1" "M1"))) = 1%nat ∧
  Economy.shop.inventory "M1" "G1" (Economy.shop.clearInventory "M1" "G1" holdsSword).2
    = (Return [], (Economy.shop.clearInventory "M1" "G1" holdsSword).2) ∧
  Economy.shop.history "M1" "G1" (Economy.shop.clearInventory "M1" "G1" holdsSword).2
    = (Return (default [] (Member.history (memberData (storage holdsSword) "G1" "M1"))),
       (Economy.shop.clearInventory "M1" "G1" holdsSword).2).
Proof.
  split; [reflexivity|].
  refine (proj2 (proj1 (clearing_one_list_keeps_the_rest "M1" "G1" holdsSword _ _))).
  reflexivity.
Defined.

Lemma useItem_consumes_the_item_witness :
  let run := Economy.shop.useItem (H := node) (VStr "sword") "M1" "G1" None holdsSword in
  completion run = Return (Some (VStr "You have used this item!")) ∧
  Member.inventory (memberData (stored run) "G1" "M1")
    = Some (filter (λ x, InventoryItem.id x ≠ 1)
              (default [] (Member.inventory (memberData (storage holdsSword) "G1" "M1")))).
Proof.
  pose proof (useItem_consumes_the_item (H := node) (VStr "sword") "M1" "G1" None holdsSword
                0%nat
                {| InventoryItem.id := 1;
                   InventoryItem.itemName := VStr "sword";
                   InventoryItem.price := VNum (Int 50);
                   InventoryItem.message := VStr "You have used this item!";
                   InventoryItem.role := VNull;
                   InventoryItem.maxAmount := VNum (Int 1);
                   InventoryItem.date := "02.01.2024" |}
                eq_refl eq_refl eq_refl (or_introl eq_refl)) as Hw.
  exact (conj (proj1 Hw) (proj1 (proj2 Hw))).
Defined.

Lemma useItem_of_a_role_needs_a_client_witness :
  (InventoryItem.role <$>
     default [] (Member.inventory (memberData (storage holdsBadge) "G1" "M1")))
    = [VStr "<@&77>"] ∧
  Economy.shop.useItem (H := node) (VNum (Int 1)) "M1" "G1" None holdsBadge =
    (Throw (EconomyError "You need to specify your bot client to use this."), holdsBadge).
Proof.
  split; [reflexivity|].
  exact (useItem_of_a_role_needs_a_client (H := node) (VNum (Int 1)) "M1" "G1" holdsBadge
           0%nat
           {| InventoryItem.id := 1;
              InventoryItem.itemName := VStr "badge";
              InventoryItem.price := VNum (Int 5);
              InventoryItem.message := VStr "You have used this item!";
              InventoryItem.role := VStr "<@&77>";
              InventoryItem.maxAmount := VNull;
              InventoryItem.date := "02.01.2024" |}
           eq_refl eq_refl eq_refl eq_refl).
Defined.

Lemma buy_appends_and_debits_witness :
  let run := Economy.shop.buy (H := node) "02.01.2024" (VStr "sword") "M1" "G1" VUndefined
               twentyCoins in
  balanceOf (storage twentyCoins) "G1" "M1" = 20 ∧
  completion run = Return Economy.shop.Bought ∧
  balanceOf (stored run) "G1" "M1" = doubleZ (20 - 50).
Proof.
  split; [reflexivity|].
  pose proof (buy_appends_and_debits (H := node) "02.01.2024" (VStr "sword") "M1" "G1"
                VUndefined twentyCoins [listed 1 "sword" 50 "01.01.2024"]
                (listed 1 "sword" 50 "01.01.2024") 20 50
                eq_refl eq_refl eq_refl eq_refl eq_refl eq_refl ltac:(discriminate)) as Hw.
  exact (conj (proj1 Hw) (proj1 (proj2 Hw))).
Defined.

Lemma buy_keeps_within_the_cap_witness :
  Z.of_nat (heldOf (H := node) (VStr "sword")
              (default [] (Member.inventory (memberData (storage holdsSword) "G1" "M1")))) = 1 ∧
  Z.of_nat (heldOf (H := node) (VStr "sword")
              (default [] (Member.inventory (memberData
                 (stored (Economy.shop.buy (H := node) "03.01.2024" (VStr "sword") "M1" "G1"
                            VUndefined holdsSword)) "G1" "M1")))) ≤ 1.
Proof.
  split; [reflexivity|].
  apply (buy_keeps_within_the_cap (H := node) "03.01.2024" (VStr "sword") "M1" "G1"
           VUndefined holdsSword
           [ {| ShopItem.id := 1;
                ShopItem.itemName := VStr "sword";
                ShopItem.price := VNum (Int 50);
                ShopItem.message := VStr "You have used this item!";
                ShopItem.description := VStr "Very mysterious item.";
                ShopItem.maxAmount := VNum (Int 1);
                ShopItem.role := VNull;
                ShopItem.date := "01.01.2024" |} ]
           {| ShopItem.id := 1;
              ShopItem.itemName := VStr "sword";
              ShopItem.price := VNum (Int 50);
              ShopItem.message := VStr "You have used this item!";
              ShopItem.description := VStr "Very mysterious item.";
              ShopItem.maxAmount := VNum (Int 1);
              ShopItem.role := VNull;
              ShopItem.date := "01.01.2024" |} 1);
    [reflexivity | reflexivity | reflexivity | reflexivity | reflexivity
    | vm_compute; discriminate].
Defined.

(** ** Lazy creation, in general *)

Lemma ledger_creates_guild_and_member_witness :
  stored (Economy.subtract (H := node) (VNum (Int 4)) "M1" "G1" VNull fresh) !! "G1"
    = Some {[ "M1" := SMember (ledgerRecord Member.absent (Val (doubleZ (0 - 4))) (Val 0)) ]}.
Proof.
  exact (proj1 (proj2 (proj2
    (ledger_creates_guild_and_member (H := node) (VNum (Int 4)) 4 "M1" "G1" VNull fresh
       eq_refl eq_refl)))).
Defined.

Lemma clear_unknown_guild_throws_witness :
  Economy.shop.clearHistory "M7" "G2" holdsSword
    = (Throw (TypeError "cannot set properties of undefined"), holdsSword).
Proof.
  exact (proj2 (clear_unknown_guild_throws "M7" "G2" holdsSword eq_refl)).
Defined.

(** ** Calls that throw *)

Section Throws.
Context `{Host}.

Lemma addItem_throw date g options w e :
  completion (Economy.shop.addItem date g options w) = Throw e →
  (Economy.shop.addItem date g options w).2 = w.
Proof.
  unfold Economy.shop.addItem, completion.
  repeat (match goal with |- context [if ?b then _ else _] => destruct b end;
          [reflexivity|]).
  eco_unfold. simpl.
  destruct (shopArray (storage w) g); simpl; [|reflexivity].
  rewrite assignShop_ensure. simpl. discriminate.
Qed.

Lemma editItem_throw itemID g arg value w e :
  completion (Economy.shop.editItem itemID g arg value w) = Throw e →
  (Economy.shop.editItem itemID g arg value w).2 = w.
Proof.
  unfold Economy.shop.editItem, Economy.shop.edit, completion.
  repeat (match goal with |- context [if ?b then _ else _] => destruct b end;
          [reflexivity|]).
  eco_unfold. simpl.
  destruct (shopArray (storage w) g) as [shop|] eqn:Hshop; simpl; [|reflexivity].
  destruct (findIndex (Economy.shop.matchesShop itemID) shop) as [i|] eqn:Hi;
    [|discriminate].
  destruct (findIndex_lookup _ _ _ Hi) as [item Hitem]. rewrite Hitem.
  rewrite (assignShop_known _ _ _ _ Hshop (findIndex_Some_ne _ _ _ Hi)).
  discriminate.
Qed.

Lemma removeItem_throw itemID g w e :
  completion (Economy.shop.removeItem itemID g w) = Throw e →
  (Economy.shop.removeItem itemID g w).2 = w.
Proof.
  unfold Economy.shop.removeItem, completion.
  destruct (notNumberNorString itemID); [reflexivity|].
  eco_unfold. simpl.
  destruct (shopArray (storage w) g) as [shop|] eqn:Hshop; simpl; [|reflexivity].
  destruct (find (Economy.shop.matchesShop itemID) shop) as [item|] eqn:Hfind;
    [|discriminate].
  rewrite (assignShop_known _ _ _ _ Hshop (find_Some_ne _ _ _ Hfind)).
  discriminate.
Qed.

Lemma searchItem_throw itemID g w e :
  completion (Economy.shop.searchItem itemID g w) = Throw e →
  (Economy.shop.searchItem itemID g w).2 = w.
Proof.
  unfold Economy.shop.searchItem, completion.
  destruct (notNumberNorString itemID); [reflexivity|].
  eco_unfold. simpl.
  destruct (shopArray (storage w) g); simpl; [discriminate|reflexivity].
Qed.

Lemma buy_throw date itemID m g reason w e :
  completion (Economy.shop.buy date itemID m g reason w) = Throw e →
  (Economy.shop.buy date itemID m g reason w).2 = w.
Proof.
  unfold Economy.shop.buy, completion. eco_unfold. simpl.
  destruct (notNumberNorString itemID); [reflexivity|].
  destruct (shopArray (storage w) g) as [shop|] eqn:Hshop; simpl; [|reflexivity].
  destruct (find (Economy.shop.matchesShop itemID) shop) as [item|] eqn:Hfind;
    [|discriminate].
  match goal with |- context [if ?b then _ else _] => destruct b end; [discriminate|].
  simpl. rewrite assign_ensure. simpl. discriminate.
Qed.

Lemma useItem_throw itemID m g client w e :
  completion (Economy.shop.useItem itemID m g client w) = Throw e →
  (Economy.shop.useItem itemID m g client w).2 = w.
Proof.
  unfold Economy.shop.useItem, completion. eco_unfold. simpl.
  destruct (notNumberNorString itemID); [reflexivity|].
  destruct (findIndex _ _) as [i|] eqn:Hi; [|discriminate].
  destruct (findIndex_lookup _ _ _ Hi) as [item Hitem]. rewrite Hitem.
  assert (∃ guild, storage w !! g = Some guild) as [guild Hg].
  { pose proof (findIndex_Some_ne _ _ _ Hi) as Hne.
    destruct (default [] _) as [|x l] eqn:E; [done|]. by eapply inventory_cons. }
  destruct (truthy (InventoryItem.role item)).
  - destruct client as [c|]; [|reflexivity].
    destruct (negb _); [reflexivity|]. destruct (negb _); [reflexivity|].
    rewrite (assignMember_known _ _ _ _ _ Hg). discriminate.
  - rewrite (assignMember_known _ _ _ _ _ Hg). discriminate.
Qed.

Lemma clearInventory_throw m g w e :
  completion (Economy.shop.clearInventory m g w) = Throw e →
  (Economy.shop.clearInventory m g w).2 = w.
Proof.
  unfold Economy.shop.clearInventory, completion. eco_unfold. simpl.
  destruct (assignMember _ _ _ _); [discriminate|reflexivity].
Qed.

Lemma clearHistory_throw m g w e :
  completion (Economy.shop.clearHistory m g w) = Throw e →
  (Economy.shop.clearHistory m g w).2 = w.
Proof.
  unfold Economy.shop.clearHistory, completion. eco_unfold. simpl.
  destruct (assignMember _ _ _ _); [discriminate|reflexivity].
Qed.

Lemma clear_never_throws g w e : completion (Economy.shop.clear g w) ≠ Throw e.
Proof.
  destruct (shopArray (storage w) g) as [[|x shop]|] eqn:Hshop.
  - unfold shopArray, Economy.shop.clear in *. eco_unfold. simpl.
    destruct (storage w !! g) as [guild|]; simpl in *; [|discriminate].
    destruct (guild !! "shop") as [[r|[|y l]]|]; discriminate.
  - erewrite clear_run by done. discriminate.
  - unfold shopArray, Economy.shop.clear in *. eco_unfold. simpl.
    destruct (storage w !! g) as [guild|]; simpl in *; [|discriminate].
    destruct (guild !! "shop") as [[r|[|y l]]|]; discriminate.
Qed.

Lemma outcome_throw {A} (r : Completion A * World) e w :
  (∀ e, completion r = Throw e → r.2 = w) → (outcome r).1 = Some e → (outcome r).2 = w.
Proof.
  unfold outcome, completion. simpl. intros Hthrow.
  destruct r.1 as [a|e'] eqn:E; [discriminate|]. intros _. by eapply Hthrow.
Qed.

(** A call of the ledger or of the shop that throws has written nothing and
    emitted nothing: the world is the one the call started in. The reward
    calls are not of that kind: [work] can throw after it has written. *)
Theorem a_call_that_throws_writes_nothing c w e :
  (perform c w).1 = Some e → (perform c w).2 = w.
Proof.
  destruct c; simpl; apply outcome_throw; intros e'.
  - destruct (Number amount) as [|a] eqn:HA.
    + destruct op; simpl;
        unfold Economy.set, Economy.add, Economy.subtract, Economy.bankSet,
          Economy.bankAdd, Economy.bankSubtract, isNaN; rewrite HA; reflexivity.
    + rewrite (ledger_op_run _ _ _ _ _ _ _ HA). discriminate.
  - apply addItem_throw.
  - apply editItem_throw.
  - apply removeItem_throw.
  - apply searchItem_throw.
  - apply buy_throw.
  - apply useItem_throw.
  - apply clearInventory_throw.
  - apply clearHistory_throw.
  - intros Hc. by apply clear_never_throws in Hc.
Qed.

End Throws.

Lemma a_call_that_throws_writes_nothing_witness :
  (perform (H := node) (CallEditItem (VStr "sword") "G1" "colour" (VStr "red")) holdsSword).1
    = Some (EconomyError "arg parameter must be one of these values") ∧
  (perform (H := node) (CallEditItem (VStr "sword") "G1" "colour" (VStr "red")) holdsSword).2
    = holdsSword.
Proof.
  split; [reflexivity|].
  exact (a_call_that_throws_writes_nothing (H := node)
           (CallEditItem (VStr "sword") "G1" "colour" (VStr "red")) holdsSword
           (EconomyError "arg parameter must be one of these values") eq_refl).
Defined.

(** ** The decision of the reward manager *)

Section ManagerDecision.
Context `{Host}.

Lemma getReward_decision kind key cooldown defaultReward userCooldown
    now later random m g reason :
  let run := RewardManager.getReward kind key cooldown defaultReward userCooldown
               now later random m g reason in
  (RewardManager.status run.1 = false ↔
     ∃ t c, userCooldown = Some t ∧ cooldown = Some c ∧ c - (now - t) > 0) ∧
  (RewardManager.status run.1 = false → run.2 = []) ∧
  (RewardManager.status run.1 = true →
     RewardManager.cooldown run.1 = None ∧
     run.2 = [RewardManager.BalanceAdd (RewardManager.drawReward random defaultReward)
                m g reason;
              RewardManager.DatabaseSet (g +:+ "." +:+ m +:+ "." +:+ key) later]).
Proof.
  unfold RewardManager.getReward.
  destruct cooldown as [c|].
  - destruct userCooldown as [t|]; cbn [default from_option id].
    + rewrite (bool_decide_true (Some t ≠ None)) by done. cbn [andb].
      case_bool_decide as Hc; cbn.
      * split; [split; [eauto|done]|]. split; [done|discriminate].
      * split; [split; [discriminate|]|].
        -- intros (t' & c' & Ht & Hc' & Hpos). simplify_eq. lia.
        -- split; [discriminate|done].
    + rewrite (bool_decide_false (None ≠ None)) by (intros Hn; by apply Hn). cbn.
      split; [split; [discriminate|]|].
      * intros (t' & c' & Ht & _). discriminate.
      * split; [discriminate|done].
  - cbn. split; [split; [discriminate|]|].
    + intros (t' & c' & _ & Hc' & _). discriminate.
    + split; [discriminate|done].
Qed.

(** The manager's reward methods refuse exactly when the cooldown manager
    returns a timestamp, a cooldown is configured (by the guild's settings
    or by the options) and [cooldown - (now - timestamp) > 0]. A refusal
    makes no call; a grant carries no cooldown and makes two calls, in this
    order: [balance.add] with the reward drawn and the reason, then
    [database.set] of the key [guildID.memberID.<kind>Cooldown] to the
    clock reading [later] taken for it. *)
Theorem manager_claim_decision
    options kind settings userCooldown now later random m g reason :
  let run :=
    RewardManager.claim options kind settings userCooldown now later random m g reason in
  (RewardManager.status run.1 = false ↔
     ∃ t c, userCooldown = Some t ∧
            RewardManager.cooldownOf options kind settings = Some c ∧
            c - (now - t) > 0) ∧
  (RewardManager.status run.1 = false → run.2 = []) ∧
  (RewardManager.status run.1 = true →
     RewardManager.cooldown run.1 = None ∧
     run.2 = [RewardManager.BalanceAdd
                (RewardManager.drawReward random
                   (RewardManager.amountOf options kind settings))
                m g (defaultArg reason (claimReason kind));
              RewardManager.DatabaseSet
                (g +:+ "." +:+ m +:+ "." +:+ cooldownKey kind) later]).
Proof.
  destruct kind; apply getReward_decision.
Qed.

End ManagerDecision.
